(** * Bias computation and grouping-performance pipeline

    A shallow embedding of the merge and metric engine of the ASR bias
    discovery pipeline:

    - [python/utils.py]                          ([word_error_rate]),
    - [python/evaluation/metrics.py]             ([DiffBias], [RelDiffBias], [OverallBias]),
    - [python/evaluation/grouping_performance.py] ([GroupingPerformance]),
    - [python/evaluation/asr_performance_data.py] ([build_dataframe]),
    - [python/evaluation/filepaths.py]           ([FilepathManager]),
    - [python/clustering/grouping.py]            ([PredefinedGrouping], [Clustering]),
    - [python/clustering/data_prep.py]           ([DataPrep]),
    - [main.py]                                  ([bias_metric_pipeline2]).

    Numbers are IEEE binary64 values ([PrimFloat.float]), which is what the
    [float64] columns of the data frames hold.  The few pandas and numpy
    operations the code calls are modelled in the modules [numpy] and
    [pandas] below; the exceptions they raise are the constructors of
    [Error]. *)

From Stdlib Require Import Floats ZArith List String.
From stdpp Require Import gmap strings list sorting.
Import ListNotations.

Local Open Scope string_scope.
Local Open Scope list_scope.

(** ** Exceptions *)

(** The Python exceptions the modelled code can raise.  The specification
    calls a [KeyError] on a missing column [DataFormatError] and the
    [ValueError] of a length mismatch [ShapeMismatchError]. *)
Inductive Error : Type :=
  | KeyError (key : string)
  | TypeError
  | ValueError
  | ZeroDivisionError.

Definition DataFormatError (e : Error) : Prop := ∃ column, e = KeyError column.
Definition ShapeMismatchError : Error := ValueError.

(** A computation that returns a value or raises. *)
Definition Exc (A : Type) : Type := Error + A.

Abbreviation raise e := (inl e) (only parsing).
Abbreviation ret a := (inr a) (only parsing).
Definition bind {A B} (c : Exc A) (k : A → Exc B) : Exc B :=
  match c with
  | inl e => inl e
  | inr a => k a
  end.

Notation "'let*' x := c 'in' k" := (bind c (λ x, k))
  (at level 10, x name, c at level 100, k at level 200, only parsing).

(** ** Python dictionaries *)

(** A [dict] with string keys: the entries in insertion order, one per key. *)
Module pydict.

Definition dict (V : Type) : Type := list (string * V).

Fixpoint get {V} (k : string) (d : dict V) : option V :=
  match d with
  | [] => None
  | (k', v) :: d' => if bool_decide (k' = k) then Some v else get k d'
  end.

(** [k in d] *)
Definition contains {V} (k : string) (d : dict V) : bool :=
  match get k d with Some _ => true | None => false end.

(** [d[k] = v]: an existing key keeps its place, a new key goes last. *)
Fixpoint setitem {V} (k : string) (v : V) (d : dict V) : dict V :=
  match d with
  | [] => [(k, v)]
  | (k', v') :: d' =>
      if bool_decide (k' = k) then (k, v) :: d' else (k', v') :: setitem k v d'
  end.

Definition keys {V} (d : dict V) : list string := map fst d.

(** [{k: f(k) for k in ks}] *)
Definition comprehension {V} (f : string → V) (ks : list string) : dict V :=
  fold_left (λ d k, setitem k (f k) d) ks [].

End pydict.

(** ** numpy scalars *)

Module numpy.

(** [numpy.isnan] and [numpy.isfinite]. *)
Definition isnan (x : float) : bool := PrimFloat.is_nan x.

Definition isfinite (x : float) : bool := PrimFloat.is_finite x.

(** The [int64] value an integer result is stored as: additions in
    [int64] wrap around. *)
Definition int64 (z : Z) : Z := ((z + 2 ^ 63) mod 2 ^ 64 - 2 ^ 63)%Z.

(** An [int64] value, from [-2^63] up to [2^63 - 1], read as [float64]:
    the conversion rounds to nearest and is exact below [2^53]. *)
Definition float64 (z : Z) : float :=
  if (z =? - 2 ^ 63)%Z then (-0x1p63)%float
  else if (z <? 0)%Z then PrimFloat.opp (PrimFloat.of_uint63 (Uint63.of_Z (- z)))
  else PrimFloat.of_uint63 (Uint63.of_Z z).

(** The scalars of a row of counts: [int64] when every numeric column of
    the frame is [int64], [float64] when the row was upcast. *)
Inductive scalar : Type :=
  | int64_scalar (z : Z)
  | float64_scalar (x : float).

Definition as_float64 (a : scalar) : float :=
  match a with
  | int64_scalar z => float64 z
  | float64_scalar x => x
  end.

(** [a + b]: two [int64] scalars are added in [int64]. *)
Definition add (a b : scalar) : scalar :=
  match a, b with
  | int64_scalar x, int64_scalar y => int64_scalar (int64 (x + y))
  | _, _ => float64_scalar (PrimFloat.add (as_float64 a) (as_float64 b))
  end.

(** [a / b]: true division is done in [float64], also on two [int64]
    scalars; a zero divisor gives an infinity or NaN (and a warning). *)
Definition true_divide (a b : scalar) : float :=
  PrimFloat.div (as_float64 a) (as_float64 b).

(** *** Summation

    [ndarray.sum()] on a contiguous [float64] array
    ([DOUBLE_pairwise_sum] of numpy's [loops_utils.h.src]): fewer than
    eight cells are added from left to right; up to [PW_BLOCKSIZE] cells
    are added in eight interleaved accumulators that are then combined
    pairwise, the cells after the last full block of eight being added
    one by one; a longer array is cut in two, the first part a multiple
    of eight long, and the sums of the parts are added. *)

Definition lanes : Type :=
  float * float * float * float * float * float * float * float.

(** [for (i = 8; i < n - (n % 8); i += 8) r[k] += a[i + k]]: the
    accumulators after the full blocks and the cells that are left. *)
Fixpoint accumulate (r : lanes) (a : list float) : lanes * list float :=
  match a with
  | a0 :: a1 :: a2 :: a3 :: a4 :: a5 :: a6 :: a7 :: a' =>
      let '(r0, r1, r2, r3, r4, r5, r6, r7) := r in
      accumulate (PrimFloat.add r0 a0, PrimFloat.add r1 a1, PrimFloat.add r2 a2,
                  PrimFloat.add r3 a3, PrimFloat.add r4 a4, PrimFloat.add r5 a5,
                  PrimFloat.add r6 a6, PrimFloat.add r7 a7) a'
  | _ => (r, a)
  end.

(** The two branches for at most [PW_BLOCKSIZE] cells. *)
Definition block_sum (a : list float) : float :=
  match a with
  | a0 :: a1 :: a2 :: a3 :: a4 :: a5 :: a6 :: a7 :: a' =>
      let '((r0, r1, r2, r3, r4, r5, r6, r7), rest) :=
        accumulate (a0, a1, a2, a3, a4, a5, a6, a7) a' in
      fold_left PrimFloat.add rest
        (PrimFloat.add
           (PrimFloat.add (PrimFloat.add r0 r1) (PrimFloat.add r2 r3))
           (PrimFloat.add (PrimFloat.add r4 r5) (PrimFloat.add r6 r7)))
  | _ => fold_left PrimFloat.add a 0%float
  end.

Definition PW_BLOCKSIZE : nat := 128.

(** The recursion, on a bound of its depth. *)
Fixpoint pairwise_sum_rec (depth : nat) (a : list float) : float :=
  match depth with
  | S depth' =>
      if (PW_BLOCKSIZE <? length a)%nat then
        let n2 := (length a / 2)%nat in
        let n2 := (n2 - n2 mod 8)%nat in
        PrimFloat.add (pairwise_sum_rec depth' (take n2 a))
                      (pairwise_sum_rec depth' (drop n2 a))
      else block_sum a
  | O => block_sum a
  end.

(** The length of the array bounds the depth. *)
Definition pairwise_sum (a : list float) : float := pairwise_sum_rec (length a) a.

(** [a.sum()]: the reduction starts from the identity [0] of [add]. *)
Definition sum (a : list float) : float := PrimFloat.add 0%float (pairwise_sum a).

End numpy.

(** ** pandas Series and group-by *)

Module pandas.

(** [a != b] on float cells: IEEE inequality, true whenever a side is NaN. *)
Definition ne (a b : float) : bool := negb (PrimFloat.eqb a b).

(** One step of [Series.min()]: NaN cells are skipped. *)
Definition min2 (acc x : float) : float :=
  if numpy.isnan acc then x
  else if numpy.isnan x then acc
  else if PrimFloat.ltb x acc then x else acc.

(** [Series.min()] with the default [skipna=True]; NaN when every cell
    is NaN or the series is empty. *)
Definition Series_min (s : list float) : float := fold_left min2 s PrimFloat.nan.

Definition dropna (s : list float) : list float :=
  List.filter (λ x, negb (numpy.isnan x)) s.

(** The number of cells that are not NaN. *)
Definition count (s : list float) : Z := Z.of_nat (length (dropna s)).

(** The cells with [fill] in the place of every NaN. *)
Definition fillna (fill : float) (s : list float) : list float :=
  map (λ x, if numpy.isnan x then fill else x) s.

(** [Series.mean()] with the default [skipna=True], as pandas computes
    it with numpy ([nanops.nanmean]): the NaN cells are replaced by [0]
    where they stand, the array is summed by numpy, and the sum is
    divided by the number of cells that are not NaN; without such a cell
    the mean is NaN. *)
Definition Series_mean (s : list float) : float :=
  let the_sum := numpy.sum (fillna 0%float s) in
  if (0 <? count s)%Z then PrimFloat.div the_sum (numpy.float64 (count s))
  else PrimFloat.nan.

(** [frame[mask]]: the rows at which the boolean mask holds. *)
Fixpoint boolean_mask {A} (rows : list A) (mask : list bool) : list A :=
  match rows, mask with
  | r :: rows', b :: mask' =>
      if b then r :: boolean_mask rows' mask' else boolean_mask rows' mask'
  | _, _ => []
  end.

(** *** Data frames *)

(** A column is an [object] column of strings or a [float64] column. *)
Inductive Column : Type :=
  | StrCol (cells : list string)
  | NumCol (cells : list float).

(** A frame: the length of its (range) index and its named columns, each
    holding one cell per index entry. *)
Record DataFrame : Type := { index : nat; columns : list (string * Column) }.

(** [frame.columns.tolist()] *)
Definition column_names (frame : DataFrame) : list string := map fst (columns frame).

(** [frame[name]] *)
Definition getitem (frame : DataFrame) (name : string) : Exc Column :=
  match pydict.get name (columns frame) with
  | Some c => ret c
  | None => raise (KeyError name)
  end.

(** [frame[name] = column], for a column on the frame's own index. *)
Definition setitem (frame : DataFrame) (name : string) (c : Column) : DataFrame :=
  {| index := index frame; columns := pydict.setitem name c (columns frame) |}.

(** [frame[names]] *)
Fixpoint select (frame : DataFrame) (names : list string) : Exc (list (string * Column)) :=
  match names with
  | [] => ret []
  | name :: names' =>
      let* c := getitem frame name in
      let* cs := select frame names' in
      ret ((name, c) :: cs)
  end.

(** [frame.drop(columns=names, errors='ignore')] *)
Definition drop (frame : DataFrame) (names : list string) : DataFrame :=
  {| index := index frame;
     columns := List.filter (λ c, negb (bool_decide (c.1 ∈ names))) (columns frame) |}.

(** [a * b] on two columns of one frame. *)
Definition Series_mul (a b : Column) : Exc Column :=
  match a, b with
  | NumCol x, NumCol y => ret (NumCol (zip_with PrimFloat.mul x y))
  | _, _ => raise TypeError
  end.

(** [a / k] for a scalar [k]. *)
Definition Series_div (a : Column) (k : float) : Exc Column :=
  match a with
  | NumCol x => ret (NumCol (map (λ v, PrimFloat.div v k) x))
  | StrCol _ => raise TypeError
  end.

(** A column of an empty frame once the frame takes on a new index of
    length [n]: every cell is missing (NaN). *)
Definition reindex_empty (n : nat) (c : Column) : Column := NumCol (repeat PrimFloat.nan n).

(** [frame.assign] with one keyword, [name = values], for a list of
    labels.  The new column is set on a copy of the frame.  Setting a
    list-like value first makes sure the frame has an index
    ([DataFrame._ensure_valid_index]): a frame whose index is empty takes
    the index of a non-empty value, and its columns are filled with
    missing cells.  After that the length of the value must match the
    length of the index, or [ValueError] ("Length of values does not
    match length of index") is raised. *)
Definition assign (frame : DataFrame) (name : string) (values : list string) : Exc DataFrame :=
  let frame :=
    if bool_decide (index frame = 0 ∧ length values ≠ 0)
    then {| index := length values;
            columns := map (λ '(n, c), (n, reindex_empty (length values) c))
                           (columns frame) |}
    else frame in
  if bool_decide (length values = index frame)
  then ret (setitem frame name (StrCol values))
  else raise ValueError.

(** *** Group-by and merge *)

(** Group keys are visited in sorted order ([sort=True]): strings by
    code point, tuples of keys lexicographically. *)
Definition str_le (a b : string) : Prop := String.leb a b = true.

Definition str2_le (a b : string * string) : Prop :=
  match String.compare a.1 b.1 with
  | Lt => True
  | Eq => str_le a.2 b.2
  | Gt => False
  end.

#[global] Instance str_le_dec a b : Decision (str_le a b).
Proof. unfold str_le. apply _. Defined.

#[global] Instance str2_le_dec a b : Decision (str2_le a b).
Proof. unfold str2_le. destruct (String.compare a.1 b.1); apply _. Defined.

Definition sorted_keys {K} `{EqDecision K} (le : K → K → Prop)
    `{∀ a b, Decision (le a b)} (ks : list K) : list K :=
  merge_sort le (remove_dups ks).

(** [for name, group in frame.groupby(key)]: one pair per distinct key,
    each group holding its rows in frame order. *)
Definition groupby {A K} `{EqDecision K} (le : K → K → Prop)
    `{∀ a b, Decision (le a b)} (key : A → K) (rows : list A) : list (K * list A) :=
  map (λ k, (k, List.filter (λ r, bool_decide (key r = k)) rows))
      (sorted_keys le (map key rows)).

(** [left.merge(right, on=key)] with the default [how='inner']: every
    pair of a left and a right row that agree on the key. *)
Definition merge {A B} (left : list A) (right : list B)
    (left_on : A → string) (right_on : B → string) : list (A * B) :=
  flat_map
    (λ a, map (pair a) (List.filter (λ b, bool_decide (right_on b = left_on a)) right))
    left.

(** One cell per row, for a frame with a ['Filename'] column of strings
    and a label column of strings: the rows of the frame as the merge
    and the group-by see them. *)
Record labeled_row : Type := {
  Filename : string;
  label : string;
  features : list (string * float)
}.

Definition row_features (cols : list (string * Column)) (i : nat) : list (string * float) :=
  omap (λ '(name, c),
          match c with
          | NumCol cells => pair name <$> cells !! i
          | StrCol _ => None
          end) cols.

(** A ['Filename'] column that is not a string column cannot be merged
    with a string key ([ValueError]); a missing one is a [KeyError]. *)
Definition labeled_rows (frame : DataFrame) (label_fieldname : string)
  : Exc (list labeled_row) :=
  let* names := getitem frame "Filename" in
  let* labels := getitem frame label_fieldname in
  match names, labels with
  | StrCol names, StrCol labels =>
      ret (imap (λ i '(name, l),
                   {| Filename := name; label := l;
                      features := row_features (columns frame) i |})
                (zip names labels))
  | _, _ => raise ValueError
  end.

End pandas.

(** ** python/utils.py *)

Module utils.

(** [((insertions + deletions + substitutions) / words) * 100], on the
    numpy scalars of a row as [get_group_WERs] passes them. *)
Definition word_error_rate (insertions deletions substitutions words : numpy.scalar)
  : float :=
  PrimFloat.mul
    (numpy.true_divide (numpy.add (numpy.add insertions deletions) substitutions) words)
    100%float.

End utils.

(** ** python/evaluation/metrics.py *)

Module metrics.

(** The [BiasMeasure] interface: [compute_bias] and [metric_name], with
    [compute_bias] as [OverallBias.compute] calls it: on a cell of the
    WER column and the reference, which comes from [Series.min()] and is
    a numpy [float64] scalar, so that the operations are numpy's and a
    division by zero gives an infinity or NaN and does not raise. *)
Record BiasMeasure : Type := {
  compute_bias : float → float → float;
  metric_name : string
}.

Definition DiffBias : BiasMeasure := {|
  compute_bias group_error_rate reference_error_rate :=
    PrimFloat.sub group_error_rate reference_error_rate;
  metric_name := "Difference Bias"
|}.

Definition RelDiffBias : BiasMeasure := {|
  compute_bias group_error_rate reference_error_rate :=
    PrimFloat.div (PrimFloat.sub group_error_rate reference_error_rate)
                  reference_error_rate;
  metric_name := "Relative Difference Bias"
|}.

(** The methods on the two kinds of argument they can be given: a
    Python [float], the documented type, and a numpy [float64] scalar.
    An operation with a numpy operand is numpy's and gives a numpy
    scalar; the quotient of two Python floats raises
    [ZeroDivisionError] for a zero divisor. *)
Inductive number : Type :=
  | python_float (x : float)
  | numpy_float64 (x : float).

Definition value (a : number) : float :=
  match a with python_float x | numpy_float64 x => x end.

Definition is_numpy (a : number) : bool :=
  match a with python_float _ => false | numpy_float64 _ => true end.

(** [a - b] *)
Definition number_sub (a b : number) : number :=
  let difference := PrimFloat.sub (value a) (value b) in
  if is_numpy a || is_numpy b then numpy_float64 difference
  else python_float difference.

(** [a / b] *)
Definition number_div (a b : number) : Exc number :=
  let quotient := PrimFloat.div (value a) (value b) in
  if is_numpy a || is_numpy b then ret (numpy_float64 quotient)
  else if PrimFloat.eqb (value b) 0%float then raise ZeroDivisionError
  else ret (python_float quotient).

(** [RelDiffBias.compute_bias] *)
Definition RelDiffBias_compute_bias (group_error_rate reference_error_rate : number)
  : Exc number :=
  number_div (number_sub group_error_rate reference_error_rate) reference_error_rate.

(** A row of the WER-per-group-per-model frame: the [(Model, group)]
    index and the [WER] column. *)
Record wer_row : Type := { Model : string; Group : string; WER : float }.

(** The same row once the [Bias] column is assigned. *)
Record bias_row : Type := { row : wer_row; Bias : float }.

(** The body of the loop of [OverallBias.compute] for one model. *)
Definition compute_model (bias_measure : BiasMeasure) (group : list wer_row)
  : float * list bias_row :=
  let reference_error_rate := pandas.Series_min (map WER group) in
  let misrecognized_groups :=
    map (λ x, pandas.ne x reference_error_rate) (map WER group) in
  let group' :=
    map (λ r, {| row := r;
                 Bias := compute_bias bias_measure (WER r) reference_error_rate |})
        group in
  let overall_bias := pandas.Series_mean (map Bias group') in
  let group_without_reference := pandas.boolean_mask group' misrecognized_groups in
  let overall_bias := pandas.Series_mean (map Bias group_without_reference) in
  (overall_bias, group').

(** [OverallBias.compute]: the overall bias per model (the dictionary
    [overall_bias_per_model]) and the concatenated per-group frame. *)
Definition OverallBias_compute (bias_measure : BiasMeasure)
    (error_rates_per_group : list wer_row) : gmap string float * list bias_row :=
  fold_left
    (λ '(overall_bias_per_model, bias_results) '(name, group),
       let '(overall_bias, group') := compute_model bias_measure group in
       (<[name := overall_bias]> overall_bias_per_model, bias_results ++ group'))
    (pandas.groupby pandas.str_le Model error_rates_per_group)
    (∅, []).

(** The overall bias as the specification words it: the reference is the
    minimum WER of the model's groups, and the result is the mean of the
    biases of the groups whose WER differs from it. *)
Definition overall_bias_spec (bias_measure : BiasMeasure)
    (error_rates_per_group : list wer_row) (model : string) : option float :=
  let groups := List.filter (λ r, bool_decide (Model r = model)) error_rates_per_group in
  match groups with
  | [] => None
  | _ =>
      let reference := pandas.Series_min (map WER groups) in
      let others := List.filter (λ r, pandas.ne (WER r) reference) groups in
      Some (pandas.Series_mean
              (map (λ r, compute_bias bias_measure (WER r) reference) others))
  end.

End metrics.

(** ** python/clustering/data_prep.py *)

Module data_prep.
Import pandas.

(** The array a scaler returns. *)
Definition ndarray : Type := list (list float).

Record DataPrep : Type := {
  speaking_style : string;
  data : DataFrame;
  audiofile_ids : Column;
  custom_features : pydict.dict (string * string);
  normalized_data : option ndarray
}.

Definition articulation_rate : string := "Mean Articulation Rate (phpm)".

(** The phoneme duration fields the constructor rescales, in its order. *)
Definition duration_fields : list string :=
  [ "Mean Duration O (s)"; "Mean Duration E (s)"; "Mean Duration A (s)";
    "Mean Duration u (s)"; "Mean Duration @ (s)" ].

(** One of the five conditionals:
    [if field in columnlist:
       data[field] = data[field] * data['Mean Articulation Rate (phpm)'] / 60] *)
Definition engineer_duration (columnlist : list string) (field : string)
    (data : DataFrame) : Exc DataFrame :=
  if bool_decide (field ∈ columnlist) then
    let* duration := getitem data field in
    let* rate := getitem data articulation_rate in
    let* product := Series_mul duration rate in
    let* relative := Series_div product 60%float in
    ret (setitem data field relative)
  else ret data.

Definition engineer_durations (data : DataFrame) : Exc DataFrame :=
  let columnlist := column_names data in
  let* data := engineer_duration columnlist "Mean Duration O (s)" data in
  let* data := engineer_duration columnlist "Mean Duration E (s)" data in
  let* data := engineer_duration columnlist "Mean Duration A (s)" data in
  let* data := engineer_duration columnlist "Mean Duration u (s)" data in
  engineer_duration columnlist "Mean Duration @ (s)" data.

(** The loop [for csvfield in feature_dict: ...] over a dictionary. *)
Definition override_features (feature_dict custom_features : pydict.dict (string * string))
  : pydict.dict (string * string) :=
  fold_left
    (λ custom_features csvfield,
       if pydict.contains csvfield custom_features then
         match pydict.get csvfield feature_dict with
         | Some entry => pydict.setitem csvfield entry custom_features
         | None => custom_features
         end
       else custom_features)
    (pydict.keys feature_dict) custom_features.

(** [DataPrep.__init__], from the frame [pd.read_csv] returns.  The
    default [feature_dict=None] is [None] here; iterating over it raises
    [TypeError]. *)
Definition DataPrep_init (csv : DataFrame) (speaking_style : string)
    (feature_dict : option (pydict.dict (string * string)))
    (dropcolumns : list string) : Exc DataPrep :=
  let* data := engineer_durations csv in
  let data := drop data dropcolumns in
  let* audiofile_ids := getitem data "Filename" in
  let csv_feature_fields := tail (column_names data) in
  let custom_features :=
    pydict.comprehension (λ csvfield, (csvfield, "Value")) csv_feature_fields in
  let* custom_features :=
    match feature_dict with
    | None => raise TypeError
    | Some feature_dict => ret (override_features feature_dict custom_features)
    end in
  ret {| speaking_style := speaking_style;
         data := data;
         audiofile_ids := audiofile_ids;
         custom_features := custom_features;
         normalized_data := None |}.

(** Scalers are objects with a [fit_transform] method that fits the
    scaler, and so changes it, and returns the transformed array or
    raises; [check_normality] stands for the optional diagnostic
    (the Shapiro-Wilk table that is printed). *)
Section normalization.
Context {Scaler : Type}.
Variable fit_transform : Scaler → list (string * Column) → Exc (Scaler * ndarray).
Variable check_normality : DataFrame → list string → Exc unit.

Definition set_normalized_data (self : DataPrep) (a : ndarray) : DataPrep :=
  {| speaking_style := speaking_style self;
     data := data self;
     audiofile_ids := audiofile_ids self;
     custom_features := custom_features self;
     normalized_data := Some a |}.

(** [DataPrep.normalize_data]: the object and the scaler after the call. *)
Definition normalize_data (self : DataPrep) (scaler : Scaler) (check : bool)
  : Exc (DataPrep * Scaler) :=
  let feature_columns := pydict.keys (custom_features self) in
  let* _ := if check then check_normality (data self) feature_columns else ret tt in
  let* features := select (data self) feature_columns in
  let* fitted := fit_transform scaler features in
  ret (set_normalized_data self fitted.2, fitted.1).

(** [DataPrep.get_normalized_data]: the returned attribute, the object
    and the scaler after the call. *)
Definition get_normalized_data (self : DataPrep) (scaler : Scaler)
  : Exc (option ndarray * DataPrep * Scaler) :=
  let* after :=
    match normalized_data self with
    | None => normalize_data self scaler false
    | Some _ => ret (self, scaler)
    end in
  ret (normalized_data after.1, after.1, after.2).

End normalization.

End data_prep.

(** ** python/clustering/grouping.py *)

Module grouping.
Import pandas data_prep.

Record Grouping : Type := {
  grouping_data_prep : DataPrep;
  label_fieldname : string;
  group_labels : list string;
  data_with_group_labels : DataFrame
}.

(** [Grouping._add_labels]: the frame with the label column assigned. *)
Definition _add_labels (data_prep : DataPrep) (label_fieldname : string)
    (group_labels : list string) : Exc DataFrame :=
  assign (data data_prep) label_fieldname group_labels.

(** [PredefinedGrouping.__init__] *)
Definition PredefinedGrouping (data_prep : DataPrep) (group_labels : list string)
  : Exc Grouping :=
  let label_fieldname := "Group" in
  let* data_with_group_labels := _add_labels data_prep label_fieldname group_labels in
  ret {| grouping_data_prep := data_prep;
         label_fieldname := label_fieldname;
         group_labels := group_labels;
         data_with_group_labels := data_with_group_labels |}.

(** [Clustering.__init__], for an algorithm whose [fit_predict] gives one
    label per row of the normalized array or raises. *)
Definition Clustering {Scaler : Type}
    (fit_transform : Scaler → list (string * Column) → Exc (Scaler * ndarray))
    (check_normality : DataFrame → list string → Exc unit)
    (default_scaler : Scaler)
    (fit_predict : ndarray → Exc (list string))
    (data_prep : DataPrep) : Exc Grouping :=
  let label_fieldname := "Cluster" in
  let* normalized :=
    get_normalized_data fit_transform check_normality data_prep default_scaler in
  let* group_labels :=
    match normalized.1.1 with
    | Some a => fit_predict a
    | None => raise ValueError
    end in
  let* data_with_group_labels :=
    _add_labels normalized.1.2 label_fieldname group_labels in
  ret {| grouping_data_prep := normalized.1.2;
         label_fieldname := label_fieldname;
         group_labels := group_labels;
         data_with_group_labels := data_with_group_labels |}.

End grouping.

(** ** python/evaluation/asr_performance_data.py *)

Module asr_performance_data.

(** A row of an error-count file, on the columns that are read:
    [['SPKR', '# Wrd', 'Sub', 'Del', 'Ins']]. *)
Record error_counts : Type := {
  SPKR : string;
  Wrd : Z;
  Sub : Z;
  Del : Z;
  Ins : Z
}.

(** The same row with the ['Model'] column added. *)
Record model_error_row : Type := { counts : error_counts; Model : string }.

(** A row of the metadata file: the speaker, the recording of the
    speaker in this speaking style and the predefined speaker group. *)
Record meta_row : Type := {
  meta_SPKR : string;
  meta_Filename : string;
  meta_Group : string
}.

Definition performance_row : Type := meta_row * model_error_row.

(** [AsrPerformanceData.build_dataframe], from the metadata frame, the
    configured speaker groups and models, and the frame read for each
    pair of them. *)
Definition build_dataframe (meta_data : list meta_row)
    (speaker_groups asr_models : list string)
    (read_csv : string → string → list error_counts) : list performance_row :=
  let all_model_error_data :=
    flat_map
      (λ group,
         map (λ model,
                map (λ c, {| counts := c; Model := model |}) (read_csv group model))
             asr_models)
      speaker_groups in
  let combined_model_error_data := concat all_model_error_data in
  pandas.merge meta_data combined_model_error_data meta_SPKR (λ r, SPKR (counts r)).

End asr_performance_data.

(** ** python/evaluation/grouping_performance.py *)

Module grouping_performance.
Import pandas asr_performance_data.

(** A row of the merged frame: the recognition output of a speaker for
    a model and the labeled features of the recording. *)
Definition analysis_row : Type := performance_row * labeled_row.

Record GroupingPerformance : Type := {
  grouping : grouping.Grouping;
  asr_performance : list performance_row;
  merged_data : list analysis_row
}.

(** [GroupingPerformance.merge_data] *)
Definition merge_data (grouping : grouping.Grouping)
    (asr_performance : list performance_row) : Exc (list analysis_row) :=
  let* grouping_data :=
    labeled_rows (grouping.data_with_group_labels grouping)
                 (grouping.label_fieldname grouping) in
  let performance_data := asr_performance in
  ret (merge performance_data grouping_data (λ r, meta_Filename r.1) Filename).

(** [GroupingPerformance.__init__] *)
Definition GroupingPerformance_init (grouping : grouping.Grouping)
    (asr_performance : list performance_row) : Exc GroupingPerformance :=
  let* merged_data := merge_data grouping asr_performance in
  ret {| grouping := grouping;
         asr_performance := asr_performance;
         merged_data := merged_data |}.

(** The group-assignment columns of the merged frame.  The metadata
    brings ['Group'] and the grouping brings its label column; when both
    are called ['Group'] the merge renames them ['Group_x'] and
    ['Group_y'], and no column ['Group'] is left. *)
Definition label_column (self : GroupingPerformance) (label_fieldname : string)
  : Exc (analysis_row → string) :=
  let grouping_label := grouping.label_fieldname (grouping self) in
  if bool_decide (label_fieldname = "Group") then
    if bool_decide (grouping_label = "Group") then raise (KeyError label_fieldname)
    else ret (λ r, meta_Group r.1.1)
  else if bool_decide (label_fieldname = grouping_label) then ret (λ r, label r.2)
  else raise (KeyError label_fieldname).

Definition Z_sum (l : list Z) : Z := fold_left Z.add l 0%Z.

(** [agg('sum')] on a count column of a group of rows: the cells are
    added in [int64], so the sum wraps around. *)
Definition column_sum (column : error_counts → Z) (rows : list analysis_row) : Z :=
  numpy.int64 (Z_sum (map (λ r, column (counts r.1.2)) rows)).

(** The numeric columns of the merged frame are the [int64] counts and
    the [float64] features: the frame has a float column when a row has a
    feature cell. *)
Definition float_columns (merged : list analysis_row) : bool :=
  existsb (λ r, match features r.2 with [] => false | _ => true end) merged.

(** A cell of a row of the summed frame as [apply(..., axis=1)] hands it
    to the function: the row is a [float64] row when the frame has a
    float column, and an [int64] row otherwise. *)
Definition row_cell (float_row : bool) (z : Z) : numpy.scalar :=
  if float_row then numpy.float64_scalar (numpy.float64 z) else numpy.int64_scalar z.

(** The WER of a group of rows from its summed counts:
    [word_error_rate(spkr['Sub'], spkr['Del'], spkr['Ins'], spkr['# Wrd'])]. *)
Definition group_WER (float_row : bool) (rows : list analysis_row) : float :=
  utils.word_error_rate
    (row_cell float_row (column_sum Sub rows)) (row_cell float_row (column_sum Del rows))
    (row_cell float_row (column_sum Ins rows)) (row_cell float_row (column_sum Wrd rows)).

(** [GroupingPerformance.get_group_WERs] *)
Definition get_group_WERs (self : GroupingPerformance) (label_fieldname : string)
  : Exc (list metrics.wer_row) :=
  let* label := label_column self label_fieldname in
  let grouped :=
    groupby str2_le (λ r, (Model r.1.2, label r)) (merged_data self) in
  let float_row := float_columns (merged_data self) in
  ret (map (λ '((model, group), rows),
              {| metrics.Model := model;
                 metrics.Group := group;
                 metrics.WER := group_WER float_row rows |})
           grouped).

End grouping_performance.

(** * Specification-side definitions and examples *)

Section overall_bias_examples.
Import pandas metrics.

(** The reference WER of a model in a group-WER frame. *)
Definition reference_WER (error_rates_per_group : list wer_row) (model : string) : float :=
  Series_min
    (map WER (List.filter (λ r, bool_decide (Model r = model)) error_rates_per_group)).

(** Group WERs {A: 10, B: 10, C: 20} of one model. *)
Definition tied_minimum : list wer_row :=
  [ {| Model := "M"; Group := "A"; WER := 10%float |};
    {| Model := "M"; Group := "B"; WER := 10%float |};
    {| Model := "M"; Group := "C"; WER := 20%float |} ].

(** Group WERs {A: NaN, B: 30, C: 10} of one model: group A has no
    words and no errors. *)
Definition group_without_rate : list wer_row :=
  [ {| Model := "M"; Group := "A"; WER := PrimFloat.nan |};
    {| Model := "M"; Group := "B"; WER := 30%float |};
    {| Model := "M"; Group := "C"; WER := 10%float |} ].

(** One group with WER 0 and ten groups with WER 0.1, the [float64]
    value [0x1.999999999999ap-4]. *)
Definition eleven_groups : list wer_row :=
  {| Model := "M"; Group := "reference"; WER := 0%float |}
  :: map (λ name, {| Model := "M"; Group := name; WER := 0x1.999999999999ap-4%float |})
         ["a"; "b"; "c"; "d"; "e"; "f"; "g"; "h"; "i"; "j"].

(** The mean as the plain quotient of the sum of all cells, added from
    left to right, by their number. *)
Definition arithmetic_mean (cells : list float) : float :=
  PrimFloat.div (fold_left PrimFloat.add cells 0%float)
                (numpy.float64 (Z.of_nat (length cells))).

End overall_bias_examples.

Section merge_examples.
Import pandas data_prep grouping asr_performance_data grouping_performance.

(** The identifier of a row of the recognition output and of the merged
    frame. *)
Definition performance_Filename (r : performance_row) : string := meta_Filename r.1.

Definition merged_Filename (r : analysis_row) : string := meta_Filename r.1.1.

(** The concatenated error rows [build_dataframe] joins the metadata with. *)
Definition combined_model_error_data (speaker_groups asr_models : list string)
    (read_csv : string → string → list error_counts) : list model_error_row :=
  concat
    (flat_map
       (λ group,
          map (λ model,
                 map (λ c, {| counts := c; Model := model |}) (read_csv group model))
              asr_models)
       speaker_groups).

(** A feature source with the recordings 1, 2, 3, and the recognition
    output of one model for the recordings 2, 3, 4. *)
Definition features_123 : DataFrame :=
  {| index := 3;
     columns := [ ("Filename", StrCol ["1"; "2"; "3"]);
                  ("Mean Pitch (Hz)",
                   NumCol [numpy.float64 110; numpy.float64 220; numpy.float64 180]) ] |}.

Definition speaker (id group : string) (words errors : Z) (model : string)
  : performance_row :=
  ({| meta_SPKR := id; meta_Filename := id; meta_Group := group |},
   {| counts := {| SPKR := id; Wrd := words; Sub := errors; Del := 0; Ins := 0 |};
      Model := model |}).

Definition output_234 : list performance_row :=
  [ speaker "2" "DC" 20 2 "M"; speaker "3" "DT" 20 4 "M"; speaker "4" "DT" 20 1 "M" ].

Definition grouping_123 : Grouping :=
  {| grouping_data_prep :=
       {| speaking_style := "read"; data := features_123;
          audiofile_ids := StrCol ["1"; "2"; "3"];
          custom_features := [("Mean Pitch (Hz)", ("Mean Pitch (Hz)", "Value"))];
          normalized_data := None |};
     label_fieldname := "Group";
     group_labels := ["a"; "b"; "a"];
     data_with_group_labels := setitem features_123 "Group" (StrCol ["a"; "b"; "a"]) |}.

Definition labeled_123 : list labeled_row :=
  [ {| Filename := "1"; label := "a";
       features := [("Mean Pitch (Hz)", numpy.float64 110)] |};
    {| Filename := "2"; label := "b";
       features := [("Mean Pitch (Hz)", numpy.float64 220)] |};
    {| Filename := "3"; label := "a";
       features := [("Mean Pitch (Hz)", numpy.float64 180)] |} ].

(** One recording with the output of two models, and one speaker with
    the error rows of two models. *)
Definition features_1 : DataFrame :=
  {| index := 1;
     columns := [ ("Filename", StrCol ["1"]);
                  ("Mean Pitch (Hz)", NumCol [numpy.float64 110]);
                  ("Cluster", StrCol ["0"]) ] |}.

Definition clustering_1 : Grouping :=
  {| grouping_data_prep :=
       {| speaking_style := "read"; data := drop features_1 ["Cluster"];
          audiofile_ids := StrCol ["1"];
          custom_features := [("Mean Pitch (Hz)", ("Mean Pitch (Hz)", "Value"))];
          normalized_data := None |};
     label_fieldname := "Cluster";
     group_labels := ["0"];
     data_with_group_labels := features_1 |}.

Definition labeled_1 : list labeled_row :=
  [ {| Filename := "1"; label := "0";
       features := [("Mean Pitch (Hz)", numpy.float64 110)] |} ].

Definition output_two_models : list performance_row :=
  [ speaker "1" "DC" 20 2 "M1"; speaker "1" "DC" 20 3 "M2" ].

Definition meta_1 : list meta_row :=
  [ {| meta_SPKR := "1"; meta_Filename := "1"; meta_Group := "DC" |} ].

Definition read_two_models (group model : string) : list error_counts :=
  [ {| SPKR := "1"; Wrd := 20; Sub := 2; Del := 0; Ins := 0 |} ].

End merge_examples.

Section group_WERs_examples.
Import pandas data_prep grouping asr_performance_data grouping_performance.

(** The rows of a model and a group in the merged frame. *)
Definition rows_of (merged : list analysis_row) (label : analysis_row → string)
    (model group : string) : list analysis_row :=
  List.filter (λ a, bool_decide ((Model a.1.2, label a) = (model, group))) merged.

(** Two recordings of one cluster under one model whose counts add up
    to S = 2, D = 1, I = 1, W = 20. *)
Definition recording (id cluster model : string) (wrd sub del ins : Z) : analysis_row :=
  (({| meta_SPKR := id; meta_Filename := id; meta_Group := "DC" |},
    {| counts := {| SPKR := id; Wrd := wrd; Sub := sub; Del := del; Ins := ins |};
       Model := model |}),
   {| Filename := id; label := cluster; features := [] |}).

Definition performance_2_1_1_20 : GroupingPerformance :=
  {| grouping := clustering_1;
     asr_performance := [];
     merged_data := [ recording "1" "0" "M" 12 1 1 0; recording "2" "0" "M" 8 1 0 1 ] |}.

(** The same two recordings with a feature column in the frame. *)
Definition with_pitch (r : analysis_row) : analysis_row :=
  (r.1, {| Filename := Filename r.2; label := label r.2;
           features := [("Mean Pitch (Hz)", 110%float)] |}).

Definition performance_2_1_1_20_features : GroupingPerformance :=
  {| grouping := clustering_1;
     asr_performance := [];
     merged_data := map with_pitch (merged_data performance_2_1_1_20) |}.

(** Two recordings of one cluster with [2^62] substitutions each and
    eight words together. *)
Definition performance_overflow : GroupingPerformance :=
  {| grouping := clustering_1;
     asr_performance := [];
     merged_data := [ recording "1" "0" "M" 4 (2 ^ 62) 0 0;
                      recording "2" "0" "M" 4 (2 ^ 62) 0 0 ] |}.

(** The WER formula on the exact sums of the counts, each sum rounded to
    [float64]. *)
Definition exact_sum (column : error_counts → Z) (rows : list analysis_row) : Z :=
  Z_sum (map (λ r, column (counts r.1.2)) rows).

End group_WERs_examples.

Section duration_definitions.
Import pandas data_prep.

(** [duration * articulationRate / 60] *)
Definition relative_duration (duration rate : float) : float :=
  PrimFloat.div (PrimFloat.mul duration rate) 60%float.

(** What a lookup of a duration field gives after the constructor, from
    the lookups of the field and of the articulation rate in the source. *)
Definition rescaled (duration rate : Exc Column) : Exc Column :=
  match duration, rate with
  | inr (NumCol d), inr (NumCol r) => inr (NumCol (zip_with relative_duration d r))
  | other, _ => other
  end.

(** The feature columns of a source are numeric. *)
Definition numeric_features (frame : DataFrame) : Prop :=
  ∀ name c, name ≠ "Filename" → getitem frame name = inr c → ∃ cells, c = NumCol cells.

(** The five conditionals as an iteration over [duration_fields]. *)
Fixpoint engineer_fields (columnlist fields : list string) (data : DataFrame)
  : Exc DataFrame :=
  match fields with
  | [] => ret data
  | field :: fields' =>
      let* data := engineer_duration columnlist field data in
      engineer_fields columnlist fields' data
  end.

End duration_definitions.

Section identifier_examples.
Import pandas data_prep.

(** A source without the identifier column and with numeric features. *)
Definition features_without_identifier : DataFrame :=
  {| index := 2;
     columns := [ ("Mean Pitch (Hz)", NumCol [numpy.float64 110; numpy.float64 220]);
                  ("Mean Articulation Rate (phpm)",
                   NumCol [numpy.float64 600; numpy.float64 720]) ] |}.

End identifier_examples.

Section duration_examples.
Import pandas data_prep.

(** A source with the durations of two of the five phonemes. *)
Definition features_durations : DataFrame :=
  {| index := 2;
     columns := [ ("Filename", StrCol ["1"; "2"]);
                  ("Mean Articulation Rate (phpm)", NumCol [600%float; 720%float]);
                  ("Mean Duration O (s)", NumCol [3%float; 5%float]);
                  ("Mean Duration @ (s)", NumCol [1%float; 2%float]);
                  ("Mean Pitch (Hz)", NumCol [110%float; 220%float]) ] |}.

End duration_examples.

Section normalization_examples.
Import pandas data_prep.

(** A scaler that counts its fits and returns one constant row per call. *)
Definition counting_scaler (fits : nat) (features : list (string * Column))
  : Exc (nat * ndarray) :=
  inr (S fits, [[numpy.float64 (Z.of_nat fits)]]).

Definition normalized_prep : DataPrep :=
  {| speaking_style := "read"; data := features_123;
     audiofile_ids := StrCol ["1"; "2"; "3"];
     custom_features := [("Mean Pitch (Hz)", ("Mean Pitch (Hz)", "Value"))];
     normalized_data := Some [[numpy.float64 7]] |}.

End normalization_examples.

Section predefined_grouping_examples.
Import pandas data_prep grouping.

(** A source with a header and no rows. *)
Definition features_header_only : DataFrame :=
  {| index := 0;
     columns := [ ("Filename", StrCol []); ("Mean Pitch (Hz)", StrCol []) ] |}.

End predefined_grouping_examples.

Section group_WER_table_definitions.
Import pandas asr_performance_data grouping_performance.

(** The table [get_group_WERs] returns for a resolved label column. *)
Definition group_WER_table (merged : list analysis_row)
    (label : analysis_row → string) : list metrics.wer_row :=
  map (λ '((model, group), rows),
         {| metrics.Model := model; metrics.Group := group;
            metrics.WER := group_WER (float_columns merged) rows |})
      (groupby str2_le (λ a, (Model a.1.2, label a)) merged).

End group_WER_table_definitions.

(** * Further functions of the pipeline *)

(** ** numpy and pandas: distinct values and counts *)

Module tables.
Import pandas.

(** [np.unique(values, return_counts=True)]: the distinct values in
    ascending order and the number of times each occurs. *)
Definition unique_counts (values : list string) : list string * list nat :=
  let unique := sorted_keys str_le values in
  (unique,
   map (λ v, length (List.filter (λ x, bool_decide (x = v)) values)) unique).

(** [Series.unique()]: the distinct values in order of first appearance. *)
Fixpoint unique (values : list string) : list string :=
  match values with
  | [] => []
  | v :: values' => v :: List.filter (λ x, negb (bool_decide (x = v))) (unique values')
  end.

(** A table of counts: the column labels and, for each index label, the
    cells of its row. *)
Record Crosstab : Type := {
  ct_columns : list string;
  ct_rows : list (string * list nat)
}.

(** [pd.crosstab(a, b)] for two aligned columns given as pairs: index
    and columns are the distinct values in ascending order, a cell is the
    number of pairs with its index and column label. *)
Definition crosstab (pairs : list (string * string)) : Crosstab :=
  let index := sorted_keys str_le (map fst pairs) in
  let cols := sorted_keys str_le (map snd pairs) in
  {| ct_columns := cols;
     ct_rows :=
       map (λ i, (i, map (λ c, length (List.filter (λ p, bool_decide (p = (i, c))) pairs))
                         cols))
           index |}.

(** [cells[position] = value] in a row; past the end the cell is added. *)
Fixpoint set_cell (cells : list nat) (position : nat) (value : nat) : list nat :=
  match cells, position with
  | [], _ => [value]
  | _ :: cells', O => value :: cells'
  | c :: cells', S position' => c :: set_cell cells' position' value
  end.

(** The position of a column label, or the number of columns when the
    label is new. *)
Fixpoint column_position (name : string) (cols : list string) : nat :=
  match cols with
  | [] => O
  | c :: cols' => if bool_decide (c = name) then O else S (column_position name cols')
  end.

(** [table[name] = values]: an existing column is replaced, a new one is
    added last. *)
Definition set_column (table : Crosstab) (name : string) (values : list nat) : Crosstab :=
  let position := column_position name (ct_columns table) in
  {| ct_columns :=
       if bool_decide (name ∈ ct_columns table) then ct_columns table
       else ct_columns table ++ [name];
     ct_rows :=
       zip_with (λ '(i, cells) v, (i, set_cell cells position v)) (ct_rows table) values |}.

(** [table[name]], by index label. *)
Definition get_column (table : Crosstab) (name : string) : Exc (list (string * nat)) :=
  if bool_decide (name ∈ ct_columns table) then
    ret (map (λ '(i, cells),
                (i, nth (column_position name (ct_columns table)) cells O))
             (ct_rows table))
  else raise (KeyError name).

(** [table.sum(axis=1)] *)
Definition row_sums (table : Crosstab) : list nat :=
  map (λ '(_, cells), list_sum cells) (ct_rows table).

End tables.

(** ** python/clustering/grouping.py: group sizes *)

Module grouping_methods.
Import pandas grouping.

(** [Grouping.get_group_sizes]: the rows [[label, size]] of
    [np.asarray((unique, counts)).T].  The array has one dtype: beside
    integer labels, as a clustering gives them, the sizes are integers;
    beside string labels they are held as their decimal strings.  A size
    is modelled by the number it stands for. *)
Definition get_group_sizes (self : Grouping) : list (string * nat) :=
  let '(unique, counts) := tables.unique_counts (group_labels self) in
  zip unique counts.

End grouping_methods.

(** ** python/evaluation/metrics.py: the call of [compute] *)

Module metrics_methods.
Import metrics.

(** [OverallBias.compute] as a call that can raise: the frames of the
    loop are joined by [pd.concat], which raises [ValueError] when the
    loop ran for no model and there is nothing to concatenate. *)
Definition OverallBias_compute_call (bias_measure : BiasMeasure)
    (error_rates_per_group : list wer_row) : Exc (gmap string float * list bias_row) :=
  match error_rates_per_group with
  | [] => raise ValueError
  | _ => ret (OverallBias_compute bias_measure error_rates_per_group)
  end.

End metrics_methods.

(** ** python/evaluation/grouping_performance.py: further methods *)

Module performance_methods.
Import pandas asr_performance_data grouping_performance metrics_methods.

(** [GroupingPerformance.calculate_bias] *)
Definition calculate_bias (self : GroupingPerformance) (label_fieldname : string)
    (bias_measure : metrics.BiasMeasure) : Exc (gmap string float) :=
  let* wers := get_group_WERs self label_fieldname in
  let* computed := OverallBias_compute_call bias_measure wers in
  ret computed.1.

(** [GroupingPerformance.get_group_labels], for the name of a
    group-assignment column. *)
Definition get_group_labels (self : GroupingPerformance) (label_fieldname : string)
  : Exc (list string) :=
  let* label := label_column self label_fieldname in
  ret (tables.unique (map label (merged_data self))).

(** [GroupingPerformance.calculate_bias_per_group] *)
Definition calculate_bias_per_group (self : GroupingPerformance) (label_fieldname : string)
    (bias_measure : metrics.BiasMeasure) : Exc (list metrics.bias_row) :=
  let* wers := get_group_WERs self label_fieldname in
  let* computed := OverallBias_compute_call bias_measure wers in
  ret computed.2.

(** [data[['Filename', x, y]].groupby('Filename').first()]: for each
    recording, in ascending order, the two labels of its first row. *)
Definition groups_by_speaker (x y : analysis_row → string) (merged : list analysis_row)
  : list (string * (string * string)) :=
  omap (λ '(name, rows), (λ r, (name, (x r, y r))) <$> head rows)
       (groupby str_le (λ r : analysis_row, meta_Filename r.1.1) merged).

(** [GroupingPerformance.get_group_counts_comparison] *)
Definition get_group_counts_comparison (self : GroupingPerformance)
    (x_label_fieldname y_label_fieldname : string) : Exc tables.Crosstab :=
  let* x := label_column self x_label_fieldname in
  let* y := label_column self y_label_fieldname in
  let groups_by_speaker := groups_by_speaker x y (merged_data self) in
  let counts_crosstab := tables.crosstab (map snd groups_by_speaker) in
  ret (tables.set_column counts_crosstab "Total" (tables.row_sums counts_crosstab)).

End performance_methods.

(** ** python/evaluation/filepaths.py *)

Module filepaths.

(** The entry of a speaking style: its name and its abbreviation. *)
Record style_data : Type := { style_name : string; abbreviation : string }.

(** An entry of the list [speaking_styles] of the configuration. *)
Record style_entry : Type := {
  entry_id : string;
  entry_name : string;
  entry_abbreviation : string
}.

Record FilepathManager : Type := {
  base_path : string;
  asr_models : list string;
  speaker_groups : list string;
  base_metrics : list string;
  path_templates : pydict.dict string;
  speaking_styles_data : pydict.dict style_data
}.

(** What a path request can raise: [StopIteration] from [next(iter(...))]
    on an empty dictionary, or one of the other exceptions. *)
Inductive Raised : Type :=
  | StopIteration
  | Exception (e : Error).

(** The dictionary comprehension of [__init__] over the configured
    speaking styles. *)
Definition styles_of_config (speaking_styles_config : list style_entry)
  : pydict.dict style_data :=
  fold_left
    (λ d entry,
       pydict.setitem (entry_id entry)
         {| style_name := entry_name entry; abbreviation := entry_abbreviation entry |} d)
    speaking_styles_config [].

(** [d[next(iter(d))]]: the entry of the first key. *)
Definition first_entry (d : pydict.dict style_data) : Raised + style_data :=
  match d with
  | [] => inl StopIteration
  | (k, _) :: _ =>
      match pydict.get k d with
      | Some v => inr v
      | None => inl (Exception (KeyError k))
      end
  end.

(** [FilepathManager.get_speaking_style_data].  The default of [dict.get]
    is an argument, so it is evaluated before the lookup. *)
Definition get_speaking_style_data (self : FilepathManager) (speaking_style_id : string)
  : Raised + style_data :=
  let speaking_styles_dict := speaking_styles_data self in
  match first_entry speaking_styles_dict with
  | inl e => inl e
  | inr fallback =>
      inr (default fallback (pydict.get speaking_style_id speaking_styles_dict))
  end.

(** [str.format] with keyword arguments is a parameter of the path
    functions: it gives the filled template or raises. *)
Section paths.
Variable format : string → list (string * string) → Exc string.

(** [FilepathManager._generate_path] *)
Definition _generate_path (self : FilepathManager) (template : string)
    (kwargs : list (string * string)) : Raised + string :=
  match format template (("base_path", base_path self) :: kwargs) with
  | inl e => inl (Exception e)
  | inr path => inr path
  end.

(** [FilepathManager.get_error_rate_path] *)
Definition get_error_rate_path (self : FilepathManager)
    (speaking_style_id speaker_group asr_model : string) : Raised + string :=
  match get_speaking_style_data self speaking_style_id with
  | inl e => inl e
  | inr style =>
      let speaking_style_abbreviation := abbreviation style in
      match pydict.get "error_rate_file" (path_templates self) with
      | None => inl (Exception (KeyError "error_rate_file"))
      | Some template =>
          _generate_path self template
            [ ("speaking_style", speaking_style_abbreviation);
              ("speaker_group", speaker_group);
              ("asr_model", asr_model) ]
      end
  end.

(** [FilepathManager.get_meta_path] *)
Definition get_meta_path (self : FilepathManager) (speaking_style_id : string)
  : Raised + string :=
  match get_speaking_style_data self speaking_style_id with
  | inl e => inl e
  | inr style =>
      let speaking_style_abbreviation := abbreviation style in
      match pydict.get "meta_file" (path_templates self) with
      | None => inl (Exception (KeyError "meta_file"))
      | Some template =>
          _generate_path self template [ ("speaking_style", speaking_style_abbreviation) ]
      end
  end.

End paths.

End filepaths.

(** ** main.py *)

Module main.
Import pandas data_prep grouping grouping_performance performance_methods.

(** The list comprehension of [main]:
    [[feature for feature in custom_features_dict if feature not in feature_subset]] *)
Definition excluded_features (custom_features_dict : pydict.dict (string * string))
    (feature_subset : list string) : list string :=
  List.filter (λ feature, negb (bool_decide (feature ∈ feature_subset)))
              (pydict.keys custom_features_dict).

(** [ndarray.min()] on the sizes: an empty array has no minimum. *)
Definition sizes_min (sizes : list nat) : Exc nat :=
  match sizes with
  | [] => raise ValueError
  | n :: sizes' => ret (fold_left Nat.min sizes' n)
  end.

(** [bias_metric_pipeline2], from the frames that are read: [scaler] is
    the [MinMaxScaler()] made in the function, [default_scaler] the
    default argument of [get_normalized_data], [fit_predict] the
    clustering algorithm.  The result is [None] when a cluster is too
    small. *)
Definition bias_metric_pipeline2 {Scaler : Type}
    (fit_transform : Scaler → list (string * Column) → Exc (Scaler * ndarray))
    (check_normality : DataFrame → list string → Exc unit)
    (scaler default_scaler : Scaler)
    (fit_predict : ndarray → Exc (list string))
    (csv : DataFrame) (speaking_style : string)
    (custom_features : option (pydict.dict (string * string)))
    (overall_bias_measure : metrics.BiasMeasure)
    (asr_performance_data : list asr_performance_data.performance_row)
    (excluded_features : list string) : Exc (option (gmap string float)) :=
  let* data_prep := DataPrep_init csv speaking_style custom_features excluded_features in
  let* normalized := normalize_data fit_transform check_normality data_prep scaler false in
  let data_prep := normalized.1 in
  let* clustering :=
    Clustering fit_transform check_normality default_scaler fit_predict data_prep in
  let* smallest := sizes_min (map snd (grouping_methods.get_group_sizes clustering)) in
  if (smallest <? 10)%nat then ret None
  else
    let* clustering_performance :=
      GroupingPerformance_init clustering asr_performance_data in
    let* overall_bias :=
      calculate_bias clustering_performance "Cluster" overall_bias_measure in
    ret (Some overall_bias).

End main.

(** ** Examples for the further functions *)

Section filepath_examples.
Import filepaths.

(** A manager with the styles of a configuration and one template. *)
Definition manager_of_styles (speaking_styles_config : list style_entry)
  : FilepathManager :=
  {| base_path := "output";
     asr_models := ["M"];
     speaker_groups := ["DC"];
     base_metrics := ["WER"];
     path_templates := [("meta_file", "{base_path}/{speaking_style}/meta.csv")];
     speaking_styles_data := styles_of_config speaking_styles_config |}.

Definition read_speech : style_entry :=
  {| entry_id := "read"; entry_name := "Read speech"; entry_abbreviation := "Rd" |}.

(** A stand-in for [str.format] that returns the template. *)
Definition format_template (template : string) (kwargs : list (string * string))
  : Exc string := inr template.

End filepath_examples.

(** * Properties *)

(** ** Order on binary64 values *)

Section float_order.

Ltac cmp_cases :=
  repeat match goal with
    | |- context [Z.compare ?a ?b] => destruct (Z.compare_spec a b); subst
    | |- context [Pos.compare ?a ?b] => destruct (Pos.compare_spec a b); subst
    | H : context [Z.compare ?a ?b] |- _ => destruct (Z.compare_spec a b); subst
    | H : context [Pos.compare ?a ?b] |- _ => destruct (Pos.compare_spec a b); subst
    end.

Ltac by_cases :=
  change (Pos.compare_cont Eq) with Pos.compare;
  intros; cmp_cases; cbn in *; try congruence; try lia.

Lemma SFleb_trans (x a y : spec_float) :
  SFleb x a = true → SFleb a y = true → SFleb x y = true.
Proof.
  unfold SFleb.
  destruct x as [sx|sx| |sx mx ex], a as [sa|sa| |sa ma ea], y as [sy|sy| |sy my ey];
    try destruct sx; try destruct sa; try destruct sy; cbn;
    try (intros; congruence); by_cases.
Qed.

Lemma SFltb_SFleb (x a : spec_float) : SFltb x a = true → SFleb x a = true.
Proof. unfold SFltb, SFleb. by destruct (SFcompare x a) as [[]|]. Qed.

Lemma SFleb_total (x a : spec_float) :
  x ≠ S754_nan → a ≠ S754_nan → SFltb x a = false → SFleb a x = true.
Proof.
  unfold SFltb, SFleb.
  destruct x as [sx|sx| |sx mx ex], a as [sa|sa| |sa ma ea];
    try destruct sx; try destruct sa; cbn;
    try (intros; congruence); by_cases.
Qed.

Lemma SFeqb_refl_nan (x : spec_float) : SFeqb x x = false ↔ x = S754_nan.
Proof.
  unfold SFeqb. destruct x as [sx|sx| |sx mx ex]; try destruct sx; cbn;
    change (Pos.compare_cont Eq) with Pos.compare;
    rewrite ?Z.compare_refl, ?Pos.compare_refl; cbn; split; congruence.
Qed.

Lemma SFleb_refl (x : spec_float) : x ≠ S754_nan → SFleb x x = true.
Proof.
  intros Hx. destruct (SFeqb x x) eqn:E.
  - unfold SFeqb in E. unfold SFleb. by destruct (SFcompare x x) as [[]|].
  - by apply SFeqb_refl_nan in E.
Qed.

Lemma isnan_true (x : float) : numpy.isnan x = true ↔ Prim2SF x = S754_nan.
Proof.
  unfold numpy.isnan, PrimFloat.is_nan.
  rewrite FloatAxioms.eqb_spec, negb_true_iff. apply SFeqb_refl_nan.
Qed.

Lemma isnan_false (x : float) : numpy.isnan x = false ↔ Prim2SF x ≠ S754_nan.
Proof. rewrite <- isnan_true. by destruct (numpy.isnan x). Qed.

Lemma leb_trans (x a y : float) :
  PrimFloat.leb x a = true → PrimFloat.leb a y = true → PrimFloat.leb x y = true.
Proof. rewrite !leb_spec. apply SFleb_trans. Qed.

Lemma ltb_leb (x a : float) : PrimFloat.ltb x a = true → PrimFloat.leb x a = true.
Proof. rewrite ltb_spec, leb_spec. apply SFltb_SFleb. Qed.

Lemma leb_total (x a : float) :
  numpy.isnan x = false → numpy.isnan a = false →
  PrimFloat.ltb x a = false → PrimFloat.leb a x = true.
Proof. rewrite !isnan_false, ltb_spec, leb_spec. apply SFleb_total. Qed.

Lemma leb_refl (x : float) : numpy.isnan x = false → PrimFloat.leb x x = true.
Proof. rewrite isnan_false, leb_spec. apply SFleb_refl. Qed.

End float_order.

(** ** Series and group-by lemmas *)

Section pandas_facts.
Import pandas.

Lemma min2_cases (acc x : float) : min2 acc x = acc ∨ min2 acc x = x.
Proof.
  unfold min2. destruct (numpy.isnan acc), (numpy.isnan x), (PrimFloat.ltb x acc); auto.
Qed.

Lemma min2_isnan (acc x : float) :
  numpy.isnan (min2 acc x) = true → numpy.isnan acc = true ∧ numpy.isnan x = true.
Proof.
  unfold min2.
  destruct (numpy.isnan acc) eqn:Ea; [by auto|].
  destruct (numpy.isnan x) eqn:Ex; [congruence|].
  destruct (PrimFloat.ltb x acc); congruence.
Qed.

Lemma min2_le (acc x z : float) :
  z = acc ∨ z = x → numpy.isnan z = false → PrimFloat.leb (min2 acc x) z = true.
Proof.
  unfold min2. intros Hz Hnan.
  destruct (numpy.isnan acc) eqn:Ea.
  { destruct Hz as [->| ->]; [congruence | by apply leb_refl]. }
  destruct (numpy.isnan x) eqn:Ex.
  { destruct Hz as [->| ->]; [by apply leb_refl | congruence]. }
  destruct (PrimFloat.ltb x acc) eqn:Hlt; destruct Hz as [->| ->].
  - by apply ltb_leb.
  - by apply leb_refl.
  - by apply leb_refl.
  - by apply leb_total.
Qed.

Lemma fold_min2_spec (s : list float) (acc : float) :
  let m := fold_left min2 s acc in
  (∀ z, z = acc ∨ z ∈ s → numpy.isnan z = false → PrimFloat.leb m z = true)
  ∧ (m = acc ∨ m ∈ s)
  ∧ (numpy.isnan m = true → numpy.isnan acc = true ∧ ∀ z, z ∈ s → numpy.isnan z = true).
Proof.
  revert acc. induction s as [|x s IH]; intros acc; cbn zeta; simpl.
  - split; [|split].
    + intros z [->|Hz] Hnan; [by apply leb_refl | by inversion Hz].
    + by left.
    + intros Hm. split; [done | intros z Hz; by inversion Hz].
  - destruct (IH (min2 acc x)) as (Hle & Hin & Hnan). split; [|split].
    + intros z Hz Hz_nan.
      assert (z = acc ∨ z = x ∨ z ∈ s) as [Hc|[Hc|Hc]].
      { destruct Hz as [?|Hz]; [by auto|]. apply elem_of_cons in Hz. tauto. }
      * apply leb_trans with (min2 acc x); [|apply min2_le; auto].
        apply Hle; [by left|].
        destruct (numpy.isnan (min2 acc x)) eqn:E; [|done].
        apply min2_isnan in E as [? _]. congruence.
      * apply leb_trans with (min2 acc x); [|apply min2_le; auto].
        apply Hle; [by left|].
        destruct (numpy.isnan (min2 acc x)) eqn:E; [|done].
        apply min2_isnan in E as [_ ?]. congruence.
      * apply Hle; auto.
    + destruct Hin as [Hin|Hin].
      * rewrite Hin. destruct (min2_cases acc x) as [->| ->]; [by left|].
        right. by left.
      * right. by right.
    + intros Hm. destruct (Hnan Hm) as [Hacc Hs].
      apply min2_isnan in Hacc as [? ?]. split; [done|].
      intros z Hz. apply elem_of_cons in Hz as [->|Hz]; auto.
Qed.

(** [Series.min()] returns a cell of the series that is below every
    non-NaN cell, as soon as the series has a non-NaN cell. *)
Lemma Series_min_lower_bound (s : list float) (x : float) :
  x ∈ s → numpy.isnan x = false → PrimFloat.leb (Series_min s) x = true.
Proof.
  intros Hx Hnan. destruct (fold_min2_spec s PrimFloat.nan) as (Hle & _ & _).
  apply Hle; auto.
Qed.

Lemma Series_min_attained (s : list float) (x : float) :
  x ∈ s → numpy.isnan x = false →
  Series_min s ∈ s ∧ numpy.isnan (Series_min s) = false.
Proof.
  intros Hx Hnan. destruct (fold_min2_spec s PrimFloat.nan) as (_ & Hin & Hn).
  fold (Series_min s) in Hin, Hn.
  assert (numpy.isnan (Series_min s) = false) as Hm.
  { destruct (numpy.isnan (Series_min s)) eqn:E; [|done].
    destruct (Hn eq_refl) as [_ Hall]. specialize (Hall x Hx). congruence. }
  split; [|done]. destruct Hin as [Hin|Hin]; [|done].
  rewrite Hin in Hm. vm_compute in Hm. discriminate.
Qed.

Lemma dropna_id (s : list float) :
  (∀ x, x ∈ s → numpy.isnan x = false) → dropna s = s.
Proof.
  induction s as [|x s IH]; intros Hs; simpl; [done|].
  rewrite (Hs x) by (by left). simpl. f_equal. apply IH.
  intros y Hy. apply Hs. by right.
Qed.

Lemma fillna_id (fill : float) (s : list float) :
  (∀ x, x ∈ s → numpy.isnan x = false) → fillna fill s = s.
Proof.
  induction s as [|x s IH]; intros Hs; simpl; [done|].
  rewrite (Hs x) by (by left). f_equal. apply IH.
  intros y Hy. apply Hs. by right.
Qed.

Lemma dropna_nil (s : list float) :
  (∀ x, x ∈ s → numpy.isnan x = true) → dropna s = [].
Proof.
  induction s as [|x s IH]; intros Hs; simpl; [done|].
  rewrite (Hs x) by (by left). simpl. apply IH.
  intros y Hy. apply Hs. by right.
Qed.

(** Without NaN cells [Series.mean()] is numpy's sum over the length. *)
Lemma Series_mean_no_nan (s : list float) :
  s ≠ [] → (∀ x, x ∈ s → numpy.isnan x = false) →
  Series_mean s = PrimFloat.div (numpy.sum s) (numpy.float64 (Z.of_nat (length s))).
Proof.
  intros Hne Hs. unfold Series_mean, count. rewrite dropna_id, fillna_id by done.
  destruct s; [done|]. done.
Qed.

(** With only NaN cells, or none at all, it is NaN. *)
Lemma Series_mean_all_nan (s : list float) :
  (∀ x, x ∈ s → numpy.isnan x = true) → Series_mean s = PrimFloat.nan.
Proof. intros Hs. unfold Series_mean, count. by rewrite dropna_nil. Qed.

(** The depth that bounds the recursion of the pairwise sum does not
    matter once it is at least the length of the array, which it is. *)
Lemma pairwise_sum_rec_depth (depth depth' : nat) (a : list float) :
  (length a ≤ depth)%nat → (length a ≤ depth')%nat →
  numpy.pairwise_sum_rec depth a = numpy.pairwise_sum_rec depth' a.
Proof.
  revert depth' a. induction depth as [|depth IH]; intros depth' a Hd Hd'.
  - destruct a; [|simpl in Hd; lia]. by destruct depth'.
  - destruct depth' as [|depth'].
    + destruct a; [done | simpl in Hd'; lia].
    + cbn [numpy.pairwise_sum_rec]. unfold numpy.PW_BLOCKSIZE.
      destruct (128 <? length a)%nat eqn:Hlong; [|done].
      apply Nat.ltb_lt in Hlong.
      set (n2 := (length a / 2 - (length a / 2) mod 8)%nat).
      assert (0 < n2 < length a)%nat as Hn2.
      { subst n2.
        pose proof (Nat.mod_upper_bound (length a / 2) 8).
        pose proof (Nat.div_mod_eq (length a) 2).
        pose proof (Nat.mod_upper_bound (length a) 2). lia. }
      f_equal; apply IH; rewrite ?length_take, ?length_drop; lia.
Qed.

Lemma pairwise_sum_unfold (a : list float) :
  numpy.pairwise_sum a =
  if (numpy.PW_BLOCKSIZE <? length a)%nat then
    let n2 := (length a / 2)%nat in
    let n2 := (n2 - n2 mod 8)%nat in
    PrimFloat.add (numpy.pairwise_sum (firstn n2 a)) (numpy.pairwise_sum (skipn n2 a))
  else numpy.block_sum a.
Proof.
  unfold numpy.pairwise_sum at 1. destruct (length a) as [|n] eqn:Hn.
  { destruct a; [done | discriminate]. }
  cbn [numpy.pairwise_sum_rec]. rewrite Hn. unfold numpy.PW_BLOCKSIZE.
  destruct (128 <? S n)%nat eqn:Hlong; [|done].
  apply Nat.ltb_lt in Hlong. cbn zeta.
  set (n2 := (S n / 2 - (S n / 2) mod 8)%nat).
  assert (0 < n2 < S n)%nat as Hn2.
  { subst n2.
    pose proof (Nat.mod_upper_bound (S n / 2) 8).
    pose proof (Nat.div_mod_eq (S n) 2).
    pose proof (Nat.mod_upper_bound (S n) 2). lia. }
  unfold numpy.pairwise_sum.
  f_equal; apply pairwise_sum_rec_depth; rewrite ?length_take, ?length_drop; lia.
Qed.

(** Fewer than eight cells are added from left to right. *)
Lemma sum_short (a : list float) :
  (length a < 8)%nat →
  numpy.sum a = PrimFloat.add 0%float (fold_left PrimFloat.add a 0%float).
Proof.
  intros Hshort. unfold numpy.sum. rewrite pairwise_sum_unfold.
  unfold numpy.PW_BLOCKSIZE.
  assert ((128 <? length a)%nat = false) as -> by (apply Nat.ltb_ge; lia).
  do 8 (destruct a as [|? a]; [reflexivity|]). simpl in Hshort. lia.
Qed.

Lemma boolean_mask_map {A B} (f : A → B) (p : A → bool) (rows : list A) :
  boolean_mask (map f rows) (map p rows) = map f (List.filter p rows).
Proof.
  induction rows as [|r rows IH]; simpl; [reflexivity|].
  destruct (p r); simpl; congruence.
Qed.

Section keyed.
Context {A K : Type} `{EqDecision K}.
Context (le : K → K → Prop) `{∀ a b, Decision (le a b)}.

Lemma elem_of_sorted_keys (ks : list K) (k : K) :
  k ∈ sorted_keys le ks ↔ k ∈ ks.
Proof.
  unfold sorted_keys.
  rewrite merge_sort_Permutation. apply elem_of_remove_dups.
Qed.

Lemma NoDup_sorted_keys (ks : list K) : NoDup (sorted_keys le ks).
Proof.
  unfold sorted_keys.
  rewrite merge_sort_Permutation. apply NoDup_remove_dups.
Qed.

Lemma filter_key_nil (key : A → K) (rows : list A) (k : K) :
  List.filter (λ r, bool_decide (key r = k)) rows = [] ↔ k ∉ map key rows.
Proof.
  induction rows as [|r rows IH]; simpl.
  - split; [intros _; apply not_elem_of_nil | reflexivity].
  - rewrite not_elem_of_cons. case_bool_decide as Hk; split.
    + discriminate.
    + intros [Hne _]. congruence.
    + intros Hnil. split; [congruence | apply IH, Hnil].
    + intros [_ Hnin]. apply IH, Hnin.
Qed.

(** The groups of a frame: one per key that occurs, holding the rows
    with that key. *)
Lemma elem_of_groupby (key : A → K) (rows : list A) (k : K) (group : list A) :
  (k, group) ∈ groupby le key rows ↔
  group = List.filter (λ r, bool_decide (key r = k)) rows ∧ group ≠ [].
Proof.
  unfold groupby. rewrite list_elem_of_fmap. split.
  - intros (k' & [= -> ->] & Hk). split; [done|].
    rewrite elem_of_sorted_keys in Hk. rewrite filter_key_nil.
    intros Hnin. exact (Hnin Hk).
  - intros [-> Hne]. exists k. split; [done|].
    rewrite elem_of_sorted_keys. rewrite filter_key_nil in Hne.
    destruct (decide (k ∈ map key rows)); tauto.
Qed.

Lemma NoDup_groupby_keys (key : A → K) (rows : list A) :
  NoDup (map fst (groupby le key rows)).
Proof.
  unfold groupby. rewrite map_map. simpl. rewrite map_id.
  apply NoDup_sorted_keys.
Qed.

End keyed.

(** Folding dictionary assignments over the groups: the entry of a key
    is the value computed from its own group. *)
Lemma fold_insert_lookup {A V} (G : string → list A) (F : list A → V)
      (ks : list string) (d : gmap string V) (k : string) :
  fold_left (λ d '(name, group), <[name := F group]> d)
            (map (λ k, (k, G k)) ks) d !! k
  = if decide (k ∈ ks) then Some (F (G k)) else d !! k.
Proof.
  revert d. induction ks as [|k0 ks IH]; intros d; simpl; [reflexivity|].
  rewrite IH. destruct (decide (k ∈ ks)) as [Hin|Hnin].
  - rewrite decide_True; [done | by right].
  - destruct (decide (k = k0)) as [->|Hne].
    + rewrite decide_True; [|by left]. by rewrite lookup_insert_eq.
    + rewrite decide_False; [by rewrite lookup_insert_ne|].
      rewrite elem_of_cons. tauto.
Qed.

End pandas_facts.

(** ** OverallBias.compute *)

Section overall_bias.
Import pandas metrics.

Lemma compute_model_overall (bm : BiasMeasure) (group : list wer_row) :
  (compute_model bm group).1 =
  let reference := Series_min (map WER group) in
  Series_mean (map (λ r, compute_bias bm (WER r) reference)
                   (List.filter (λ r, ne (WER r) reference) group)).
Proof.
  unfold compute_model. cbn [fst].
  rewrite (map_map WER), boolean_mask_map, map_map. reflexivity.
Qed.

Lemma compute_model_rows (bm : BiasMeasure) (group : list wer_row) :
  (compute_model bm group).2 =
  map (λ r, {| row := r;
               Bias := compute_bias bm (WER r) (Series_min (map WER group)) |}) group.
Proof. reflexivity. Qed.

Lemma OverallBias_compute_fold (bm : BiasMeasure)
      (groups : list (string * list wer_row))
      (d : gmap string float) (res : list bias_row) :
  fold_left
    (λ '(overall_bias_per_model, bias_results) '(name, group),
       let '(overall_bias, group') := compute_model bm group in
       (<[name := overall_bias]> overall_bias_per_model, bias_results ++ group'))
    groups (d, res)
  = (fold_left (λ d '(name, group), <[name := (compute_model bm group).1]> d) groups d,
     res ++ concat (map (λ '(_, group), (compute_model bm group).2) groups)).
Proof.
  revert d res. induction groups as [|[name group] groups IH]; intros d res; simpl.
  - by rewrite app_nil_r.
  - destruct (compute_model bm group) as [ob g'] eqn:E. rewrite IH. simpl.
    by rewrite <- app_assoc.
Qed.

Lemma overall_bias_per_model_lookup (bm : BiasMeasure)
      (table : list wer_row) (model : string) :
  (OverallBias_compute bm table).1 !! model = overall_bias_spec bm table model.
Proof.
  unfold OverallBias_compute. rewrite OverallBias_compute_fold. cbn [fst].
  unfold groupby.
  rewrite (fold_insert_lookup
             (λ k, List.filter (λ r, bool_decide (Model r = k)) table)
             (λ group, (compute_model bm group).1)).
  unfold overall_bias_spec.
  destruct (decide (model ∈ sorted_keys str_le (map Model table))) as [Hin|Hnin].
  - rewrite elem_of_sorted_keys in Hin.
    destruct (List.filter _ table) as [|r0 group] eqn:E.
    + apply filter_key_nil in E. contradiction.
    + by rewrite compute_model_overall.
  - rewrite elem_of_sorted_keys in Hnin.
    apply (filter_key_nil Model) in Hnin. rewrite Hnin, lookup_empty. reflexivity.
Qed.

Lemma bias_per_group_elem_of (bm : BiasMeasure) (table : list wer_row) (br : bias_row) :
  br ∈ (OverallBias_compute bm table).2 ↔
  row br ∈ table ∧
  Bias br = compute_bias bm (WER (row br)) (reference_WER table (Model (row br))).
Proof.
  unfold OverallBias_compute. rewrite OverallBias_compute_fold. cbn [snd app].
  unfold groupby. rewrite map_map. rewrite <- flat_map_concat_map.
  rewrite list_elem_of_In, in_flat_map. split.
  - intros (k & Hk & Hbr). rewrite compute_model_rows in Hbr.
    apply in_map_iff in Hbr as (r & <- & Hr). simpl.
    apply filter_In in Hr as [Hr Hm]. apply bool_decide_eq_true in Hm. subst k.
    split; [by apply list_elem_of_In | reflexivity].
  - intros [Hr Hb]. exists (Model (row br)). split.
    + apply list_elem_of_In, elem_of_sorted_keys, list_elem_of_In, in_map.
      by apply list_elem_of_In.
    + rewrite compute_model_rows. apply in_map_iff. exists (row br). split.
      * destruct br as [r b]; simpl in *. by rewrite Hb.
      * apply filter_In. split; [by apply list_elem_of_In|].
        by apply bool_decide_eq_true.
Qed.

(** The reference is a lower bound of the WERs of the model's groups
    and is the WER of one of them (NaN cells aside). *)
Lemma reference_WER_minimum (table : list wer_row) (r : wer_row) :
  r ∈ table → numpy.isnan (WER r) = false →
  PrimFloat.leb (reference_WER table (Model r)) (WER r) = true
  ∧ ∃ r', r' ∈ table ∧ Model r' = Model r ∧ WER r' = reference_WER table (Model r).
Proof.
  intros Hr Hnan. unfold reference_WER.
  set (group := List.filter (λ r0, bool_decide (Model r0 = Model r)) table).
  assert (WER r ∈ map WER group) as Hin.
  { apply list_elem_of_fmap. exists r. split; [done|]. subst group.
    apply list_elem_of_In, filter_In.
    split; [by apply list_elem_of_In | by apply bool_decide_eq_true]. }
  split; [by apply Series_min_lower_bound|].
  destruct (Series_min_attained _ _ Hin Hnan) as [Hmin _].
  apply list_elem_of_fmap in Hmin as (r' & Hwer & Hr'). subst group.
  apply list_elem_of_In, filter_In in Hr' as [Hr' Hm].
  apply bool_decide_eq_true in Hm. exists r'.
  split; [by apply list_elem_of_In | done].
Qed.

(** C1, as stated, fails for a group whose WER is NaN (no words and no
    errors): for {A: NaN, B: 30, C: 10} the reference is 10, the groups
    whose WER [!=] the reference are A and B, with the biases NaN and 20,
    whose mean as the quotient of their sum by their number is NaN; the
    overall bias that is returned is 20, the NaN bias being skipped. *)
Lemma OverallBias_compute_skips_NaN_bias :
  reference_WER group_without_rate "M" = 10%float
  ∧ map Group (List.filter (λ r, ne (WER r) (reference_WER group_without_rate "M"))
                           group_without_rate) = ["A"; "B"]
  ∧ map (λ r, compute_bias DiffBias (WER r) (reference_WER group_without_rate "M"))
        (List.filter (λ r, ne (WER r) (reference_WER group_without_rate "M"))
                     group_without_rate) = [PrimFloat.nan; 20%float]
  ∧ arithmetic_mean [PrimFloat.nan; 20%float] = PrimFloat.nan
  ∧ (OverallBias_compute DiffBias group_without_rate).1 !! "M" = Some 20%float
  ∧ (OverallBias_compute DiffBias group_without_rate).1 !! "M"
    ≠ Some (arithmetic_mean [PrimFloat.nan; 20%float]).
Proof.
  repeat split; try (vm_compute; reflexivity).
  vm_compute. discriminate.
Qed.

(** C1, amended.  [OverallBias.compute] takes as reference the minimum
    WER of the model's groups, gives every group its bias against that
    reference under the configured measure, and returns as the model's
    overall bias [Series.mean()] of the biases of exactly the groups
    whose WER [!=] the reference, so that all groups tied at the minimum
    are left out.  That mean skips the biases that are NaN: they count
    as 0 in the sum and are not counted in the divisor, and without a
    bias that is a number the mean is NaN.  The sum is numpy's: from
    left to right for fewer than eight cells, blockwise from eight on.
    For {A: 10, B: 10, C: 20} under the Difference measure the overall
    bias is 10; for ten groups 0.1 above the reference it is 0.1, where
    adding from left to right gives 0.09999999999999999. *)
Theorem OverallBias_compute_excludes_reference_ties :
  (∀ (bm : BiasMeasure) (table : list wer_row) (model : string),
      (OverallBias_compute bm table).1 !! model =
      match List.filter (λ r, bool_decide (Model r = model)) table with
      | [] => None
      | groups =>
          Some (Series_mean
                  (map (λ r, compute_bias bm (WER r) (reference_WER table model))
                       (List.filter (λ r, ne (WER r) (reference_WER table model))
                                    groups)))
      end)
  ∧ (∀ (table : list wer_row) (r : wer_row),
      r ∈ table → numpy.isnan (WER r) = false →
      PrimFloat.leb (reference_WER table (Model r)) (WER r) = true
      ∧ ∃ r', r' ∈ table ∧ Model r' = Model r
              ∧ WER r' = reference_WER table (Model r))
  ∧ (∀ (bm : BiasMeasure) (table : list wer_row) (br : bias_row),
      br ∈ (OverallBias_compute bm table).2 ↔
      row br ∈ table ∧
      Bias br = compute_bias bm (WER (row br)) (reference_WER table (Model (row br))))
  ∧ (∀ (table : list wer_row) (r : wer_row),
      PrimFloat.eqb (WER r) (reference_WER table (Model r)) = true →
      r ∉ List.filter (λ r', ne (WER r') (reference_WER table (Model r))) table)
  ∧ (∀ biases : list float,
      Series_mean biases =
      if (0 <? count biases)%Z
      then PrimFloat.div (numpy.sum (fillna 0%float biases)) (numpy.float64 (count biases))
      else PrimFloat.nan)
  ∧ (∀ biases : list float,
      (∀ x, x ∈ biases → numpy.isnan x = true) → Series_mean biases = PrimFloat.nan)
  ∧ (∀ biases : list float,
      biases ≠ [] → (∀ x, x ∈ biases → numpy.isnan x = false) →
      Series_mean biases =
      PrimFloat.div (numpy.sum biases) (numpy.float64 (Z.of_nat (length biases))))
  ∧ (∀ cells : list float,
      (length cells < 8)%nat →
      numpy.sum cells = PrimFloat.add 0%float (fold_left PrimFloat.add cells 0%float))
  ∧ (∀ a0 a1 a2 a3 a4 a5 a6 a7 : float,
      numpy.sum [a0; a1; a2; a3; a4; a5; a6; a7] =
      PrimFloat.add 0%float
        (PrimFloat.add
           (PrimFloat.add (PrimFloat.add a0 a1) (PrimFloat.add a2 a3))
           (PrimFloat.add (PrimFloat.add a4 a5) (PrimFloat.add a6 a7))))
  ∧ reference_WER tied_minimum "M" = 10%float
  ∧ (OverallBias_compute DiffBias tied_minimum).1 !! "M" = Some 10%float
  ∧ (OverallBias_compute DiffBias eleven_groups).1 !! "M"
    = Some 0x1.999999999999ap-4%float
  ∧ arithmetic_mean (repeat 0x1.999999999999ap-4%float 10) = 0x1.9999999999999p-4%float
  ∧ (OverallBias_compute DiffBias group_without_rate).1 !! "M" = Some 20%float.
Proof.
  split; [|split; [|split; [|split]]].
  - intros bm table model. rewrite overall_bias_per_model_lookup.
    unfold overall_bias_spec, reference_WER.
    by destruct (List.filter _ table).
  - apply reference_WER_minimum.
  - apply bias_per_group_elem_of.
  - intros table r Htied Hin.
    apply list_elem_of_In, filter_In in Hin as [_ Hne].
    unfold ne in Hne. by rewrite Htied in Hne.
  - split; [reflexivity|]. split; [apply Series_mean_all_nan|].
    split; [apply Series_mean_no_nan|]. split; [apply sum_short|].
    split; [reflexivity|].
    repeat split; vm_compute; reflexivity.
Qed.

Lemma OverallBias_compute_excludes_reference_ties_witness :
  (PrimFloat.leb (reference_WER tied_minimum "M") 20%float = true
   ∧ ∃ r', r' ∈ tied_minimum ∧ Model r' = "M"
           ∧ WER r' = reference_WER tied_minimum "M")
  ∧ ({| Model := "M"; Group := "A"; WER := 10%float |}
     ∉ List.filter (λ r', ne (WER r') (reference_WER tied_minimum "M")) tied_minimum)
  ∧ Series_mean [PrimFloat.nan] = PrimFloat.nan
  ∧ Series_mean [10%float; 20%float]
    = PrimFloat.div (numpy.sum [10%float; 20%float]) (numpy.float64 2)
  ∧ numpy.sum [10%float; 20%float]
    = PrimFloat.add 0%float (fold_left PrimFloat.add [10%float; 20%float] 0%float).
Proof.
  pose proof OverallBias_compute_excludes_reference_ties
    as (_ & Hmin & _ & Htied & _ & Hnan & Hmean & Hshort & _).
  split; [|split; [|split; [|split]]].
  - apply (Hmin tied_minimum {| Model := "M"; Group := "C"; WER := 20%float |}).
    + apply list_elem_of_In. simpl. auto.
    + vm_compute. reflexivity.
  - apply (Htied tied_minimum {| Model := "M"; Group := "A"; WER := 10%float |}).
    vm_compute. reflexivity.
  - apply (Hnan [PrimFloat.nan]).
    intros x Hx. apply list_elem_of_In in Hx. simpl in Hx. by destruct Hx as [<-|[]].
  - apply (Hmean [10%float; 20%float]); [discriminate|].
    intros x Hx. apply list_elem_of_In in Hx. simpl in Hx.
    by destruct Hx as [<-|[<-|[]]].
  - apply (Hshort [10%float; 20%float]). simpl. lia.
Defined.

End overall_bias.

(** ** RelDiffBias.compute_bias *)

Section rel_diff_bias.
Import metrics.

Lemma SFeqb_zero (x : spec_float) :
  SFeqb x (S754_zero false) = true ↔ ∃ s, x = S754_zero s.
Proof.
  unfold SFeqb. destruct x as [s|s| |s m e]; try destruct s; cbn;
    split; try congruence; try (intros [? ?]; congruence); eauto.
Qed.

Lemma eqb_zero (x : float) :
  PrimFloat.eqb x 0 = true ↔ ∃ s, Prim2SF x = S754_zero s.
Proof. rewrite FloatAxioms.eqb_spec. apply SFeqb_zero. Qed.

Lemma isfinite_false (x : float) :
  numpy.isfinite x = false ↔
  Prim2SF x = S754_nan ∨ ∃ s, Prim2SF x = S754_infinity s.
Proof.
  unfold numpy.isfinite, PrimFloat.is_finite, PrimFloat.is_infinity.
  rewrite negb_false_iff, orb_true_iff.
  change (PrimFloat.is_nan x) with (numpy.isnan x). rewrite isnan_true.
  rewrite FloatAxioms.eqb_spec, abs_spec.
  change (Prim2SF infinity) with (S754_infinity false).
  unfold SFeqb.
  destruct (Prim2SF x) as [s|s| |s m e]; cbn; split;
    try (intros [?|?]; congruence); try (intros [?|[? ?]]; congruence); eauto.
Qed.

(** The quotient by a zero reference, on the specification side. *)
Lemma SFdiv_sub_zero (g : spec_float) (s : bool) :
  let q := SF64div (SF64sub g (S754_zero s)) (S754_zero s) in
  (q = S754_nan ∨ ∃ s', q = S754_infinity s')
  ∧ (q = S754_nan ↔ g = S754_nan ∨ ∃ s', g = S754_zero s').
Proof.
  destruct g as [sg|sg| |sg m e]; destruct s; try destruct sg; cbn;
    (split; [eauto | split; [try congruence; eauto | intros [?|[? ?]]; congruence]]).
Qed.

Lemma RelDiffBias_zero_reference (g r : float) :
  PrimFloat.eqb r 0 = true →
  numpy.isfinite (compute_bias RelDiffBias g r) = false
  ∧ (numpy.isnan (compute_bias RelDiffBias g r) = true ↔
       numpy.isnan g = true ∨ PrimFloat.eqb g 0 = true).
Proof.
  intros Hr. apply eqb_zero in Hr as [s Hs].
  cbn [compute_bias RelDiffBias].
  rewrite isfinite_false, !isnan_true, eqb_zero, div_spec, sub_spec, Hs.
  apply SFdiv_sub_zero.
Qed.

(** C7, as stated, fails for a group rate that is not zero: with the
    reference 0 and the group rate 5 the numpy scalars that
    [OverallBias.compute] passes give the quotient [5 / 0], which is
    positive infinity and no NaN; on two Python floats the same call
    returns nothing: it raises [ZeroDivisionError]. *)
Lemma RelDiffBias_compute_bias_infinite_for_zero_reference :
  RelDiffBias_compute_bias (python_float 5%float) (numpy_float64 0%float)
  = inr (numpy_float64 PrimFloat.infinity)
  ∧ compute_bias RelDiffBias 5%float 0%float = PrimFloat.infinity
  ∧ numpy.isnan (compute_bias RelDiffBias 5%float 0%float) = false
  ∧ RelDiffBias_compute_bias (python_float 5%float) (python_float 0%float)
    = inl ZeroDivisionError.
Proof. repeat split; vm_compute; reflexivity. Qed.

(** C7, amended.  [RelDiffBias.compute_bias g r] computes the quotient
    [(g - r) / r] with no case on [r].  With a numpy scalar among its
    arguments, as in [OverallBias.compute], it returns that quotient for
    all arguments; for a zero reference the quotient is not a finite
    number, NaN exactly when [g] is zero or NaN and an infinity
    otherwise, and it is returned as it is.  On two Python floats it
    returns the quotient when the reference is not zero and raises
    [ZeroDivisionError] when it is.  So (15 - 10) / 10 is 0.5, 0 / 0 on
    numpy scalars is NaN and 5 / 0 is infinity. *)
Theorem RelDiffBias_compute_bias_zero_reference :
  (∀ g r : number,
      is_numpy g || is_numpy r = true →
      RelDiffBias_compute_bias g r
      = inr (numpy_float64 (PrimFloat.div (PrimFloat.sub (value g) (value r)) (value r))))
  ∧ (∀ g r : float,
      RelDiffBias_compute_bias (python_float g) (numpy_float64 r)
      = inr (numpy_float64 (compute_bias RelDiffBias g r)))
  ∧ (∀ g r : float,
      RelDiffBias_compute_bias (python_float g) (python_float r) =
      if PrimFloat.eqb r 0%float then inl ZeroDivisionError
      else inr (python_float (PrimFloat.div (PrimFloat.sub g r) r)))
  ∧ (∀ g r : float,
      PrimFloat.eqb r 0%float = true →
      numpy.isfinite (compute_bias RelDiffBias g r) = false
      ∧ (numpy.isnan (compute_bias RelDiffBias g r) = true ↔
           numpy.isnan g = true ∨ PrimFloat.eqb g 0%float = true))
  ∧ compute_bias RelDiffBias 15%float 10%float = 0.5%float
  ∧ RelDiffBias_compute_bias (python_float 15%float) (python_float 10%float)
    = inr (python_float 0.5%float)
  ∧ compute_bias RelDiffBias 0%float 0%float = PrimFloat.nan
  ∧ compute_bias RelDiffBias 5%float 0%float = PrimFloat.infinity
  ∧ compute_bias RelDiffBias 5%float (-0)%float = PrimFloat.neg_infinity.
Proof.
  split; [|split; [|split; [|split]]].
  - intros g r Hnumpy. unfold RelDiffBias_compute_bias, number_sub, number_div.
    rewrite Hnumpy. cbn [is_numpy value]. rewrite orb_true_l. reflexivity.
  - reflexivity.
  - intros g r. unfold RelDiffBias_compute_bias, number_sub, number_div.
    cbn [is_numpy value orb]. reflexivity.
  - apply RelDiffBias_zero_reference.
  - repeat split; vm_compute; reflexivity.
Qed.

Lemma RelDiffBias_compute_bias_zero_reference_witness :
  RelDiffBias_compute_bias (numpy_float64 5%float) (python_float 0%float)
  = inr (numpy_float64 PrimFloat.infinity)
  ∧ numpy.isfinite (compute_bias RelDiffBias 5%float 0%float) = false.
Proof.
  split.
  - apply (proj1 RelDiffBias_compute_bias_zero_reference
             (numpy_float64 5%float) (python_float 0%float)).
    reflexivity.
  - apply (proj1 (proj2 (proj2 (proj2 RelDiffBias_compute_bias_zero_reference)))
             5%float 0%float).
    vm_compute. reflexivity.
Defined.

End rel_diff_bias.

(** ** Inner joins *)

Lemma length_filter_key_NoDup {A} (key : A → string) (rows : list A) (k : string) :
  NoDup (map key rows) →
  (length (List.filter (λ r, bool_decide (key r = k)) rows) ≤ 1)%nat.
Proof.
  induction rows as [|r rows IH]; simpl; [lia|].
  intros Hnd. apply NoDup_cons in Hnd as [Hnin Hnd].
  case_bool_decide as Hk; simpl; [|by apply IH].
  assert (List.filter (λ r, bool_decide (key r = k)) rows = []) as ->; [|simpl; lia].
  apply filter_key_nil. by rewrite <- Hk.
Qed.

Section inner_join.
Import pandas.
Context {A B : Type} (left_on : A → string) (right_on : B → string).

Lemma elem_of_merge (left : list A) (right : list B) (a : A) (b : B) :
  (a, b) ∈ merge left right left_on right_on ↔
  a ∈ left ∧ b ∈ right ∧ right_on b = left_on a.
Proof.
  unfold merge. rewrite list_elem_of_In, in_flat_map. split.
  - intros (a' & Ha' & Hb). apply in_map_iff in Hb as (b' & [= -> ->] & Hb).
    apply filter_In in Hb as [Hb Hk]. apply bool_decide_eq_true in Hk.
    rewrite !list_elem_of_In. auto.
  - intros (Ha & Hb & Hk). exists a. rewrite <- list_elem_of_In. split; [done|].
    apply in_map, filter_In. rewrite <- list_elem_of_In.
    split; [done | by apply bool_decide_eq_true].
Qed.

(** The keys of the joined rows are the keys both sides have. *)
Lemma merge_keys (left : list A) (right : list B) :
  (list_to_set (map (λ r, left_on r.1) (merge left right left_on right_on)) : gset string)
  = list_to_set (map left_on left) ∩ list_to_set (map right_on right).
Proof.
  apply set_eq. intros k.
  rewrite elem_of_intersection, !elem_of_list_to_set, !list_elem_of_fmap. split.
  - intros ([a b] & -> & Hab). apply elem_of_merge in Hab as (Ha & Hb & Hk).
    split; [by exists a | exists b; by rewrite Hk].
  - intros [(a & -> & Ha) (b & Hk & Hb)]. exists (a, b). split; [done|].
    apply elem_of_merge. auto.
Qed.

Lemma length_merge (left : list A) (right : list B) :
  length (merge left right left_on right_on) =
  list_sum (map (λ a, length (List.filter (λ b, bool_decide (right_on b = left_on a)) right))
                left).
Proof.
  unfold merge. induction left as [|a left IH]; simpl; [done|].
  by rewrite length_app, length_map, IH.
Qed.

Lemma length_merge_NoDup_right (left : list A) (right : list B) :
  NoDup (map right_on right) →
  (length (merge left right left_on right_on) ≤ length left)%nat.
Proof.
  intros Hnd. rewrite length_merge.
  induction left as [|a left IH]; simpl; [lia|].
  pose proof (length_filter_key_NoDup right_on right (left_on a) Hnd). lia.
Qed.

Lemma length_merge_cons_right (left : list A) (b : B) (right : list B) :
  length (merge left (b :: right) left_on right_on) =
  (length (List.filter (λ a, bool_decide (left_on a = right_on b)) left)
   + length (merge left right left_on right_on))%nat.
Proof.
  induction left as [|a left IH]; [done|].
  change (merge (a :: left) ?r left_on right_on)
    with (map (pair a) (List.filter (λ b, bool_decide (right_on b = left_on a)) r)
            ++ merge left r left_on right_on).
  rewrite !length_app, !length_map, IH. simpl.
  destruct (decide (left_on a = right_on b)) as [Heq|Hne].
  - rewrite !bool_decide_eq_true_2 by done. simpl. lia.
  - rewrite !bool_decide_eq_false_2 by done. lia.
Qed.

Lemma length_merge_NoDup_left (left : list A) (right : list B) :
  NoDup (map left_on left) →
  (length (merge left right left_on right_on) ≤ length right)%nat.
Proof.
  intros Hnd. induction right as [|b right IH].
  - rewrite length_merge. induction left as [|a left IHl]; simpl; [lia|].
    apply NoDup_cons in Hnd as [_ Hnd]. by apply IHl.
  - rewrite length_merge_cons_right.
    pose proof (length_filter_key_NoDup left_on left (right_on b) Hnd). simpl. lia.
Qed.

Lemma length_merge_product (left : list A) (right : list B) :
  (length (merge left right left_on right_on) ≤ length left * length right)%nat.
Proof.
  rewrite length_merge.
  induction left as [|a left IH]; simpl; [lia|].
  pose proof (List.filter_length_le (λ b, bool_decide (right_on b = left_on a)) right).
  lia.
Qed.

End inner_join.

(** ** GroupingPerformance.merge_data and AsrPerformanceData.build_dataframe *)

Section merge_data_facts.
Import pandas data_prep grouping asr_performance_data grouping_performance.

Lemma merge_data_eq (g : Grouping) (asr : list performance_row)
      (grouping_data : list labeled_row) :
  labeled_rows (data_with_group_labels g) (label_fieldname g) = inr grouping_data →
  merge_data g asr = inr (merge asr grouping_data performance_Filename Filename).
Proof. intros Hrows. unfold merge_data. by rewrite Hrows. Qed.

(** C3. [merge_data] keeps as identifiers exactly those that the labeled
    feature rows and the recognition output share, and raises nothing for
    the identifiers only one side has; for the recordings 1, 2, 3 and the
    output for 2, 3, 4 the merged rows are those of 2 and 3. *)
Theorem merge_data_keeps_shared_identifiers :
  (∀ (g : Grouping) (asr : list performance_row) (grouping_data : list labeled_row),
      labeled_rows (data_with_group_labels g) (label_fieldname g) = inr grouping_data →
      ∃ merged,
        merge_data g asr = inr merged
        ∧ (list_to_set (map merged_Filename merged) : gset string)
          = list_to_set (map performance_Filename asr)
            ∩ list_to_set (map Filename grouping_data))
  ∧ (∃ dp g merged,
        DataPrep_init features_123 "read" (Some []) [] = inr dp
        ∧ PredefinedGrouping dp ["a"; "b"; "a"] = inr g
        ∧ g = grouping_123
        ∧ merge_data g output_234 = inr merged
        ∧ map merged_Filename merged = ["2"; "3"]).
Proof.
  split.
  - intros g asr grouping_data Hrows. eexists. split.
    + by apply merge_data_eq.
    + apply (merge_keys performance_Filename Filename).
  - do 3 eexists. repeat split; vm_compute; reflexivity.
Qed.

Lemma merge_data_keeps_shared_identifiers_witness :
  ∃ merged,
    merge_data grouping_123 output_234 = inr merged
    ∧ (list_to_set (map merged_Filename merged) : gset string)
      = list_to_set (map performance_Filename output_234)
        ∩ list_to_set (map Filename labeled_123).
Proof.
  apply (proj1 merge_data_keeps_shared_identifiers grouping_123 output_234 labeled_123).
  vm_compute. reflexivity.
Defined.

(** C9, as stated, fails: a recording that has the output of two models
    gives two merged rows from one labeled row, and a speaker with the
    error rows of two models gives two joined rows from one metadata row. *)
Lemma inner_join_exceeds_smaller_input :
  (∃ merged,
      labeled_rows (data_with_group_labels clustering_1)
                   (label_fieldname clustering_1) = inr labeled_1
      ∧ merge_data clustering_1 output_two_models = inr merged
      ∧ ¬ (length merged ≤ length output_two_models `min` length labeled_1)%nat)
  ∧ ¬ (length (build_dataframe meta_1 ["DC"] ["M1"; "M2"] read_two_models)
       ≤ length meta_1
         `min` length (combined_model_error_data ["DC"] ["M1"; "M2"] read_two_models))%nat.
Proof.
  split.
  - eexists. split; [|split]; [vm_compute; reflexivity..|].
    vm_compute. lia.
  - vm_compute. lia.
Qed.

(** C9, amended.  The rows of an inner join are at most the product of
    the row counts of its inputs; they are at most the rows of one input
    when the key is unique in the other input, and so at most the
    minimum of the two when the key is unique in both.  This holds for
    the merge of the recognition output with the labeled feature rows
    and for the join of the metadata with the concatenated error rows. *)
Theorem inner_join_row_bounds :
  (∀ (g : Grouping) (asr : list performance_row)
     (grouping_data : list labeled_row) (merged : list analysis_row),
      labeled_rows (data_with_group_labels g) (label_fieldname g) = inr grouping_data →
      merge_data g asr = inr merged →
      (length merged ≤ length asr * length grouping_data)%nat
      ∧ (NoDup (map Filename grouping_data) → (length merged ≤ length asr)%nat)
      ∧ (NoDup (map performance_Filename asr) →
           (length merged ≤ length grouping_data)%nat)
      ∧ (NoDup (map Filename grouping_data) → NoDup (map performance_Filename asr) →
           (length merged ≤ length asr `min` length grouping_data)%nat))
  ∧ (∀ (meta_data : list meta_row) (speaker_groups asr_models : list string)
       (read_csv : string → string → list error_counts),
      let errors := combined_model_error_data speaker_groups asr_models read_csv in
      let joined := build_dataframe meta_data speaker_groups asr_models read_csv in
      (length joined ≤ length meta_data * length errors)%nat
      ∧ (NoDup (map (λ r, SPKR (counts r)) errors) →
           (length joined ≤ length meta_data)%nat)
      ∧ (NoDup (map meta_SPKR meta_data) → (length joined ≤ length errors)%nat)
      ∧ (NoDup (map (λ r, SPKR (counts r)) errors) → NoDup (map meta_SPKR meta_data) →
           (length joined ≤ length meta_data `min` length errors)%nat)).
Proof.
  split.
  - intros g asr grouping_data merged Hrows Hmerged.
    rewrite (merge_data_eq _ _ _ Hrows) in Hmerged. injection Hmerged as <-.
    pose proof (length_merge_product performance_Filename Filename asr grouping_data).
    pose proof (length_merge_NoDup_right performance_Filename Filename asr grouping_data).
    pose proof (length_merge_NoDup_left performance_Filename Filename asr grouping_data).
    repeat split; intros; auto; apply Nat.min_glb; auto.
  - intros meta_data speaker_groups asr_models read_csv errors joined.
    subst joined. unfold build_dataframe. fold errors.
    change (concat _) with errors.
    pose proof (length_merge_product meta_SPKR (λ r, SPKR (counts r)) meta_data errors).
    pose proof (length_merge_NoDup_right meta_SPKR (λ r, SPKR (counts r)) meta_data errors).
    pose proof (length_merge_NoDup_left meta_SPKR (λ r, SPKR (counts r)) meta_data errors).
    repeat split; intros; auto; apply Nat.min_glb; auto.
Qed.

Lemma inner_join_row_bounds_witness :
  (length (merge output_234 labeled_123 performance_Filename Filename)
   ≤ length output_234 `min` length labeled_123)%nat.
Proof.
  apply (proj1 inner_join_row_bounds grouping_123 output_234 labeled_123).
  - vm_compute. reflexivity.
  - vm_compute. reflexivity.
  - apply (bool_decide_unpack _). vm_compute. reflexivity.
  - apply (bool_decide_unpack _). vm_compute. reflexivity.
Defined.

End merge_data_facts.

(** ** GroupingPerformance.get_group_WERs *)

Section group_WERs.
Import pandas data_prep grouping asr_performance_data grouping_performance.

Lemma elem_of_get_group_WERs (merged : list analysis_row)
      (label : analysis_row → string) (r : metrics.wer_row) :
  r ∈ group_WER_table merged label
  ↔ rows_of merged label (metrics.Model r) (metrics.Group r) ≠ []
    ∧ metrics.WER r = group_WER (float_columns merged)
                        (rows_of merged label (metrics.Model r) (metrics.Group r)).
Proof.
  unfold group_WER_table. rewrite list_elem_of_fmap. split.
  - intros ([[model group] rows] & -> & Hin). simpl.
    apply elem_of_groupby in Hin as [-> Hne]. done.
  - intros [Hne Hwer].
    exists ((metrics.Model r, metrics.Group r),
            rows_of merged label (metrics.Model r) (metrics.Group r)).
    split.
    + destruct r as [m g w]; simpl in *. by rewrite Hwer.
    + by apply elem_of_groupby.
Qed.

Lemma int64_id (z : Z) : (- 2 ^ 63 ≤ z < 2 ^ 63)%Z → numpy.int64 z = z.
Proof. intros Hz. unfold numpy.int64. rewrite Z.mod_small; lia. Qed.

(** The conversion gives the [float64] value nearest to the integer. *)
Lemma float64_spec (z : Z) :
  (- 2 ^ 63 ≤ z < 2 ^ 63)%Z →
  Prim2SF (numpy.float64 z) =
  if (z <? 0)%Z then SFopp (binary_normalize prec emax (- z) 0 false)
  else binary_normalize prec emax z 0 false.
Proof.
  intros Hz. unfold numpy.float64.
  destruct (z =? - 2 ^ 63)%Z eqn:Hmin.
  { apply Z.eqb_eq in Hmin. subst z. vm_compute. reflexivity. }
  apply Z.eqb_neq in Hmin.
  destruct (z <? 0)%Z eqn:Hneg.
  - apply Z.ltb_lt in Hneg.
    rewrite opp_spec, of_uint63_spec, Uint63.of_Z_spec.
    rewrite Z.mod_small; [done|]. change Uint63Axioms.wB with (2 ^ 63)%Z. lia.
  - apply Z.ltb_ge in Hneg.
    rewrite of_uint63_spec, Uint63.of_Z_spec.
    rewrite Z.mod_small; [done|]. change Uint63Axioms.wB with (2 ^ 63)%Z. lia.
Qed.

(** C2, as stated, fails when a sum of counts leaves the range of
    [int64]: two recordings of a cluster with [2^62] substitutions each
    and eight words together have [2^63] substitutions, for which the
    formula gives [((2^63 + 0 + 0) / 8) * 100 = 1.15...e20]; the sum is
    stored as [-2^63] and the WER that is returned is the negative of
    that. *)
Lemma get_group_WERs_sums_wrap_around :
  exact_sum Sub (merged_data performance_overflow) = (2 ^ 63)%Z
  ∧ exact_sum Del (merged_data performance_overflow) = 0%Z
  ∧ exact_sum Ins (merged_data performance_overflow) = 0%Z
  ∧ exact_sum Wrd (merged_data performance_overflow) = 8%Z
  ∧ PrimFloat.mul
      (PrimFloat.div (PrimFloat.add (PrimFloat.add 0x1p63%float 0%float) 0%float) 8%float)
      100%float = 0x1.9p66%float
  ∧ get_group_WERs performance_overflow "Cluster"
    = inr [ {| metrics.Model := "M"; metrics.Group := "0";
               metrics.WER := (-0x1.9p66)%float |} ]
  ∧ get_group_WERs performance_overflow "Cluster"
    ≠ inr [ {| metrics.Model := "M"; metrics.Group := "0";
               metrics.WER := 0x1.9p66%float |} ].
Proof.
  repeat split; try (vm_compute; reflexivity).
  vm_compute. discriminate.
Qed.

(** C2, amended.  [get_group_WERs] groups the merged rows by model and
    label, sums the word, substitution, deletion and insertion counts of
    each group in [int64] and returns, for each model and group that
    occurs, the WER [((S + D + I) / W) * 100] of the sums: on the sums
    read as [float64] when the frame has a float column, and with
    [S + D + I] added in [int64] when it has none.  A sum is the exact
    sum of the counts when that lies in the range of [int64], and the
    reading as [float64] rounds to nearest.  For S = 2, D = 1, I = 1 and
    W = 20 the WER is exactly 20.0. *)
Theorem get_group_WERs_sums_counts :
  (∀ (self : GroupingPerformance) (label_fieldname : string)
     (label : analysis_row → string),
      label_column self label_fieldname = inr label →
      ∃ table,
        get_group_WERs self label_fieldname = inr table
        ∧ NoDup (map (λ r, (metrics.Model r, metrics.Group r)) table)
        ∧ ∀ r, r ∈ table ↔
            let rows :=
              rows_of (merged_data self) label (metrics.Model r) (metrics.Group r) in
            rows ≠ []
            ∧ metrics.WER r = group_WER (float_columns (merged_data self)) rows)
  ∧ (∀ rows : list analysis_row,
      group_WER true rows =
      PrimFloat.mul
        (PrimFloat.div
           (PrimFloat.add
              (PrimFloat.add (numpy.float64 (column_sum Sub rows))
                             (numpy.float64 (column_sum Del rows)))
              (numpy.float64 (column_sum Ins rows)))
           (numpy.float64 (column_sum Wrd rows)))
        100%float)
  ∧ (∀ rows : list analysis_row,
      group_WER false rows =
      PrimFloat.mul
        (PrimFloat.div
           (numpy.float64
              (numpy.int64
                 (numpy.int64 (column_sum Sub rows + column_sum Del rows)
                  + column_sum Ins rows)))
           (numpy.float64 (column_sum Wrd rows)))
        100%float)
  ∧ (∀ (column : error_counts → Z) (rows : list analysis_row),
      (- 2 ^ 63 ≤ column_sum column rows < 2 ^ 63)%Z
      ∧ ((- 2 ^ 63 ≤ exact_sum column rows < 2 ^ 63)%Z →
         column_sum column rows = exact_sum column rows))
  ∧ (∀ z : Z,
      (- 2 ^ 63 ≤ z < 2 ^ 63)%Z →
      Prim2SF (numpy.float64 z) =
      if (z <? 0)%Z then SFopp (binary_normalize prec emax (- z) 0 false)
      else binary_normalize prec emax z 0 false)
  ∧ utils.word_error_rate
      (numpy.int64_scalar 2) (numpy.int64_scalar 1) (numpy.int64_scalar 1)
      (numpy.int64_scalar 20) = 20%float
  ∧ utils.word_error_rate
      (numpy.float64_scalar 2%float) (numpy.float64_scalar 1%float)
      (numpy.float64_scalar 1%float) (numpy.float64_scalar 20%float) = 20%float
  ∧ get_group_WERs performance_2_1_1_20 "Cluster"
    = inr [ {| metrics.Model := "M"; metrics.Group := "0"; metrics.WER := 20%float |} ]
  ∧ get_group_WERs performance_2_1_1_20_features "Cluster"
    = inr [ {| metrics.Model := "M"; metrics.Group := "0"; metrics.WER := 20%float |} ].
Proof.
  split; [|split; [|split; [|split; [|split]]]].
  - intros self label_fieldname label Hlabel. unfold get_group_WERs.
    rewrite Hlabel. simpl. eexists. split; [reflexivity|]. split.
    + rewrite map_map.
      erewrite map_ext; [apply (NoDup_groupby_keys str2_le)|].
      by intros [[model group] rows].
    + intros r. apply elem_of_get_group_WERs.
  - reflexivity.
  - reflexivity.
  - intros column rows. unfold column_sum. fold (exact_sum column rows). split.
    + unfold numpy.int64.
      pose proof (Z.mod_pos_bound (exact_sum column rows + 2 ^ 63) (2 ^ 64)). lia.
    + apply int64_id.
  - apply float64_spec.
  - repeat split; vm_compute; reflexivity.
Qed.

Lemma get_group_WERs_sums_counts_witness :
  (∃ table,
      get_group_WERs performance_2_1_1_20 "Cluster" = inr table
      ∧ NoDup (map (λ r, (metrics.Model r, metrics.Group r)) table))
  ∧ column_sum Wrd (merged_data performance_2_1_1_20) = 20%Z
  ∧ Prim2SF (numpy.float64 20) = binary_normalize prec emax 20 0 false.
Proof.
  pose proof get_group_WERs_sums_counts as (Htable & _ & _ & Hsum & Hfloat & _).
  split; [|split].
  - destruct (Htable performance_2_1_1_20 "Cluster" (λ r, label r.2))
      as (table & Hreturns & Hnodup & _).
    + vm_compute. reflexivity.
    + exists table. split; assumption.
  - apply (Hsum Wrd (merged_data performance_2_1_1_20)).
    change (exact_sum Wrd (merged_data performance_2_1_1_20)) with 20%Z. lia.
  - apply (Hfloat 20%Z). lia.
Defined.

End group_WERs.

(** ** Dictionaries and frames *)

Section pydict_facts.
Context {V : Type}.
Implicit Types (d : pydict.dict V) (k : string) (v : V).

Lemma get_None d k : pydict.get k d = None ↔ k ∉ pydict.keys d.
Proof.
  induction d as [|[k' v'] d IH]; simpl.
  - split; [intros _; apply not_elem_of_nil | done].
  - rewrite not_elem_of_cons. case_bool_decide as Hk.
    + split; [discriminate | intros [Hne _]; congruence].
    + rewrite IH. split; [intros ?; split; [congruence | done] | tauto].
Qed.

Lemma get_is_Some d k : is_Some (pydict.get k d) ↔ k ∈ pydict.keys d.
Proof.
  rewrite <- not_eq_None_Some, get_None.
  destruct (decide (k ∈ pydict.keys d)); tauto.
Qed.

Lemma get_setitem d k v k' :
  pydict.get k' (pydict.setitem k v d) =
  if decide (k = k') then Some v else pydict.get k' d.
Proof.
  induction d as [|[k0 v0] d IH]; simpl.
  - case_bool_decide; case_decide; congruence.
  - destruct (decide (k0 = k)) as [->|Hne].
    + rewrite bool_decide_eq_true_2 by done. simpl.
      case_bool_decide; case_decide; congruence.
    + rewrite bool_decide_eq_false_2 by done. simpl. rewrite IH.
      case_bool_decide; case_decide; congruence.
Qed.

Lemma keys_setitem d k v :
  k ∈ pydict.keys d → pydict.keys (pydict.setitem k v d) = pydict.keys d.
Proof.
  induction d as [|[k0 v0] d IH]; simpl; intros Hin.
  - by inversion Hin.
  - case_bool_decide as Hk; simpl; [by rewrite Hk|].
    f_equal. apply IH. apply elem_of_cons in Hin as [?|?]; [congruence | done].
Qed.

Lemma get_filter_keys d (names : list string) k :
  pydict.get k (List.filter (λ c, negb (bool_decide (c.1 ∈ names))) d) =
  if decide (k ∈ names) then None else pydict.get k d.
Proof.
  induction d as [|[k0 v0] d IH]; simpl.
  - by case_decide.
  - destruct (decide (k0 ∈ names)) as [Hin|Hnin].
    + rewrite bool_decide_eq_true_2 by done. simpl. rewrite IH.
      case_decide; [done|]. case_bool_decide; congruence.
    + rewrite bool_decide_eq_false_2 by done. simpl. rewrite IH.
      case_bool_decide; case_decide; congruence.
Qed.

Lemma get_fold_setitem (f : string → V) (ks : list string) d k :
  pydict.get k (fold_left (λ d k, pydict.setitem k (f k) d) ks d) =
  if decide (k ∈ ks) then Some (f k) else pydict.get k d.
Proof.
  revert d. induction ks as [|k0 ks IH]; intros d; simpl; [done|].
  rewrite IH, get_setitem. destruct (decide (k ∈ ks)) as [Hin|Hnin].
  - rewrite decide_True; [done | by right].
  - destruct (decide (k0 = k)) as [->|Hne].
    + rewrite decide_True; [done | by left].
    + rewrite decide_False; [done|]. rewrite elem_of_cons. intros [?|?]; congruence.
Qed.

Lemma get_comprehension (f : string → V) (ks : list string) k :
  pydict.get k (pydict.comprehension f ks) = if decide (k ∈ ks) then Some (f k) else None.
Proof. apply get_fold_setitem. Qed.

End pydict_facts.

Section override_features_facts.
Import data_prep.
Implicit Types (fd cf : pydict.dict (string * string)).

Lemma get_override_fold fd (ks : list string) cf k :
  pydict.get k
    (fold_left
       (λ custom_features csvfield,
          if pydict.contains csvfield custom_features then
            match pydict.get csvfield fd with
            | Some entry => pydict.setitem csvfield entry custom_features
            | None => custom_features
            end
          else custom_features) ks cf)
  = (λ v, if decide (k ∈ ks) then default v (pydict.get k fd) else v) <$> pydict.get k cf.
Proof.
  revert cf. induction ks as [|k0 ks IH]; intros cf; simpl.
  - by destruct (pydict.get k cf).
  - rewrite IH. clear IH. unfold pydict.contains.
    destruct (decide (k = k0)) as [->|Hne].
    + destruct (pydict.get k0 cf) as [v|] eqn:Hcf; simpl.
      * destruct (pydict.get k0 fd) as [e|] eqn:Hfd; simpl.
        -- rewrite get_setitem, decide_True by done. simpl.
           rewrite (decide_True (P := k0 ∈ k0 :: ks)) by (by left).
           simpl. by case_decide.
        -- rewrite Hcf. simpl.
           rewrite (decide_True (P := k0 ∈ k0 :: ks)) by (by left).
           simpl. by case_decide.
      * by rewrite Hcf.
    + assert (∀ cf', pydict.get k cf' = pydict.get k cf →
                (λ v, if decide (k ∈ ks) then default v (pydict.get k fd) else v)
                  <$> pydict.get k cf'
                = (λ v, if decide (k ∈ k0 :: ks) then default v (pydict.get k fd) else v)
                  <$> pydict.get k cf) as Hsame.
      { intros cf' ->. destruct (pydict.get k cf); simpl; [|done].
        destruct (decide (k ∈ ks)).
        - rewrite decide_True; [done | by right].
        - rewrite decide_False; [done|]. rewrite elem_of_cons. tauto. }
      destruct (pydict.get k0 cf); [|by apply Hsame].
      destruct (pydict.get k0 fd); [|by apply Hsame].
      apply Hsame. rewrite get_setitem. by rewrite decide_False.
Qed.

(** After the loop a field of the frame has the caller's entry when the
    caller gave one, and keeps its entry otherwise; no field is added. *)
Lemma get_override_features fd cf k :
  pydict.get k (override_features fd cf) =
  (λ v, default v (pydict.get k fd)) <$> pydict.get k cf.
Proof.
  unfold override_features. rewrite get_override_fold.
  destruct (pydict.get k cf) as [v|]; simpl; [|done].
  case_decide as Hk; [done|].
  apply get_None in Hk. by rewrite Hk.
Qed.

End override_features_facts.

Section frame_facts.
Import pandas.

Lemma getitem_inr (frame : DataFrame) (name : string) (c : Column) :
  getitem frame name = inr c ↔ pydict.get name (columns frame) = Some c.
Proof.
  unfold getitem. destruct (pydict.get name (columns frame)); simpl;
    split; intros; simplify_eq; done.
Qed.

Lemma getitem_inl (frame : DataFrame) (name : string) (e : Error) :
  getitem frame name = inl e ↔ (name ∉ column_names frame) ∧ e = KeyError name.
Proof.
  unfold getitem, column_names.
  destruct (pydict.get name (columns frame)) as [c|] eqn:Hget; simpl.
  - split; [discriminate|]. intros [Hnin _]. apply get_None in Hnin. congruence.
  - apply get_None in Hget. split; [intros [= <-]; done | intros [_ ->]; done].
Qed.

Lemma getitem_drop (frame : DataFrame) (names : list string) (name : string) :
  getitem (drop frame names) name =
  if decide (name ∈ names) then inl (KeyError name) else getitem frame name.
Proof.
  unfold getitem, drop. simpl. rewrite get_filter_keys. by case_decide.
Qed.

Lemma getitem_setitem (frame : DataFrame) (name : string) (c : Column) (name' : string) :
  getitem (setitem frame name c) name' =
  if decide (name = name') then inr c else getitem frame name'.
Proof. unfold getitem, setitem. simpl. rewrite get_setitem. by case_decide. Qed.

Lemma column_names_setitem (frame : DataFrame) (name : string) (c : Column) :
  name ∈ column_names frame → column_names (setitem frame name c) = column_names frame.
Proof. apply keys_setitem. Qed.

Lemma map_zip_with {A B C D} (f : C → D) (g : A → B → C) (l : list A) (k : list B) :
  map f (zip_with g l k) = zip_with (λ a b, f (g a b)) l k.
Proof.
  revert k. induction l as [|a l IH]; intros [|b k]; simpl; [done..|].
  by rewrite IH.
Qed.

End frame_facts.

(** ** DataPrep: duration normalization *)

Section duration_normalization.
Import pandas data_prep.

Lemma engineer_durations_fields (data : DataFrame) :
  engineer_durations data = engineer_fields (column_names data) duration_fields data.
Proof.
  unfold engineer_durations, duration_fields. simpl.
  repeat (destruct (engineer_duration _ _ _) as [?|?]; simpl; [done|]). done.
Qed.

Lemma engineer_duration_inr (cl : list string) (f : string) (data data' : DataFrame) :
  engineer_duration cl f data = inr data' →
  ((f ∉ cl) ∧ data' = data)
  ∨ (f ∈ cl ∧ ∃ d r,
       getitem data f = inr (NumCol d)
       ∧ getitem data articulation_rate = inr (NumCol r)
       ∧ data' = setitem data f (NumCol (zip_with relative_duration d r))).
Proof.
  unfold engineer_duration. case_bool_decide as Hcl; [|intros [= <-]; by left].
  destruct (getitem data f) as [?|[d|d]]; simpl; try discriminate;
    destruct (getitem data articulation_rate) as [?|[r|r]]; simpl; try discriminate.
  intros [= <-]. right. split; [done|]. exists d, r.
  by rewrite map_zip_with.
Qed.

Lemma engineer_duration_inl (cl : list string) (f : string) (data : DataFrame) (e : Error) :
  numeric_features data → f ≠ "Filename" →
  engineer_duration cl f data = inl e → DataFormatError e.
Proof.
  intros Hnum Hf. unfold engineer_duration. case_bool_decide as Hcl; [|discriminate].
  destruct (getitem data f) as [?|c] eqn:Hd; simpl.
  { intros [= <-]. apply getitem_inl in Hd as [_ ->]. by eexists. }
  destruct (getitem data articulation_rate) as [?|c'] eqn:Hr; simpl.
  { intros [= <-]. apply getitem_inl in Hr as [_ ->]. by eexists. }
  destruct (Hnum _ _ Hf Hd) as [d ->].
  assert (articulation_rate ≠ "Filename") as Hrate by done.
  destruct (Hnum _ _ Hrate Hr) as [r ->]. simpl. discriminate.
Qed.

Lemma engineer_duration_preserves (cl : list string) (f : string) (data data' : DataFrame) :
  engineer_duration cl f data = inr data' →
  index data' = index data ∧ column_names data' = column_names data
  ∧ (numeric_features data → numeric_features data').
Proof.
  intros Heng. apply engineer_duration_inr in Heng as [[_ ->]|(_ & d & r & Hd & _ & ->)].
  - done.
  - split; [done|]. split.
    + apply column_names_setitem. apply get_is_Some.
      apply getitem_inr in Hd. by rewrite Hd.
    + intros Hnum name c Hname. rewrite getitem_setitem. case_decide.
      * intros [= <-]. by eexists.
      * by apply Hnum.
Qed.

Lemma engineer_fields_preserves (cl fields : list string) (data data' : DataFrame) :
  engineer_fields cl fields data = inr data' →
  index data' = index data ∧ column_names data' = column_names data
  ∧ (numeric_features data → numeric_features data').
Proof.
  revert data. induction fields as [|f fields IH]; intros data; simpl.
  - by intros [= <-].
  - destruct (engineer_duration cl f data) as [?|data1] eqn:E1; simpl; [discriminate|].
    intros Hrest. apply engineer_duration_preserves in E1 as (Hi & Hn & Hnum).
    apply IH in Hrest as (Hi' & Hn' & Hnum').
    split; [congruence|]. split; [congruence | auto].
Qed.

Lemma engineer_fields_inl (cl fields : list string) (data : DataFrame) (e : Error) :
  numeric_features data → "Filename" ∉ fields →
  engineer_fields cl fields data = inl e → DataFormatError e.
Proof.
  revert data. induction fields as [|f fields IH]; intros data Hnum Hfields; simpl.
  - discriminate.
  - apply not_elem_of_cons in Hfields as [Hf Hfields].
    destruct (engineer_duration cl f data) as [e1|data1] eqn:E1; simpl.
    + intros [= <-]. eapply engineer_duration_inl; eauto.
    + apply engineer_duration_preserves in E1 as (_ & _ & Hnum1). eauto.
Qed.




End duration_normalization.

(** ** DataPrep.__init__ *)

Section data_prep_init.
Import pandas data_prep.

Lemma rescaled_inl (e : Error) (rate : Exc Column) : rescaled (inl e) rate = inl e.
Proof. done. Qed.



Lemma DataPrep_init_inr (csv : DataFrame) (style : string)
      (fd : option (pydict.dict (string * string))) (dropcolumns : list string)
      (dp : DataPrep) :
  DataPrep_init csv style fd dropcolumns = inr dp ↔
  ∃ data' ids feature_dict,
    engineer_durations csv = inr data'
    ∧ getitem (drop data' dropcolumns) "Filename" = inr ids
    ∧ fd = Some feature_dict
    ∧ dp = {| speaking_style := style;
              data := drop data' dropcolumns;
              audiofile_ids := ids;
              custom_features :=
                override_features feature_dict
                  (pydict.comprehension (λ csvfield, (csvfield, "Value"))
                     (tail (column_names (drop data' dropcolumns))));
              normalized_data := None |}.
Proof.
  unfold DataPrep_init.
  destruct (engineer_durations csv) as [e|data'] eqn:Heng; simpl.
  { split; [discriminate | intros (? & ? & ? & [=] & _)]. }
  destruct (getitem (drop data' dropcolumns) "Filename") as [e|ids] eqn:Hids; simpl.
  { split; [discriminate | intros (? & ? & ? & [= <-] & Hids' & _)]. congruence. }
  destruct fd as [feature_dict|]; simpl.
  - split.
    + intros [= <-]. by exists data', ids, feature_dict.
    + intros (? & ? & ? & [= <-] & Hids' & [= <-] & ->). congruence.
  - split; [discriminate | intros (? & ? & ? & _ & _ & [=] & _)].
Qed.

(** C5. Loading a source that has no identifier column ['Filename']
    raises, whatever the other arguments are, and the steps that would
    follow in the pipeline are not run; for a source with numeric feature
    columns the exception is a [KeyError] for a missing column, which is
    what the specification calls [DataFormatError]. *)
Theorem DataPrep_init_missing_identifier (csv : DataFrame) (style : string)
        (fd : option (pydict.dict (string * string))) (dropcolumns : list string) :
  "Filename" ∉ column_names csv →
  ∃ e, DataPrep_init csv style fd dropcolumns = inl e
       ∧ (numeric_features csv → DataFormatError e)
       ∧ ∀ (B : Type) (pipeline : DataPrep → Exc B),
           bind (DataPrep_init csv style fd dropcolumns) pipeline = inl e.
Proof.
  intros Hid.
  assert (∃ e, DataPrep_init csv style fd dropcolumns = inl e
               ∧ (numeric_features csv → DataFormatError e)) as (e & Hinit & He).
  { unfold DataPrep_init.
    destruct (engineer_durations csv) as [e|data'] eqn:Heng; simpl.
    - exists e. split; [done|]. intros Hnum.
      rewrite engineer_durations_fields in Heng.
      eapply engineer_fields_inl; [done | | done].
      by apply (bool_decide_unpack _).
    - assert (getitem (drop data' dropcolumns) "Filename"
              = inl (KeyError "Filename")) as ->.
      { rewrite getitem_drop. case_decide; [done|].
        apply getitem_inl. split; [|done].
        rewrite engineer_durations_fields in Heng.
        apply engineer_fields_preserves in Heng as (_ & -> & _). done. }
      simpl. eexists. split; [done|]. intros _. by eexists. }
  exists e. split; [done|]. split; [done|].
  intros B pipeline. by rewrite Hinit.
Qed.

Lemma DataPrep_init_missing_identifier_witness :
  ∃ e, DataPrep_init features_without_identifier "read" (Some []) [] = inl e
       ∧ (numeric_features features_without_identifier → DataFormatError e)
       ∧ ∀ (B : Type) (pipeline : DataPrep → Exc B),
           bind (DataPrep_init features_without_identifier "read" (Some []) []) pipeline
           = inl e.
Proof.
  apply (DataPrep_init_missing_identifier features_without_identifier "read" (Some []) []).
  apply (bool_decide_unpack _). vm_compute. reflexivity.
Defined.

(** C6. With the default [feature_dict=None] the constructor raises for
    every source: a source that passes the earlier steps reaches the
    loop over [feature_dict] and gets a [TypeError].  With a mapping
    given, every column after the first is mapped to the caller's entry
    for it when there is one and to its own name with the unit "Value"
    otherwise, and nothing else is mapped. *)
Theorem DataPrep_init_default_feature_dict :
  (∀ (csv : DataFrame) (style : string) (dropcolumns : list string),
      ∃ e, DataPrep_init csv style None dropcolumns = inl e)
  ∧ DataPrep_init features_123 "read" None [] = inl TypeError
  ∧ (∀ (csv : DataFrame) (style : string) (feature_dict : pydict.dict (string * string))
       (dropcolumns : list string) (dp : DataPrep),
      DataPrep_init csv style (Some feature_dict) dropcolumns = inr dp →
      ∀ csvfield,
        pydict.get csvfield (custom_features dp) =
        if decide (csvfield ∈ tail (column_names (data dp)))
        then Some (default (csvfield, "Value") (pydict.get csvfield feature_dict))
        else None).
Proof.
  split; [|split].
  - intros csv style dropcolumns.
    destruct (DataPrep_init csv style None dropcolumns) as [e|dp] eqn:Hinit;
      [by eexists|].
    apply DataPrep_init_inr in Hinit as (? & ? & ? & _ & _ & [=] & _).
  - vm_compute. reflexivity.
  - intros csv style feature_dict dropcolumns dp Hinit csvfield.
    apply DataPrep_init_inr in Hinit as (data' & ids & fd' & _ & _ & [= <-] & ->).
    simpl. rewrite get_override_features, get_comprehension.
    by case_decide.
Qed.

Lemma DataPrep_init_default_feature_dict_witness :
  pydict.get "Mean Pitch (Hz)"
    (custom_features
       {| speaking_style := "read"; data := features_123;
          audiofile_ids := StrCol ["1"; "2"; "3"];
          custom_features := [("Mean Pitch (Hz)", ("Pitch", "Hertz"))];
          normalized_data := None |})
  = Some ("Pitch", "Hertz").
Proof.
  apply (proj2 (proj2 DataPrep_init_default_feature_dict)
           features_123 "read" [("Mean Pitch (Hz)", ("Pitch", "Hertz"))] []).
  vm_compute. reflexivity.
Defined.

End data_prep_init.

Section duration_theorem.
Import pandas data_prep.



End duration_theorem.

(** ** DataPrep.get_normalized_data *)

Section normalized_data_cache.
Import pandas data_prep.
Context {Scaler : Type}.
Variable fit_transform : Scaler → list (string * Column) → Exc (Scaler * ndarray).
Variable check_normality : DataFrame → list string → Exc unit.

(** C10. Once [normalized_data] is set, [get_normalized_data] returns
    the stored array for every scaler argument and leaves the object
    and the scaler as they were: nothing is fitted or recomputed.
    [normalize_data] is what replaces the stored array, by the array the
    given scaler returns, whether or not one was stored before. *)
Theorem get_normalized_data_returns_stored :
  (∀ (self : DataPrep) (scaler : Scaler) (stored : ndarray),
      normalized_data self = Some stored →
      get_normalized_data fit_transform check_normality self scaler
      = inr (Some stored, self, scaler))
  ∧ (∀ (self : DataPrep) (scaler scaler' : Scaler)
       (features : list (string * Column)) (fitted : ndarray),
      select (data self) (pydict.keys (custom_features self)) = inr features →
      fit_transform scaler features = inr (scaler', fitted) →
      normalize_data fit_transform check_normality self scaler false
      = inr (set_normalized_data self fitted, scaler')
      ∧ get_normalized_data fit_transform check_normality
          (set_normalized_data self fitted) scaler
        = inr (Some fitted, set_normalized_data self fitted, scaler)).
Proof.
  split.
  - intros self scaler stored Hstored. unfold get_normalized_data.
    rewrite Hstored. simpl. by rewrite Hstored.
  - intros self scaler scaler' features fitted Hsel Hfit. split.
    + unfold normalize_data. simpl. rewrite Hsel. simpl. by rewrite Hfit.
    + done.
Qed.

End normalized_data_cache.

Section normalized_data_witness.
Import pandas data_prep.

Lemma get_normalized_data_returns_stored_witness :
  get_normalized_data counting_scaler (λ _ _, inr tt) normalized_prep 3
  = inr (Some [[numpy.float64 7]], normalized_prep, 3).
Proof.
  apply (proj1 (get_normalized_data_returns_stored counting_scaler (λ _ _, inr tt))
           normalized_prep 3 [[numpy.float64 7]]).
  reflexivity.
Defined.

End normalized_data_witness.

(** ** PredefinedGrouping *)

Section predefined_grouping.
Import pandas data_prep grouping.

Lemma assign_mismatch (frame : DataFrame) (name : string) (values : list string) :
  index frame ≠ 0 → length values ≠ index frame →
  assign frame name values = inl ValueError.
Proof.
  intros Hrows Hlen. unfold assign.
  rewrite (bool_decide_eq_false_2 (index frame = 0 ∧ length values ≠ 0)) by tauto.
  by rewrite bool_decide_eq_false_2.
Qed.

Lemma assign_empty_index (frame : DataFrame) (name : string) (values : list string) :
  index frame = 0 → values ≠ [] →
  ∃ frame', assign frame name values = inr frame' ∧ index frame' = length values.
Proof.
  intros Hrows Hvalues. unfold assign.
  rewrite (bool_decide_eq_true_2 (index frame = 0 ∧ length values ≠ 0))
    by (by destruct values).
  simpl. rewrite bool_decide_eq_true_2 by done. by eexists.
Qed.

(** C4, as stated, fails for a table without rows: a source with only
    a header loads, and a predefined grouping of it with one label is
    built without an exception, the frame taking the length of the
    label list. *)
Lemma PredefinedGrouping_accepts_labels_for_empty_table :
  ∃ dp g,
    DataPrep_init features_header_only "read" (Some []) [] = inr dp
    ∧ length ["a"] ≠ index (data dp)
    ∧ PredefinedGrouping dp ["a"] = inr g
    ∧ PredefinedGrouping dp ["a"] ≠ inl ShapeMismatchError.
Proof.
  do 2 eexists. split; [vm_compute; reflexivity|].
  split; [vm_compute; lia|]. split; [vm_compute; reflexivity | discriminate].
Qed.

(** C4, amended.  For every feature table with at least one row and
    every label list whose length is not the number of rows,
    [PredefinedGrouping] raises the [ValueError] of the length mismatch
    ([ShapeMismatchError]); with a list of the right length it returns
    the grouping with the label column ['Group']. *)
Theorem PredefinedGrouping_length_mismatch :
  (∀ (dp : DataPrep) (labels : list string),
      index (data dp) ≠ 0 → length labels ≠ index (data dp) →
      PredefinedGrouping dp labels = inl ShapeMismatchError)
  ∧ (∀ (dp : DataPrep) (labels : list string),
      length labels = index (data dp) →
      ∃ g, PredefinedGrouping dp labels = inr g
           ∧ label_fieldname g = "Group"
           ∧ group_labels g = labels
           ∧ getitem (data_with_group_labels g) "Group" = inr (StrCol labels)).
Proof.
  split.
  - intros dp labels Hrows Hlen. unfold PredefinedGrouping, _add_labels.
    by rewrite assign_mismatch.
  - intros dp labels Hlen. unfold PredefinedGrouping, _add_labels, assign.
    assert (bool_decide (index (data dp) = 0 ∧ length labels ≠ 0) = false) as ->.
    { apply bool_decide_eq_false_2. lia. }
    rewrite bool_decide_eq_true_2 by done. eexists.
    split; [reflexivity|].
    cbn [label_fieldname group_labels data_with_group_labels]. repeat split.
    by rewrite getitem_setitem, decide_True.
Qed.

Lemma PredefinedGrouping_length_mismatch_witness :
  PredefinedGrouping normalized_prep ["a"; "b"] = inl ShapeMismatchError.
Proof.
  apply (proj1 PredefinedGrouping_length_mismatch normalized_prep ["a"; "b"]).
  - vm_compute. lia.
  - vm_compute. lia.
Defined.

End predefined_grouping.

(** * Further properties *)

(** ** Groups partition the rows *)

Section partition.
Import pandas.
Context {A K : Type} `{EqDecision K}.

Lemma Permutation_reflexive_eq (l l' : list A) : l = l' → l ≡ₚ l'.
Proof. by intros ->. Qed.

Lemma filter_complement_Permutation (f : A → bool) (l : list A) :
  List.filter f l ++ List.filter (λ a, negb (f a)) l ≡ₚ l.
Proof.
  induction l as [|a l IH]; simpl; [done|].
  destruct (f a); simpl.
  - by rewrite IH.
  - rewrite <- Permutation_middle. by rewrite IH.
Qed.

Lemma filter_filter_key (key : A → K) (k k' : K) (l : list A) :
  k' ≠ k →
  List.filter (λ r, bool_decide (key r = k'))
              (List.filter (λ r, negb (bool_decide (key r = k))) l)
  = List.filter (λ r, bool_decide (key r = k')) l.
Proof.
  intros Hne. induction l as [|a l IH]; simpl; [done|].
  destruct (decide (key a = k)) as [Hk|Hk].
  - rewrite (bool_decide_eq_true_2 _ Hk). simpl.
    rewrite bool_decide_eq_false_2 by congruence. done.
  - rewrite (bool_decide_eq_false_2 _ Hk). simpl. by rewrite IH.
Qed.

(** The rows with the keys of a duplicate-free list that has every key
    of the frame are the rows of the frame. *)
Lemma concat_groups_Permutation (key : A → K) (ks : list K) (l : list A) :
  NoDup ks → (∀ a, a ∈ l → key a ∈ ks) →
  concat (map (λ k, List.filter (λ r, bool_decide (key r = k)) l) ks) ≡ₚ l.
Proof.
  revert l. induction ks as [|k ks IH]; intros l Hnd Hkeys; simpl.
  - destruct l as [|a l]; [done|]. specialize (Hkeys a ltac:(by left)). by inversion Hkeys.
  - apply NoDup_cons in Hnd as [Hk Hnd].
    transitivity (List.filter (λ r, bool_decide (key r = k)) l
                  ++ List.filter (λ r, negb (bool_decide (key r = k))) l);
      [|apply filter_complement_Permutation].
    apply Permutation_app_head.
    rewrite <- (IH (List.filter (λ r, negb (bool_decide (key r = k))) l) Hnd).
    + apply Permutation_reflexive_eq. f_equal. apply map_ext_in. intros k' Hk'.
      symmetry. apply filter_filter_key. apply list_elem_of_In in Hk'. congruence.
    + intros a Ha. apply list_elem_of_In, filter_In in Ha as [Ha Hne].
      apply list_elem_of_In in Ha. apply negb_true_iff, bool_decide_eq_false in Hne.
      specialize (Hkeys a Ha). apply elem_of_cons in Hkeys as [?|?]; [done | done].
Qed.

Lemma groupby_Permutation (le : K → K → Prop) `{∀ a b, Decision (le a b)}
      (key : A → K) (l : list A) :
  concat (map snd (groupby le key l)) ≡ₚ l.
Proof.
  unfold groupby. rewrite map_map. simpl.
  apply concat_groups_Permutation.
  - apply NoDup_sorted_keys.
  - intros a Ha. apply elem_of_sorted_keys, list_elem_of_fmap. by exists a.
Qed.

Lemma filter_filter_eq (key : A → K) (l : list A) (k1 k2 : K) :
  List.filter (λ r, bool_decide (key r = k1))
              (List.filter (λ r, bool_decide (key r = k2)) l)
  = if decide (k1 = k2) then List.filter (λ r, bool_decide (key r = k1)) l else [].
Proof.
  induction l as [|a l IHl]; simpl; [by case_decide|].
  destruct (decide (key a = k2)) as [Ha|Ha].
  - rewrite (bool_decide_eq_true_2 _ Ha). simpl. rewrite IHl.
    destruct (decide (k1 = k2)) as [->|Hk12].
    + by rewrite (bool_decide_eq_true_2 _ Ha).
    + rewrite bool_decide_eq_false_2 by congruence. done.
  - rewrite (bool_decide_eq_false_2 _ Ha). rewrite IHl.
    destruct (decide (k1 = k2)) as [->|Hk12]; [|done].
    by rewrite (bool_decide_eq_false_2 _ Ha).
Qed.

(** Within one key the rows keep their order. *)
Lemma filter_concat_groups (key : A → K) (ks : list K) (l : list A) (k : K) :
  NoDup ks → k ∈ ks →
  List.filter (λ r, bool_decide (key r = k))
              (concat (map (λ k', List.filter (λ r, bool_decide (key r = k')) l) ks))
  = List.filter (λ r, bool_decide (key r = k)) l.
Proof.
  intros Hnd Hk. induction ks as [|k0 ks IH]; simpl; [by inversion Hk|].
  apply NoDup_cons in Hnd as [Hk0 Hnd]. rewrite List.filter_app.
  pose proof (filter_filter_eq key l) as Hff.
  rewrite Hff. destruct (decide (k = k0)) as [->|Hne].
  - assert (List.filter (λ r, bool_decide (key r = k0))
              (concat (map (λ k', List.filter (λ r, bool_decide (key r = k')) l) ks))
            = []) as ->; [|by rewrite app_nil_r].
    clear IH Hk. induction ks as [|k1 ks IHks]; simpl; [done|].
    apply not_elem_of_cons in Hk0 as [Hk01 Hk0]. apply NoDup_cons in Hnd as [_ Hnd].
    rewrite List.filter_app, Hff. rewrite (decide_False (P := k0 = k1)) by done.
    simpl. by apply IHks.
  - simpl. apply IH; [done|]. apply elem_of_cons in Hk as [?|?]; [done | done].
Qed.

End partition.

(** ** Grouping.get_group_sizes *)

Section group_sizes.
Import pandas data_prep grouping grouping_methods.

Lemma zip_map_self {A B} (f : A → B) (l : list A) :
  zip l (map f l) = map (λ a, (a, f a)) l.
Proof. induction l as [|a l IH]; simpl; [done | by rewrite IH]. Qed.

Lemma length_concat_sum {A} (ls : list (list A)) :
  length (concat ls) = list_sum (map length ls).
Proof. induction ls as [|l ls IH]; simpl; [done|]. by rewrite length_app, IH. Qed.

Lemma unique_counts_sum (values : list string) :
  list_sum (tables.unique_counts values).2 = length values.
Proof.
  unfold tables.unique_counts. simpl.
  rewrite <- (Permutation_length
                (concat_groups_Permutation (λ x : string, x)
                   (sorted_keys str_le values) values
                   (NoDup_sorted_keys str_le values)
                   (λ a Ha, proj2 (elem_of_sorted_keys str_le values a) Ha))).
  by rewrite length_concat_sum, map_map.
Qed.

Lemma get_group_sizes_eq (g : Grouping) :
  get_group_sizes g =
  map (λ v, (v, length (List.filter (λ x, bool_decide (x = v)) (group_labels g))))
      (sorted_keys str_le (group_labels g)).
Proof. unfold get_group_sizes, tables.unique_counts. apply zip_map_self. Qed.

Lemma get_group_sizes_sum (g : Grouping) :
  list_sum (map snd (get_group_sizes g)) = length (group_labels g).
Proof.
  rewrite get_group_sizes_eq, map_map. simpl.
  apply (unique_counts_sum (group_labels g)).
Qed.

(** [get_group_sizes] lists every label that occurs once, with the
    number of rows that carry it; no size is zero, and the sizes add up
    to the number of labelled rows. *)
Theorem get_group_sizes_partition (g : Grouping) :
  NoDup (map fst (get_group_sizes g))
  ∧ (∀ l n, (l, n) ∈ get_group_sizes g ↔
            l ∈ group_labels g
            ∧ n = length (List.filter (λ x, bool_decide (x = l)) (group_labels g)))
  ∧ (∀ l n, (l, n) ∈ get_group_sizes g → (1 ≤ n)%nat)
  ∧ list_sum (map snd (get_group_sizes g)) = length (group_labels g).
Proof.
  pose proof (get_group_sizes_eq g) as Hsizes.
  assert (map fst (get_group_sizes g) = sorted_keys str_le (group_labels g)) as Hfst.
  { rewrite Hsizes, map_map. simpl. apply map_id. }
  assert (∀ l n, (l, n) ∈ get_group_sizes g ↔
            l ∈ group_labels g
            ∧ n = length (List.filter (λ x, bool_decide (x = l)) (group_labels g))) as Hin.
  { intros l n. rewrite Hsizes, list_elem_of_fmap. split.
    - intros (v & [= -> ->] & Hv). by apply elem_of_sorted_keys in Hv.
    - intros [Hl ->]. exists l. split; [done|]. by apply elem_of_sorted_keys. }
  split; [|split; [|split]].
  - rewrite Hfst. apply NoDup_sorted_keys.
  - exact Hin.
  - intros l n Hln. apply Hin in Hln as [Hl ->].
    destruct (List.filter _ (group_labels g)) as [|x xs] eqn:E; [|simpl; lia].
    apply (filter_key_nil (λ x : string, x)) in E. rewrite map_id in E.
    exfalso. exact (E Hl).
  - apply get_group_sizes_sum.
Qed.

Lemma get_group_sizes_partition_witness :
  (1 ≤ 2)%nat
  ∧ list_sum (map snd (get_group_sizes grouping_123)) = length (group_labels grouping_123).
Proof.
  pose proof (get_group_sizes_partition grouping_123) as (_ & _ & Hsize & Hsum).
  split; [|exact Hsum].
  apply (Hsize "a" 2). apply list_elem_of_In. vm_compute. auto.
Defined.

Lemma assign_inr (frame frame' : DataFrame) (name : string) (values : list string) :
  assign frame name values = inr frame' →
  index frame' = length values ∧ getitem frame' name = inr (StrCol values).
Proof.
  unfold assign.
  destruct (bool_decide (index frame = 0 ∧ length values ≠ 0)) eqn:Hempty; cbn zeta.
  - cbn [index]. rewrite (bool_decide_eq_true_2 (length values = length values)) by done.
    intros [= <-]. split; [done|]. by rewrite getitem_setitem, decide_True.
  - destruct (bool_decide (length values = index frame)) eqn:Hlen; [|discriminate].
    apply bool_decide_eq_true in Hlen. intros [= <-].
    split; [done|]. by rewrite getitem_setitem, decide_True.
Qed.

(** A predefined grouping that is built keeps the [DataPrep] and the
    labels it was given; its labelled frame has the labels as the column
    ['Group'] and one row per label; and for a source with rows every
    other column is the one of the source. *)
Theorem PredefinedGrouping_labels_every_row (dp : DataPrep) (labels : list string)
        (g : Grouping) :
  PredefinedGrouping dp labels = inr g →
  label_fieldname g = "Group"
  ∧ group_labels g = labels
  ∧ grouping_data_prep g = dp
  ∧ getitem (data_with_group_labels g) "Group" = inr (StrCol labels)
  ∧ index (data_with_group_labels g) = length labels
  ∧ (index (data dp) ≠ 0 →
     ∀ name, name ≠ "Group" →
             getitem (data_with_group_labels g) name = getitem (data dp) name).
Proof.
  unfold PredefinedGrouping, _add_labels.
  destruct (assign (data dp) "Group" labels) as [e|frame'] eqn:Hassign; simpl;
    [discriminate|].
  intros [= <-]. cbn [label_fieldname group_labels grouping_data_prep
                      data_with_group_labels].
  pose proof Hassign as Hframe. apply assign_inr in Hassign as [Hindex Hcol].
  do 5 (split; [done|]).
  intros Hrows name Hname. unfold assign in Hframe.
  rewrite (bool_decide_eq_false_2 (index (data dp) = 0 ∧ length labels ≠ 0)) in Hframe
    by tauto.
  destruct (bool_decide (length labels = index (data dp))); [|discriminate].
  injection Hframe as <-. rewrite getitem_setitem. by rewrite decide_False.
Qed.

Lemma PredefinedGrouping_labels_every_row_witness :
  getitem (data_with_group_labels grouping_123) "Group" = inr (StrCol ["a"; "b"; "a"])
  ∧ index (data_with_group_labels grouping_123) = 3.
Proof.
  pose proof (PredefinedGrouping_labels_every_row
                (grouping_data_prep grouping_123) ["a"; "b"; "a"] grouping_123) as H.
  split; apply H; vm_compute; reflexivity.
Defined.

End group_sizes.

(** ** OverallBias.compute: the tables it returns *)

Section overall_bias_tables.
Import pandas metrics metrics_methods.

Lemma bias_rows_eq (bm : BiasMeasure) (table : list wer_row) :
  map row (OverallBias_compute bm table).2 =
  concat (map snd (groupby str_le Model table)).
Proof.
  unfold OverallBias_compute. rewrite OverallBias_compute_fold. cbn [snd app].
  induction (groupby str_le Model table) as [|[name group] groups IH];
    cbn [map concat snd]; [done|].
  rewrite map_app, IH, compute_model_rows, map_map. cbn [row]. by rewrite map_id.
Qed.

Lemma filter_Permutation_nil {A} (f : A → bool) (l l' : list A) :
  l ≡ₚ l' → List.filter f l' = [] → List.filter f l = [].
Proof.
  intros Hperm Hnil.
  destruct (List.filter f l) as [|a l0] eqn:E; [done|].
  assert (In a (List.filter f l)) as Ha by (rewrite E; by left).
  apply filter_In in Ha as [Ha Hf].
  assert (In a (List.filter f l')) as Ha'.
  { apply filter_In. split; [|done].
    apply list_elem_of_In. rewrite <- Hperm. by apply list_elem_of_In. }
  rewrite Hnil in Ha'. by inversion Ha'.
Qed.

Lemma bias_rows_Permutation (bm : BiasMeasure) (table : list wer_row) :
  map row (OverallBias_compute bm table).2 ≡ₚ table.
Proof. rewrite bias_rows_eq. apply groupby_Permutation. Qed.

Lemma OverallBias_compute_dom (bm : BiasMeasure) (table : list wer_row) :
  dom (OverallBias_compute bm table).1 = list_to_set (map Model table).
Proof.
  apply set_eq. intros model.
  rewrite elem_of_dom, elem_of_list_to_set, overall_bias_per_model_lookup.
  unfold overall_bias_spec.
  destruct (List.filter _ table) as [|r0 rs] eqn:E.
  - apply (filter_key_nil Model) in E. split; [by intros [? ?] | done].
  - split; [|by eauto]. intros _.
    destruct (decide (model ∈ map Model table)) as [?|Hnin]; [done|].
    apply (filter_key_nil Model) in Hnin. congruence.
Qed.

Lemma OverallBias_compute_call_inr (bm : BiasMeasure) (table : list wer_row)
      (result : gmap string float * list bias_row) :
  OverallBias_compute_call bm table = inr result ↔
  table ≠ [] ∧ result = OverallBias_compute bm table.
Proof.
  unfold OverallBias_compute_call. destruct table; split.
  - discriminate.
  - by intros [? _].
  - by intros [= <-].
  - by intros [_ ->].
Qed.

(** A call of [OverallBias.compute] that returns was given a table with
    rows, and its per-group table holds every row of that table once:
    the rows of a model are those of the input in their order, no row is
    lost or repeated, and the overall bias has an entry for exactly the
    models of the table. *)
Theorem OverallBias_compute_keeps_rows (bm : BiasMeasure) (table : list wer_row)
        (result : gmap string float * list bias_row) :
  OverallBias_compute_call bm table = inr result →
  table ≠ []
  ∧ map row result.2 ≡ₚ table
  ∧ length result.2 = length table
  ∧ (∀ model,
       List.filter (λ r, bool_decide (Model r = model)) (map row result.2)
       = List.filter (λ r, bool_decide (Model r = model)) table)
  ∧ dom result.1 = list_to_set (map Model table).
Proof.
  intros [Hrows ->]%OverallBias_compute_call_inr. split; [done|].
  pose proof (bias_rows_Permutation bm table) as Hperm.
  split; [done|]. split; [|split].
  - rewrite <- (length_map row). by rewrite Hperm.
  - intros model. destruct (decide (model ∈ map Model table)) as [Hin|Hnin].
    + rewrite bias_rows_eq. unfold groupby. rewrite map_map. simpl.
      apply filter_concat_groups; [apply NoDup_sorted_keys|].
      by apply elem_of_sorted_keys.
    + apply (filter_key_nil Model) in Hnin. rewrite Hnin.
      by apply (filter_Permutation_nil _ _ table).
  - apply OverallBias_compute_dom.
Qed.

Lemma OverallBias_compute_keeps_rows_witness :
  length (OverallBias_compute DiffBias tied_minimum).2 = length tied_minimum.
Proof.
  apply (OverallBias_compute_keeps_rows DiffBias tied_minimum
           (OverallBias_compute DiffBias tied_minimum)).
  reflexivity.
Defined.

(** A model whose groups all have the reference WER, a model with a
    single group with a numeric WER in particular, has no group left for
    the mean: its overall bias is NaN. *)
Theorem OverallBias_compute_all_tied (bm : BiasMeasure) (table : list wer_row)
        (model : string) :
  model ∈ map Model table →
  (∀ r, r ∈ table → Model r = model →
        PrimFloat.eqb (WER r) (reference_WER table model) = true) →
  (OverallBias_compute bm table).1 !! model = Some PrimFloat.nan.
Proof.
  intros Hmodel Htied. rewrite overall_bias_per_model_lookup. unfold overall_bias_spec.
  destruct (List.filter (λ r, bool_decide (Model r = model)) table) as [|r0 rs] eqn:E.
  { apply (filter_key_nil Model) in E. done. }
  rewrite <- E. clear r0 rs E. f_equal.
  assert (List.filter
            (λ r, ne (WER r)
                     (Series_min
                        (map WER (List.filter (λ r, bool_decide (Model r = model)) table))))
            (List.filter (λ r, bool_decide (Model r = model)) table) = []) as ->;
    [|vm_compute; reflexivity].
  fold (reference_WER table model).
  destruct (List.filter _ (List.filter _ table)) as [|a l] eqn:E; [done|].
  assert (In a (a :: l)) as Ha by (by left). rewrite <- E in Ha.
  apply filter_In in Ha as [Ha Hne]. apply filter_In in Ha as [Ha Hm].
  apply bool_decide_eq_true in Hm. apply list_elem_of_In in Ha.
  unfold ne in Hne. rewrite (Htied a Ha Hm) in Hne. discriminate.
Qed.

Lemma OverallBias_compute_all_tied_witness :
  (OverallBias_compute DiffBias
     [ {| Model := "M"; Group := "A"; WER := numpy.float64 10 |} ]).1 !! "M"
  = Some PrimFloat.nan.
Proof.
  apply OverallBias_compute_all_tied.
  - apply list_elem_of_In. simpl. auto.
  - intros r Hr _. apply list_elem_of_In in Hr. simpl in Hr.
    destruct Hr as [<-|[]]. vm_compute. reflexivity.
Defined.

End overall_bias_tables.

(** ** The bias of a group tied with the reference *)

Section tied_bias.
Import pandas metrics.

Lemma SFeqb_true (x r : spec_float) :
  SFeqb x r = true →
  (∃ sx sr, x = S754_zero sx ∧ r = S754_zero sr)
  ∨ (∃ s, x = S754_infinity s ∧ r = S754_infinity s)
  ∨ (∃ s m e, x = S754_finite s m e ∧ r = S754_finite s m e).
Proof.
  unfold SFeqb.
  destruct x as [sx|sx| |sx mx ex], r as [sr|sr| |sr mr er];
    try destruct sx; try destruct sr; cbn; try discriminate; intros Heq;
    try (left; by eauto); try (right; left; by eauto);
    right; right;
    change (Pos.compare_cont Eq) with Pos.compare in Heq;
    destruct (Z.compare_spec ex er); try discriminate;
    destruct (Pos.compare_spec mx mr); try discriminate; subst; by eauto.
Qed.

Lemma isfinite_true (x : float) :
  numpy.isfinite x = true →
  (∃ s, Prim2SF x = S754_zero s) ∨ (∃ s m e, Prim2SF x = S754_finite s m e).
Proof.
  intros Hfin. destruct (Prim2SF x) as [s|s| |s m e] eqn:E; [by eauto| | |by eauto].
  - assert (numpy.isfinite x = false) as Hf by (apply isfinite_false; by eauto).
    congruence.
  - assert (numpy.isfinite x = false) as Hf by (apply isfinite_false; by eauto).
    congruence.
Qed.

Lemma SFsub_diag_finite (s : bool) (m : positive) (e : Z) :
  SF64sub (S754_finite s m e) (S754_finite s m e) = S754_zero false.
Proof.
  unfold SF64sub, SFsub. cbv zeta. by rewrite Z.sub_diag.
Qed.

(** Difference bias: a group whose WER equals a finite reference has
    bias zero. *)
Lemma DiffBias_tied (x r : float) :
  PrimFloat.eqb x r = true → numpy.isfinite r = true →
  PrimFloat.eqb (compute_bias DiffBias x r) 0 = true.
Proof.
  intros Heq Hfin. cbn [compute_bias DiffBias].
  rewrite FloatAxioms.eqb_spec in Heq |- *. rewrite sub_spec.
  change (Prim2SF 0) with (S754_zero false).
  apply SFeqb_true in Heq as [(sx & sr & -> & ->)|[(s & Hx & Hr)|(s & m & e & -> & ->)]].
  - by destruct sx, sr.
  - apply isfinite_true in Hfin as [[? Hf]|(? & ? & ? & Hf)]; congruence.
  - by rewrite SFsub_diag_finite.
Qed.

(** Relative difference bias: the same, for a reference that is not zero. *)
Lemma RelDiffBias_tied (x r : float) :
  PrimFloat.eqb x r = true → numpy.isfinite r = true → PrimFloat.eqb r 0 = false →
  PrimFloat.eqb (compute_bias RelDiffBias x r) 0 = true.
Proof.
  intros Heq Hfin Hnz. cbn [compute_bias RelDiffBias].
  rewrite FloatAxioms.eqb_spec in Heq, Hnz |- *. rewrite div_spec, sub_spec.
  change (Prim2SF 0) with (S754_zero false) in *.
  apply SFeqb_true in Heq as [(sx & sr & -> & Hr)|[(s & Hx & Hr)|(s & m & e & -> & Hr)]].
  - rewrite Hr in Hnz. by destruct sr.
  - apply isfinite_true in Hfin as [[? Hf]|(? & ? & ? & Hf)]; congruence.
  - rewrite Hr, SFsub_diag_finite. reflexivity.
Qed.

(** In the per-group table every group whose WER equals a finite
    reference WER, the reference group and the groups tied with it, has
    bias zero under the Difference measure, and under the Relative
    Difference measure when the reference is not zero. *)
Theorem reference_groups_have_zero_bias (table : list wer_row) (br : bias_row) :
  PrimFloat.eqb (WER (row br)) (reference_WER table (Model (row br))) = true →
  numpy.isfinite (reference_WER table (Model (row br))) = true →
  (br ∈ (OverallBias_compute DiffBias table).2 → PrimFloat.eqb (Bias br) 0 = true)
  ∧ (PrimFloat.eqb (reference_WER table (Model (row br))) 0 = false →
     br ∈ (OverallBias_compute RelDiffBias table).2 → PrimFloat.eqb (Bias br) 0 = true).
Proof.
  intros Heq Hfin. split.
  - intros Hbr. apply bias_per_group_elem_of in Hbr as [_ ->]. by apply DiffBias_tied.
  - intros Hnz Hbr. apply bias_per_group_elem_of in Hbr as [_ ->].
    by apply RelDiffBias_tied.
Qed.

Lemma reference_groups_have_zero_bias_witness :
  PrimFloat.eqb
    (Bias {| row := {| Model := "M"; Group := "B"; WER := numpy.float64 10 |};
             Bias := PrimFloat.zero |}) 0 = true.
Proof.
  apply (proj1 (reference_groups_have_zero_bias tied_minimum
                  {| row := {| Model := "M"; Group := "B"; WER := numpy.float64 10 |};
                     Bias := PrimFloat.zero |}
                  ltac:(vm_compute; reflexivity) ltac:(vm_compute; reflexivity))).
  apply bias_per_group_elem_of. split.
  - apply list_elem_of_In. simpl. auto.
  - vm_compute. reflexivity.
Defined.

End tied_bias.

(** ** DataPrep: dropped columns and the feature set *)

Section feature_set.
Import pandas data_prep.

Lemma column_names_drop (frame : DataFrame) (names : list string) :
  column_names (drop frame names) =
  List.filter (λ n, negb (bool_decide (n ∈ names))) (column_names frame).
Proof.
  unfold column_names, drop. simpl.
  induction (columns frame) as [|[n c] cols IH]; simpl; [done|].
  destruct (bool_decide (n ∈ names)); simpl; by rewrite IH.
Qed.

Lemma drop_absent (frame : DataFrame) (names extra : list string) :
  (∀ n, n ∈ extra → n ∉ column_names frame) →
  drop frame (names ++ extra) = drop frame names.
Proof.
  intros Habsent. unfold drop. f_equal. apply List.filter_ext_in.
  intros [n c] Hin. simpl. f_equal. apply bool_decide_ext.
  rewrite elem_of_app. split; [|by left]. intros [?|Hextra]; [done|].
  exfalso. apply (Habsent n Hextra). apply list_elem_of_fmap. exists (n, c).
  split; [done | by apply list_elem_of_In].
Qed.

Lemma engineer_durations_names (csv data' : DataFrame) :
  engineer_durations csv = inr data' → column_names data' = column_names csv.
Proof.
  rewrite engineer_durations_fields. intros Heng.
  by apply engineer_fields_preserves in Heng as (_ & ? & _).
Qed.

(** Names in [dropcolumns] that are no columns of the source change
    nothing; a dropped column is neither in the frame nor among the
    features; and dropping ['Filename'] makes loading raise, with the
    [KeyError] for ['Filename'] once the durations are rescaled. *)
Theorem DataPrep_init_dropcolumns (csv : DataFrame) (style : string)
        (fd : option (pydict.dict (string * string))) (dropcolumns : list string) :
  (∀ extra, (∀ n, n ∈ extra → n ∉ column_names csv) →
            DataPrep_init csv style fd (dropcolumns ++ extra)
            = DataPrep_init csv style fd dropcolumns)
  ∧ (∀ dp name, DataPrep_init csv style fd dropcolumns = inr dp → name ∈ dropcolumns →
                (name ∉ column_names (data dp))
                ∧ pydict.get name (custom_features dp) = None)
  ∧ ("Filename" ∈ dropcolumns →
     ∃ e, DataPrep_init csv style fd dropcolumns = inl e
          ∧ (∀ data', engineer_durations csv = inr data' → e = KeyError "Filename")).
Proof.
  split; [|split].
  - intros extra Habsent. unfold DataPrep_init.
    destruct (engineer_durations csv) as [e|data'] eqn:Heng; simpl; [done|].
    rewrite drop_absent; [done|].
    by rewrite (engineer_durations_names _ _ Heng).
  - intros dp name Hinit Hname.
    apply DataPrep_init_inr in Hinit as (data' & ids & fd' & _ & _ & _ & ->). simpl.
    assert (name ∉ column_names (drop data' dropcolumns)) as Hnin.
    { rewrite column_names_drop. intros Hin.
      apply list_elem_of_In, filter_In in Hin as [_ Hin].
      by rewrite bool_decide_eq_true_2 in Hin. }
    split; [done|].
    rewrite get_override_features, get_comprehension.
    rewrite decide_False; [done|]. intros Hin. apply Hnin.
    destruct (column_names (drop data' dropcolumns)); [by inversion Hin | by right].
  - intros Hdrop. unfold DataPrep_init.
    destruct (engineer_durations csv) as [e|data'] eqn:Heng; simpl.
    + exists e. split; [done|]. intros ? [=].
    + rewrite getitem_drop, decide_True by done. simpl. by eexists.
Qed.

Lemma DataPrep_init_dropcolumns_witness :
  DataPrep_init features_durations "read" (Some []) ([] ++ ["Mean F1 E (bark)"])
  = DataPrep_init features_durations "read" (Some []) [].
Proof.
  apply (proj1 (DataPrep_init_dropcolumns features_durations "read" (Some []) [])).
  intros n Hn. apply list_elem_of_In in Hn. simpl in Hn. destruct Hn as [<-|[]].
  apply (bool_decide_unpack _). vm_compute. reflexivity.
Defined.

Lemma keys_setitem_new {V} (d : pydict.dict V) (k : string) (v : V) :
  k ∉ pydict.keys d → pydict.keys (pydict.setitem k v d) = pydict.keys d ++ [k].
Proof.
  induction d as [|[k0 v0] d IH]; simpl; intros Hk; [done|].
  apply not_elem_of_cons in Hk as [Hne Hk].
  rewrite bool_decide_eq_false_2 by congruence. simpl. by rewrite IH.
Qed.

Lemma keys_comprehension {V} (f : string → V) (ks : list string) :
  NoDup ks → pydict.keys (pydict.comprehension f ks) = ks.
Proof.
  unfold pydict.comprehension.
  assert (∀ d : pydict.dict V,
            NoDup ks → (∀ k, k ∈ ks → k ∉ pydict.keys d) →
            pydict.keys (fold_left (λ d k, pydict.setitem k (f k) d) ks d)
            = pydict.keys d ++ ks) as Hgen.
  { induction ks as [|k ks IH]; intros d Hnd Hfresh; simpl; [by rewrite app_nil_r|].
    apply NoDup_cons in Hnd as [Hk Hnd].
    rewrite IH; [|done|].
    - rewrite keys_setitem_new by (apply Hfresh; by left). by rewrite <- app_assoc.
    - intros k' Hk'. rewrite keys_setitem_new by (apply Hfresh; by left).
      rewrite elem_of_app, list_elem_of_singleton. intros [Hin| ->]; [|done].
      by apply (Hfresh k'); [right|]. }
  intros Hnd. apply (Hgen [] Hnd). intros k _. apply not_elem_of_nil.
Qed.

Lemma keys_override_features (fd cf : pydict.dict (string * string)) :
  pydict.keys (override_features fd cf) = pydict.keys cf.
Proof.
  unfold override_features. generalize (pydict.keys fd). intros ks. revert cf.
  induction ks as [|k ks IH]; intros cf; simpl; [done|].
  rewrite IH. unfold pydict.contains.
  destruct (pydict.get k cf) as [v|] eqn:Hget; [|done].
  destruct (pydict.get k fd); [|done].
  apply keys_setitem. apply get_is_Some. by rewrite Hget.
Qed.

Lemma get_NoDup (cols : list (string * Column)) (name : string) (c : Column) :
  NoDup (map fst cols) → (name, c) ∈ cols → pydict.get name cols = Some c.
Proof.
  induction cols as [|[n0 c0] cols IH]; simpl; intros Hnd Hin; [by inversion Hin|].
  apply NoDup_cons in Hnd as [Hn0 Hnd].
  apply elem_of_cons in Hin as [[= -> ->]|Hin].
  - by rewrite bool_decide_eq_true_2.
  - rewrite bool_decide_eq_false_2; [by apply IH|].
    intros ->. apply Hn0. apply list_elem_of_fmap. by exists (name, c).
Qed.

Lemma select_suffix (frame : DataFrame) (pre suf : list (string * Column)) :
  NoDup (column_names frame) → columns frame = pre ++ suf →
  select frame (map fst suf) = inr suf.
Proof.
  intros Hnd. revert pre. induction suf as [|[n c] suf IH]; intros pre Hcols; simpl; [done|].
  assert (getitem frame n = inr c) as ->.
  { apply getitem_inr, get_NoDup; [done|]. rewrite Hcols.
    apply elem_of_app. right. by left. }
  simpl. rewrite (IH (pre ++ [(n, c)])); [done|]. by rewrite <- app_assoc.
Qed.

Lemma DataPrep_init_feature_keys (csv : DataFrame) (style : string)
      (fd : option (pydict.dict (string * string))) (dropcolumns : list string)
      (dp : DataPrep) :
  NoDup (column_names csv) →
  DataPrep_init csv style fd dropcolumns = inr dp →
  NoDup (column_names (data dp))
  ∧ column_names (data dp)
    = List.filter (λ n, negb (bool_decide (n ∈ dropcolumns))) (column_names csv)
  ∧ "Filename" ∈ column_names (data dp)
  ∧ pydict.keys (custom_features dp) = tail (column_names (data dp)).
Proof.
  intros Hnd Hinit.
  apply DataPrep_init_inr in Hinit as (data' & ids & fd' & Heng & Hids & _ & ->).
  cbn [custom_features data].
  assert (column_names (drop data' dropcolumns)
          = List.filter (λ n, negb (bool_decide (n ∈ dropcolumns))) (column_names csv))
    as Hnames.
  { by rewrite column_names_drop, (engineer_durations_names _ _ Heng). }
  assert (NoDup (column_names (drop data' dropcolumns))) as Hnd'.
  { rewrite Hnames. apply NoDup_ListNoDup, List.NoDup_filter, NoDup_ListNoDup, Hnd. }
  split; [done|]. split; [done|]. split.
  - apply getitem_inr in Hids. apply get_is_Some. by rewrite Hids.
  - rewrite keys_override_features. apply keys_comprehension.
    destruct (column_names (drop data' dropcolumns)); [done|].
    by apply NoDup_cons in Hnd' as [_ ?].
Qed.

(** For a source with distinct column names, the features of a loaded
    object are the columns after the first, in file order, whatever
    [feature_dict] lists; the identifier is among them exactly when it is
    not the first column; and [normalize_data] fits the scaler on exactly
    these columns, so that it raises only if the scaler does. *)
Theorem DataPrep_features_are_tail_columns (csv : DataFrame) (style : string)
        (fd : option (pydict.dict (string * string))) (dropcolumns : list string)
        (dp : DataPrep) :
  NoDup (column_names csv) →
  DataPrep_init csv style fd dropcolumns = inr dp →
  pydict.keys (custom_features dp) = tail (column_names (data dp))
  ∧ ("Filename" ∈ pydict.keys (custom_features dp) ↔
     head (column_names (data dp)) ≠ Some "Filename")
  ∧ ∀ (Scaler : Type)
      (fit_transform : Scaler → list (string * Column) → Exc (Scaler * ndarray))
      (check_normality : DataFrame → list string → Exc unit) (scaler : Scaler),
      normalize_data fit_transform check_normality dp scaler false =
      match fit_transform scaler (tail (columns (data dp))) with
      | inl e => inl e
      | inr fitted => inr (set_normalized_data dp fitted.2, fitted.1)
      end.
Proof.
  intros Hnd Hinit.
  destruct (DataPrep_init_feature_keys _ _ _ _ _ Hnd Hinit) as (Hnd' & _ & Hin & Hkeys).
  split; [done|]. split.
  - rewrite Hkeys.
    destruct (column_names (data dp)) as [|n ns]; [by inversion Hin|].
    simpl. apply NoDup_cons in Hnd' as [Hn _].
    apply elem_of_cons in Hin as [<-|Hin].
    + split; [done | congruence].
    + split; [|done]. intros _ [= ->]. done.
  - intros Scaler fit_transform check_normality scaler.
    unfold normalize_data. cbn [bind]. rewrite Hkeys.
    unfold column_names.
    destruct (columns (data dp)) as [|c0 cols] eqn:Hcols; simpl.
    + by destruct (fit_transform scaler []) as [?|[? ?]].
    + rewrite (select_suffix (data dp) [c0] cols Hnd' Hcols). simpl.
      by destruct (fit_transform scaler cols) as [?|[? ?]].
Qed.

Lemma DataPrep_features_are_tail_columns_witness :
  pydict.keys
    (custom_features (grouping.grouping_data_prep grouping_123))
  = tail (column_names (data (grouping.grouping_data_prep grouping_123))).
Proof.
  apply (DataPrep_features_are_tail_columns features_123 "read" (Some []) []).
  - apply (bool_decide_unpack _). vm_compute. reflexivity.
  - vm_compute. reflexivity.
Defined.

(** The exclusion list [main] builds for a feature subset, given to
    [DataPrep] for a source whose first column is the identifier and
    whose column names are distinct: the features that are clustered are
    the columns of the subset and, besides, every column that the
    feature dictionary does not list. *)
Theorem feature_subset_keeps_unlisted_columns (csv : DataFrame) (style : string)
        (custom_features_dict : pydict.dict (string * string))
        (feature_subset : list string) (dp : DataPrep) :
  NoDup (column_names csv) →
  head (column_names csv) = Some "Filename" →
  DataPrep_init csv style (Some custom_features_dict)
    (main.excluded_features custom_features_dict feature_subset) = inr dp →
  pydict.keys (custom_features dp)
  = List.filter
      (λ n, bool_decide (n ∈ feature_subset)
            || negb (bool_decide (n ∈ pydict.keys custom_features_dict)))
      (tail (column_names csv)).
Proof.
  intros Hnd Hhead Hinit.
  destruct (DataPrep_init_feature_keys _ _ _ _ _ Hnd Hinit) as (_ & Hnames & Hin & ->).
  rewrite Hnames in Hin |- *.
  destruct (column_names csv) as [|n names]; [done|]. injection Hhead as ->.
  apply list_elem_of_In, filter_In in Hin as [_ Hkept].
  cbn [List.filter tail]. rewrite Hkept. cbn [tail].
  apply List.filter_ext. intros n. unfold main.excluded_features.
  destruct (bool_decide (n ∈ feature_subset)) eqn:Hsubset;
    destruct (bool_decide (n ∈ pydict.keys custom_features_dict)) eqn:Hlisted; simpl.
  - apply negb_true_iff, bool_decide_eq_false. intros Hex.
    apply list_elem_of_In, filter_In in Hex as [_ Hex]. by rewrite Hsubset in Hex.
  - apply negb_true_iff, bool_decide_eq_false. intros Hex.
    apply list_elem_of_In, filter_In in Hex as [_ Hex]. by rewrite Hsubset in Hex.
  - apply negb_false_iff, bool_decide_eq_true.
    apply list_elem_of_In, filter_In. rewrite Hsubset. split; [|done].
    apply list_elem_of_In. by apply bool_decide_eq_true in Hlisted.
  - apply negb_true_iff, bool_decide_eq_false. intros Hex.
    apply list_elem_of_In, filter_In in Hex as [Hex _].
    apply list_elem_of_In in Hex. by apply bool_decide_eq_false in Hlisted.
Qed.

Lemma feature_subset_keeps_unlisted_columns_witness :
  ∃ dp,
    DataPrep_init features_durations "read"
      (Some [("Mean Duration O (s)", ("Duration O", "Seconds"));
             ("Mean Pitch (Hz)", ("Pitch", "Hertz"))])
      (main.excluded_features
         [("Mean Duration O (s)", ("Duration O", "Seconds"));
          ("Mean Pitch (Hz)", ("Pitch", "Hertz"))]
         ["Mean Pitch (Hz)"]) = inr dp
    ∧ pydict.keys (custom_features dp)
      = ["Mean Articulation Rate (phpm)"; "Mean Duration @ (s)"; "Mean Pitch (Hz)"].
Proof.
  eexists. split; [vm_compute; reflexivity|].
  rewrite (feature_subset_keeps_unlisted_columns features_durations "read"
             [("Mean Duration O (s)", ("Duration O", "Seconds"));
              ("Mean Pitch (Hz)", ("Pitch", "Hertz"))]
             ["Mean Pitch (Hz)"]).
  - vm_compute. reflexivity.
  - apply (bool_decide_unpack _). vm_compute. reflexivity.
  - reflexivity.
  - vm_compute. reflexivity.
Defined.

End feature_set.

(** ** Normalization is computed once, and clusterings are built on it *)

Section normalized_once.
Import pandas data_prep grouping grouping_methods.
Context {Scaler : Type}.
Variable fit_transform : Scaler → list (string * Column) → Exc (Scaler * ndarray).
Variable check_normality : DataFrame → list string → Exc unit.

Lemma get_normalized_data_inr (self self' : DataPrep) (scaler scaler' : Scaler)
      (result : option ndarray) :
  get_normalized_data fit_transform check_normality self scaler
  = inr (result, self', scaler') →
  ∃ a, result = Some a ∧ normalized_data self' = Some a
       ∧ self' = set_normalized_data self a
       ∧ (∀ stored, normalized_data self = Some stored →
                    a = stored ∧ self' = self ∧ scaler' = scaler).
Proof.
  unfold get_normalized_data.
  destruct (normalized_data self) as [stored|] eqn:Hstored.
  - simpl. rewrite Hstored. intros [= <- <- <-]. exists stored.
    split; [done|]. split; [done|]. split.
    + destruct self. simpl in *. by subst.
    + by intros ? [= <-].
  - unfold normalize_data. simpl.
    destruct (select (data self) (pydict.keys (custom_features self))); [done|]. simpl.
    destruct (fit_transform scaler _) as [?|[s a]]; [done|]. simpl.
    intros [= <- <- <-]. by exists a.
Qed.

(** A call of [get_normalized_data] that returns gives an array, never
    [None], and leaves it stored: every later call, with whatever scaler,
    returns that same array, fits nothing and changes nothing.  The
    features and the table of the object are as before the first call. *)
Theorem get_normalized_data_fits_once (self self' : DataPrep) (scaler scaler' : Scaler)
        (result : option ndarray) :
  get_normalized_data fit_transform check_normality self scaler
  = inr (result, self', scaler') →
  is_Some result
  ∧ data self' = data self
  ∧ custom_features self' = custom_features self
  ∧ ∀ later : Scaler,
      get_normalized_data fit_transform check_normality self' later
      = inr (result, self', later).
Proof.
  intros Hcall. apply get_normalized_data_inr in Hcall as (a & -> & Hstored & -> & _).
  split; [done|]. split; [done|]. split; [done|]. intros later. reflexivity.
Qed.

(** A clustering that is built is labelled ['Cluster'], keeps the table
    of the [DataPrep] it was given and stores the normalized array in it;
    its labels are what the algorithm returns for that array, which is
    the array stored before if there was one, the object then being
    untouched; the labelled frame has the labels as its ['Cluster'] column
    and as many rows as the group sizes add up to. *)
Theorem Clustering_labels_normalized_rows (default_scaler : Scaler)
        (fit_predict : ndarray → Exc (list string)) (dp : DataPrep) (g : Grouping) :
  Clustering fit_transform check_normality default_scaler fit_predict dp = inr g →
  label_fieldname g = "Cluster"
  ∧ data (grouping_data_prep g) = data dp
  ∧ (∃ a, normalized_data (grouping_data_prep g) = Some a
          ∧ fit_predict a = inr (group_labels g)
          ∧ ∀ stored, normalized_data dp = Some stored →
                      a = stored ∧ grouping_data_prep g = dp)
  ∧ getitem (data_with_group_labels g) "Cluster" = inr (StrCol (group_labels g))
  ∧ list_sum (map snd (get_group_sizes g)) = index (data_with_group_labels g).
Proof.
  unfold Clustering, _add_labels.
  destruct (get_normalized_data _ _ dp default_scaler) as [?|[[result dp'] scaler']] eqn:Hcall;
    [done|].
  apply get_normalized_data_inr in Hcall as (a & -> & Hstored & Hdp' & Hsame).
  cbn [bind fst snd].
  destruct (fit_predict a) as [?|labels] eqn:Hfit; [done|]. cbn [bind].
  destruct (assign (data dp') "Cluster" labels) as [?|frame] eqn:Hassign; [done|].
  simpl. intros [= <-]. cbn [label_fieldname grouping_data_prep group_labels
                             data_with_group_labels].
  apply assign_inr in Hassign as [Hindex Hcolumn].
  split; [done|]. split; [by subst dp'|]. split.
  - exists a. split; [done|]. split; [done|].
    intros stored Hdp. by apply Hsame in Hdp as (? & ? & _).
  - split; [done|]. by rewrite get_group_sizes_sum, Hindex.
Qed.

End normalized_once.

Section normalized_once_witnesses.
Import pandas data_prep grouping grouping_methods.

Lemma get_normalized_data_fits_once_witness :
  get_normalized_data counting_scaler (λ _ _, inr tt)
    (set_normalized_data (grouping_data_prep grouping_123) [[numpy.float64 4]]) 9
  = inr (Some [[numpy.float64 4]],
         set_normalized_data (grouping_data_prep grouping_123) [[numpy.float64 4]],
         9).
Proof.
  apply (get_normalized_data_fits_once counting_scaler (λ _ _, inr tt)
           (grouping_data_prep grouping_123) _ 4 5 (Some [[numpy.float64 4]])).
  reflexivity.
Defined.

Lemma Clustering_labels_normalized_rows_witness :
  ∃ g, Clustering counting_scaler (λ _ _, inr tt) 0
         (λ _, inr ["0"; "1"; "0"]) normalized_prep = inr g
       ∧ list_sum (map snd (get_group_sizes g)) = index (data_with_group_labels g).
Proof.
  eexists. split; [reflexivity|].
  apply (Clustering_labels_normalized_rows counting_scaler (λ _ _, inr tt) 0
           (λ _, inr ["0"; "1"; "0"]) normalized_prep).
  reflexivity.
Defined.

End normalized_once_witnesses.

(** ** GroupingPerformance: labels, group WERs and bias tables *)

Section performance_tables.
Import pandas asr_performance_data grouping_performance performance_methods.

Lemma elem_of_unique (values : list string) (v : string) :
  v ∈ tables.unique values ↔ v ∈ values.
Proof.
  induction values as [|x values IH]; simpl; [done|].
  rewrite !elem_of_cons, <- IH. split.
  - intros [?|Hin]; [by left|]. right.
    apply list_elem_of_In, filter_In in Hin as [Hin _]. by apply list_elem_of_In.
  - intros [?|Hin]; [by left|].
    destruct (decide (v = x)) as [?|Hne]; [by left|]. right.
    apply list_elem_of_In, filter_In. split; [by apply list_elem_of_In|].
    by rewrite bool_decide_eq_false_2.
Qed.

Lemma NoDup_unique (values : list string) : NoDup (tables.unique values).
Proof.
  induction values as [|x values IH]; simpl; [constructor|].
  apply NoDup_cons. split.
  - intros Hin. apply list_elem_of_In, filter_In in Hin as [_ Hin].
    by rewrite bool_decide_eq_true_2 in Hin.
  - by apply NoDup_ListNoDup, List.NoDup_filter, NoDup_ListNoDup.
Qed.

Lemma rows_of_elem (merged : list analysis_row) (label : analysis_row → string)
      (model group : string) (a : analysis_row) :
  a ∈ rows_of merged label model group ↔
  a ∈ merged ∧ Model a.1.2 = model ∧ label a = group.
Proof.
  unfold rows_of. rewrite list_elem_of_In, filter_In, <- list_elem_of_In.
  rewrite bool_decide_eq_true. split.
  - by intros [? [= ? ?]].
  - intros (? & <- & <-). done.
Qed.

Lemma rows_of_nonempty (merged : list analysis_row) (label : analysis_row → string)
      (model group : string) :
  rows_of merged label model group ≠ [] ↔
  ∃ a, a ∈ merged ∧ Model a.1.2 = model ∧ label a = group.
Proof.
  split.
  - destruct (rows_of merged label model group) as [|a l] eqn:E; [done|]. intros _.
    exists a. apply rows_of_elem. rewrite E. by left.
  - intros (a & Ha). apply rows_of_elem in Ha. intros E. rewrite E in Ha.
    by inversion Ha.
Qed.

Lemma get_group_WERs_inr (self : GroupingPerformance) (label_fieldname : string)
      (label : analysis_row → string) :
  label_column self label_fieldname = inr label →
  get_group_WERs self label_fieldname = inr (group_WER_table (merged_data self) label).
Proof. intros Hlabel. unfold get_group_WERs. by rewrite Hlabel. Qed.

Lemma group_WER_table_keys (merged : list analysis_row) (label : analysis_row → string) :
  map (λ w, (metrics.Model w, metrics.Group w)) (group_WER_table merged label)
  = map fst (groupby str2_le (λ a, (Model a.1.2, label a)) merged).
Proof.
  unfold group_WER_table. rewrite map_map. apply map_ext. by intros [[model group] rows].
Qed.

Lemma group_WER_table_pairs (merged : list analysis_row) (label : analysis_row → string)
      (model group : string) :
  (∃ w, w ∈ group_WER_table merged label
        ∧ metrics.Model w = model ∧ metrics.Group w = group) ↔
  (∃ a, a ∈ merged ∧ Model a.1.2 = model ∧ label a = group).
Proof.
  rewrite <- rows_of_nonempty. split.
  - intros (w & Hw & <- & <-). by apply elem_of_get_group_WERs in Hw as [? _].
  - intros Hne.
    exists {| metrics.Model := model; metrics.Group := group;
              metrics.WER := group_WER (float_columns merged)
                               (rows_of merged label model group) |}.
    split; [|done]. by apply elem_of_get_group_WERs.
Qed.

Lemma group_WER_table_nil (merged : list analysis_row) (label : analysis_row → string) :
  group_WER_table merged label = [] → merged = [].
Proof.
  intros Hnil. destruct merged as [|a merged]; [done|]. exfalso.
  destruct (proj2 (group_WER_table_pairs (a :: merged) label (Model a.1.2) (label a)))
    as (w & Hw & _); [exists a; split; [by left | done]|].
  rewrite Hnil in Hw. by inversion Hw.
Qed.

(** When the label column resolves, [get_group_labels] gives every
    label of the merged frame once, and these are exactly the groups
    that occur in the table of [get_group_WERs]; that table has one row
    for every pair of a model and a label that some merged row carries,
    and no two rows for the same pair. *)
Theorem get_group_labels_are_WER_groups (self : GroupingPerformance)
        (label_fieldname : string) (label : analysis_row → string) :
  label_column self label_fieldname = inr label →
  ∃ labels wers,
    get_group_labels self label_fieldname = inr labels
    ∧ get_group_WERs self label_fieldname = inr wers
    ∧ NoDup labels
    ∧ (∀ g, g ∈ labels ↔ ∃ a, a ∈ merged_data self ∧ label a = g)
    ∧ (∀ g, g ∈ labels ↔ ∃ w, w ∈ wers ∧ metrics.Group w = g)
    ∧ NoDup (map (λ w, (metrics.Model w, metrics.Group w)) wers)
    ∧ (∀ model group,
         (∃ w, w ∈ wers ∧ metrics.Model w = model ∧ metrics.Group w = group) ↔
         (∃ a, a ∈ merged_data self ∧ Model a.1.2 = model ∧ label a = group)).
Proof.
  intros Hlabel. eexists _, _.
  split; [unfold get_group_labels; by rewrite Hlabel|].
  split; [by apply get_group_WERs_inr|]. cbn [bind].
  assert (∀ g, g ∈ tables.unique (map label (merged_data self)) ↔
               ∃ a, a ∈ merged_data self ∧ label a = g) as Hlabels.
  { intros g. rewrite elem_of_unique, list_elem_of_fmap.
    split; [intros (a & -> & ?); by exists a | intros (a & ? & <-); by exists a]. }
  pose proof (group_WER_table_pairs (merged_data self) label) as Hrows.
  split; [apply NoDup_unique|]. split; [exact Hlabels|]. split; [|split].
  - intros g. rewrite Hlabels. split.
    + intros (a & Ha & Hg).
      destruct (proj2 (Hrows (Model a.1.2) g)) as (w & Hw & _ & Hgroup); [by exists a|].
      by exists w.
    + intros (w & Hw & Hg).
      destruct (proj1 (Hrows (metrics.Model w) g)) as (a & Ha & _ & Hgroup); [by exists w|].
      by exists a.
  - rewrite group_WER_table_keys. apply NoDup_groupby_keys.
  - exact Hrows.
Qed.

Lemma get_group_labels_are_WER_groups_witness :
  ∃ labels wers,
    get_group_labels performance_2_1_1_20 "Cluster" = inr labels
    ∧ get_group_WERs performance_2_1_1_20 "Cluster" = inr wers
    ∧ NoDup labels
    ∧ (∀ g, g ∈ labels ↔ ∃ a, a ∈ merged_data performance_2_1_1_20 ∧ label a.2 = g)
    ∧ (∀ g, g ∈ labels ↔ ∃ w, w ∈ wers ∧ metrics.Group w = g)
    ∧ NoDup (map (λ w, (metrics.Model w, metrics.Group w)) wers)
    ∧ (∀ model group,
         (∃ w, w ∈ wers ∧ metrics.Model w = model ∧ metrics.Group w = group) ↔
         (∃ a, a ∈ merged_data performance_2_1_1_20
               ∧ Model a.1.2 = model ∧ label a.2 = group)).
Proof.
  apply (get_group_labels_are_WER_groups performance_2_1_1_20 "Cluster" (λ a, label a.2)).
  reflexivity.
Defined.

Lemma calculate_bias_inr (self : GroupingPerformance) (label_fieldname : string)
      (label : analysis_row → string) (bm : metrics.BiasMeasure) :
  label_column self label_fieldname = inr label → merged_data self ≠ [] →
  calculate_bias self label_fieldname bm
  = inr (metrics.OverallBias_compute bm (group_WER_table (merged_data self) label)).1
  ∧ calculate_bias_per_group self label_fieldname bm
    = inr (metrics.OverallBias_compute bm (group_WER_table (merged_data self) label)).2.
Proof.
  intros Hlabel Hrows. unfold calculate_bias, calculate_bias_per_group.
  rewrite (get_group_WERs_inr _ _ _ Hlabel). cbn [bind].
  unfold metrics_methods.OverallBias_compute_call.
  destruct (group_WER_table (merged_data self) label) eqn:E; [|done].
  by apply group_WER_table_nil in E.
Qed.

Lemma models_of_group_WER_table (merged : list analysis_row)
      (label : analysis_row → string) :
  (list_to_set (map metrics.Model (group_WER_table merged label)) : gset string)
  = list_to_set (map (λ a : analysis_row, Model a.1.2) merged).
Proof.
  apply set_eq. intros model. rewrite !elem_of_list_to_set, !list_elem_of_fmap. split.
  - intros (w & -> & Hw).
    destruct (proj1 (group_WER_table_pairs merged label (metrics.Model w) (metrics.Group w)))
      as (a & Ha & Hmodel & _); [by exists w|]. by exists a.
  - intros (a & -> & Ha).
    destruct (proj2 (group_WER_table_pairs merged label (Model a.1.2) (label a)))
      as (w & Hw & Hmodel & _); [by exists a|]. by exists w.
Qed.

(** On a merged frame with rows and for a label column that resolves,
    [calculate_bias] and [calculate_bias_per_group] both return: the
    overall bias has an entry for exactly the models of the merged
    frame, and the per-group table has one row for every pair of a model
    and a label that occurs, with the WER of the rows of that pair. *)
Theorem calculate_bias_covers_models (self : GroupingPerformance)
        (label_fieldname : string) (label : analysis_row → string)
        (bm : metrics.BiasMeasure) :
  label_column self label_fieldname = inr label → merged_data self ≠ [] →
  ∃ bias rows,
    calculate_bias self label_fieldname bm = inr bias
    ∧ calculate_bias_per_group self label_fieldname bm = inr rows
    ∧ dom bias = list_to_set (map (λ a : analysis_row, Model a.1.2) (merged_data self))
    ∧ NoDup (map (λ b, (metrics.Model (metrics.row b), metrics.Group (metrics.row b))) rows)
    ∧ (∀ model group,
         (∃ b, b ∈ rows ∧ metrics.Model (metrics.row b) = model
               ∧ metrics.Group (metrics.row b) = group) ↔
         (∃ a, a ∈ merged_data self ∧ Model a.1.2 = model ∧ label a = group))
    ∧ (∀ b, b ∈ rows →
            metrics.WER (metrics.row b)
            = group_WER (float_columns (merged_data self))
                        (rows_of (merged_data self) label
                           (metrics.Model (metrics.row b))
                           (metrics.Group (metrics.row b)))).
Proof.
  intros Hlabel Hrows.
  destruct (calculate_bias_inr self label_fieldname label bm Hlabel Hrows) as [Hbias Hper].
  eexists _, _. split; [exact Hbias|]. split; [exact Hper|].
  set (wers := group_WER_table (merged_data self) label).
  pose proof (bias_rows_Permutation bm wers) as Hperm.
  split; [|split; [|split]].
  - rewrite OverallBias_compute_dom. apply models_of_group_WER_table.
  - rewrite <- (map_map metrics.row (λ w, (metrics.Model w, metrics.Group w))).
    rewrite Hperm. unfold wers. rewrite group_WER_table_keys. apply NoDup_groupby_keys.
  - intros model group. rewrite <- group_WER_table_pairs. fold wers. split.
    + intros (b & Hb & ? & ?). exists (metrics.row b). split; [|done].
      by apply bias_per_group_elem_of in Hb as [? _].
    + intros (w & Hw & ? & ?).
      exists {| metrics.row := w;
                metrics.Bias := metrics.compute_bias bm (metrics.WER w)
                                  (reference_WER wers (metrics.Model w)) |}.
      split; [|done]. by apply bias_per_group_elem_of.
  - intros b Hb. apply bias_per_group_elem_of in Hb as [Hb _].
    by apply elem_of_get_group_WERs in Hb as [_ ?].
Qed.

Lemma calculate_bias_covers_models_witness :
  ∃ bias rows,
    calculate_bias performance_2_1_1_20 "Cluster" metrics.DiffBias = inr bias
    ∧ calculate_bias_per_group performance_2_1_1_20 "Cluster" metrics.DiffBias = inr rows
    ∧ dom bias = list_to_set (map (λ a : analysis_row, Model a.1.2)
                                  (merged_data performance_2_1_1_20))
    ∧ NoDup (map (λ b, (metrics.Model (metrics.row b), metrics.Group (metrics.row b))) rows)
    ∧ (∀ model group,
         (∃ b, b ∈ rows ∧ metrics.Model (metrics.row b) = model
               ∧ metrics.Group (metrics.row b) = group) ↔
         (∃ a, a ∈ merged_data performance_2_1_1_20
               ∧ Model a.1.2 = model ∧ label a.2 = group))
    ∧ (∀ b, b ∈ rows →
            metrics.WER (metrics.row b)
            = group_WER (float_columns (merged_data performance_2_1_1_20))
                        (rows_of (merged_data performance_2_1_1_20) (λ a, label a.2)
                           (metrics.Model (metrics.row b))
                           (metrics.Group (metrics.row b)))).
Proof.
  apply (calculate_bias_covers_models performance_2_1_1_20 "Cluster" (λ a, label a.2)
           metrics.DiffBias).
  - reflexivity.
  - discriminate.
Defined.

Lemma SFdiv_by_zero (x : spec_float) :
  let q := SF64div x (S754_zero false) in q = S754_nan ∨ ∃ s, q = S754_infinity s.
Proof. destruct x as [s|s| |s m e]; cbn; eauto. Qed.

Lemma SFmul_hundred (q : spec_float) :
  q = S754_nan ∨ (∃ s, q = S754_infinity s) →
  let p := SF64mul q (Prim2SF 100%float) in
  p = S754_nan ∨ ∃ s, p = S754_infinity s.
Proof. intros [->|[s ->]]; vm_compute; eauto. Qed.

Lemma word_error_rate_no_words (float_row : bool)
      (insertions deletions substitutions : numpy.scalar) :
  numpy.isfinite
    (utils.word_error_rate insertions deletions substitutions (row_cell float_row 0))
  = false.
Proof.
  unfold utils.word_error_rate, numpy.true_divide.
  rewrite isfinite_false, mul_spec, div_spec.
  apply SFmul_hundred.
  assert (Prim2SF (numpy.as_float64 (row_cell float_row 0)) = S754_zero false) as ->
    by (by destruct float_row).
  apply SFdiv_by_zero.
Qed.

(** A group of rows whose word counts add up to zero gets a WER that is
    not a finite number (the quotient by zero is an infinity or NaN);
    its row is in the table of [get_group_WERs] all the same. *)
Theorem group_without_words_has_no_finite_WER (self : GroupingPerformance)
        (label_fieldname : string) (label : analysis_row → string)
        (model group : string) :
  label_column self label_fieldname = inr label →
  rows_of (merged_data self) label model group ≠ [] →
  column_sum Wrd (rows_of (merged_data self) label model group) = 0%Z →
  ∃ wers w,
    get_group_WERs self label_fieldname = inr wers
    ∧ w ∈ wers ∧ metrics.Model w = model ∧ metrics.Group w = group
    ∧ numpy.isfinite (metrics.WER w) = false.
Proof.
  intros Hlabel Hrows Hwords.
  exists (group_WER_table (merged_data self) label),
         {| metrics.Model := model; metrics.Group := group;
            metrics.WER := group_WER (float_columns (merged_data self))
                             (rows_of (merged_data self) label model group) |}.
  split; [by apply get_group_WERs_inr|].
  split; [by apply elem_of_get_group_WERs|].
  split; [done|]. split; [done|]. cbn [metrics.WER].
  unfold group_WER. rewrite Hwords. apply word_error_rate_no_words.
Qed.

Lemma group_without_words_has_no_finite_WER_witness :
  ∃ wers w,
    get_group_WERs
      {| grouping := clustering_1; asr_performance := [];
         merged_data := [ recording "1" "0" "M" 0 0 0 2 ] |} "Cluster" = inr wers
    ∧ w ∈ wers ∧ metrics.Model w = "M" ∧ metrics.Group w = "0"
    ∧ numpy.isfinite (metrics.WER w) = false.
Proof.
  apply (group_without_words_has_no_finite_WER
           {| grouping := clustering_1; asr_performance := [];
              merged_data := [ recording "1" "0" "M" 0 0 0 2 ] |}
           "Cluster" (λ a, label a.2) "M" "0").
  - reflexivity.
  - discriminate.
  - reflexivity.
Defined.

End performance_tables.

(** ** GroupingPerformance.__init__: the rows of the merged frame *)

Section merged_rows.
Import pandas data_prep grouping asr_performance_data grouping_performance.

Lemma map_fst_merge_NoDup {A B} (left_on : A → string) (right_on : B → string)
      (left : list A) (right : list B) :
  NoDup (map right_on right) →
  map fst (merge left right left_on right_on)
  = List.filter (λ a, bool_decide (left_on a ∈ map right_on right)) left.
Proof.
  intros Hnd. unfold merge. induction left as [|a left IH]; simpl; [done|].
  rewrite map_app, IH, map_map. simpl. clear IH.
  pose proof (length_filter_key_NoDup right_on right (left_on a) Hnd) as Hlen.
  pose proof (filter_key_nil right_on right (left_on a)) as Hnil.
  destruct (List.filter (λ b, bool_decide (right_on b = left_on a)) right)
    as [|b [|b' bs]] eqn:E; simpl in *.
  - rewrite bool_decide_eq_false_2; [done|]. by apply Hnil.
  - rewrite bool_decide_eq_true_2; [done|].
    destruct (decide (left_on a ∈ map right_on right)) as [?|Hnin]; [done|].
    by apply Hnil in Hnin.
  - lia.
Qed.

Lemma imap_zip_keys {A B C} (f : nat → A * B → C) (g : C → A * B)
      (l : list (A * B)) :
  (∀ i x, g (f i x) = x) → map g (imap f l) = l.
Proof.
  revert f. induction l as [|x l IH]; intros f Hg; simpl; [done|].
  rewrite Hg. f_equal. apply IH. intros i y. apply Hg.
Qed.

Lemma labeled_rows_inr (frame : DataFrame) (label_fieldname : string)
      (rows : list labeled_row) :
  labeled_rows frame label_fieldname = inr rows →
  ∃ names labels,
    getitem frame "Filename" = inr (StrCol names)
    ∧ getitem frame label_fieldname = inr (StrCol labels)
    ∧ map (λ r, (Filename r, label r)) rows = zip names labels.
Proof.
  unfold labeled_rows.
  destruct (getitem frame "Filename") as [?|[names|?]]; simpl; try done;
    destruct (getitem frame label_fieldname) as [?|[labels|?]]; simpl; try done.
  intros [= <-]. exists names, labels. split; [done|]. split; [done|].
  apply (imap_zip_keys _ (λ r, (Filename r, label r))). by intros i [name l].
Qed.

(** When no two rows of the labelled frame have the same identifier,
    [GroupingPerformance] keeps each row of the recognition output whose
    recording has features once and drops the others, and every merged
    row pairs an output row with the row of its recording, so with the
    label given to that recording. *)
Theorem GroupingPerformance_init_pairs_output_rows (g : Grouping)
        (asr : list performance_row) (grouping_data : list labeled_row) :
  labeled_rows (data_with_group_labels g) (label_fieldname g) = inr grouping_data →
  NoDup (map Filename grouping_data) →
  ∃ self names labels,
    GroupingPerformance_init g asr = inr self
    ∧ grouping_performance.grouping self = g ∧ asr_performance self = asr
    ∧ map fst (merged_data self)
      ≡ₚ List.filter
           (λ r, bool_decide (performance_Filename r ∈ map Filename grouping_data)) asr
    ∧ getitem (data_with_group_labels g) "Filename" = inr (StrCol names)
    ∧ getitem (data_with_group_labels g) (label_fieldname g) = inr (StrCol labels)
    ∧ ∀ a b, (a, b) ∈ merged_data self →
             a ∈ asr
             ∧ ∃ i, names !! i = Some (performance_Filename a)
                    ∧ labels !! i = Some (label b).
Proof.
  intros Hrows Hnd.
  destruct (labeled_rows_inr _ _ _ Hrows) as (names & labels & Hnames & Hlabels & Hzip).
  eexists _, names, labels. unfold GroupingPerformance_init.
  rewrite (merge_data_eq _ _ _ Hrows). cbn [bind].
  split; [reflexivity|]. cbn [grouping_performance.grouping asr_performance merged_data].
  split; [done|]. split; [done|]. split.
  - by rewrite (map_fst_merge_NoDup performance_Filename Filename).
  - split; [done|]. split; [done|]. intros a b Hab.
    apply (elem_of_merge performance_Filename Filename) in Hab as (Ha & Hb & Hkey).
    split; [done|].
    assert ((Filename b, label b) ∈ zip names labels) as Hin.
    { rewrite <- Hzip. apply list_elem_of_fmap. by exists b. }
    apply list_elem_of_lookup in Hin as [i Hi]. exists i.
    apply lookup_zip_with_Some in Hi as (name & l & [= <- <-] & Hname & Hl).
    by rewrite <- Hkey.
Qed.

Lemma GroupingPerformance_init_pairs_output_rows_witness :
  ∃ self names labels,
    GroupingPerformance_init grouping_123 output_234 = inr self
    ∧ grouping_performance.grouping self = grouping_123
    ∧ asr_performance self = output_234
    ∧ map fst (merged_data self)
      ≡ₚ List.filter
           (λ r, bool_decide (performance_Filename r ∈ map Filename labeled_123))
           output_234
    ∧ getitem (data_with_group_labels grouping_123) "Filename" = inr (StrCol names)
    ∧ getitem (data_with_group_labels grouping_123) (label_fieldname grouping_123)
      = inr (StrCol labels)
    ∧ ∀ a b, (a, b) ∈ merged_data self →
             a ∈ output_234
             ∧ ∃ i, names !! i = Some (performance_Filename a)
                    ∧ labels !! i = Some (label b).
Proof.
  apply (GroupingPerformance_init_pairs_output_rows grouping_123 output_234 labeled_123).
  - vm_compute. reflexivity.
  - apply (bool_decide_unpack _). vm_compute. reflexivity.
Defined.

End merged_rows.

(** ** AsrPerformanceData.build_dataframe: the rows of the frame *)

Section performance_frame.
Import pandas asr_performance_data.

Lemma elem_of_combined_model_error_data (speaker_groups asr_models : list string)
      (read_csv : string → string → list error_counts) (e : model_error_row) :
  e ∈ combined_model_error_data speaker_groups asr_models read_csv ↔
  Model e ∈ asr_models
  ∧ ∃ group, group ∈ speaker_groups ∧ counts e ∈ read_csv group (Model e).
Proof.
  unfold combined_model_error_data.
  rewrite list_elem_of_In, in_concat. split.
  - intros (frame & Hframe & He).
    apply in_flat_map in Hframe as (group & Hgroup & Hframe).
    apply in_map_iff in Hframe as (model & <- & Hmodel).
    apply in_map_iff in He as (c & <- & Hc). simpl.
    split; [by apply list_elem_of_In|].
    exists group. split; by apply list_elem_of_In.
  - intros (Hmodel & group & Hgroup & Hc).
    exists (map (λ c, {| counts := c; Model := Model e |}) (read_csv group (Model e))).
    split.
    + apply in_flat_map. exists group. split; [by apply list_elem_of_In|].
      apply in_map_iff. exists (Model e). split; [done | by apply list_elem_of_In].
    + apply in_map_iff. exists (counts e). split; [by destruct e | by apply list_elem_of_In].
Qed.

(** With at least one speaker group and one model configured, the frame
    of [build_dataframe] holds exactly the pairs of a metadata row and an
    error row of the same speaker, the error row being a row of the file
    of some configured group for a configured model, marked with that
    model.  The group of the file is not compared with the group of the
    metadata. *)
Theorem build_dataframe_joins_configured_files (meta_data : list meta_row)
        (speaker_groups asr_models : list string)
        (read_csv : string → string → list error_counts) :
  speaker_groups ≠ [] → asr_models ≠ [] →
  ∀ (m : meta_row) (e : model_error_row),
    (m, e) ∈ build_dataframe meta_data speaker_groups asr_models read_csv ↔
    m ∈ meta_data
    ∧ SPKR (counts e) = meta_SPKR m
    ∧ Model e ∈ asr_models
    ∧ ∃ group, group ∈ speaker_groups ∧ counts e ∈ read_csv group (Model e).
Proof.
  intros _ _ m e. unfold build_dataframe.
  fold (combined_model_error_data speaker_groups asr_models read_csv).
  rewrite (elem_of_merge meta_SPKR (λ r, SPKR (counts r))).
  rewrite elem_of_combined_model_error_data. tauto.
Qed.

Lemma build_dataframe_joins_configured_files_witness :
  ({| meta_SPKR := "1"; meta_Filename := "1"; meta_Group := "DC" |},
   {| counts := {| SPKR := "1"; Wrd := 20; Sub := 2; Del := 0; Ins := 0 |};
      Model := "M3" |})
  ∉ build_dataframe meta_1 ["DC"] ["M1"; "M2"] read_two_models.
Proof.
  intros Hin.
  apply (build_dataframe_joins_configured_files meta_1 ["DC"] ["M1"; "M2"] read_two_models)
    in Hin as (_ & _ & Hmodel & _); [|discriminate|discriminate].
  apply list_elem_of_In in Hmodel. simpl in Hmodel.
  by destruct Hmodel as [?|[?|[]]].
Defined.

End performance_frame.

(** ** GroupingPerformance.get_group_counts_comparison: the totals *)

Section group_counts.
Import pandas asr_performance_data grouping_performance performance_methods tables.

Lemma length_filter_partition {A} (key : A → string) (ks : list string) (l : list A) :
  NoDup ks → (∀ a, a ∈ l → key a ∈ ks) →
  list_sum (map (λ k, length (List.filter (λ r, bool_decide (key r = k)) l)) ks)
  = length l.
Proof.
  intros Hnd Hkeys.
  rewrite <- (Permutation_length (concat_groups_Permutation key ks l Hnd Hkeys)).
  by rewrite length_concat_sum, map_map.
Qed.

Lemma filter_pair (pairs : list (string * string)) (i c : string) :
  List.filter (λ p, bool_decide (p = (i, c))) pairs
  = List.filter (λ p, bool_decide (p.2 = c))
                (List.filter (λ p, bool_decide (p.1 = i)) pairs).
Proof.
  induction pairs as [|[a b] pairs IH]; simpl; [done|].
  destruct (decide (a = i)) as [->|Ha].
  - rewrite (bool_decide_eq_true_2 (i = i)) by done. simpl.
    destruct (decide (b = c)) as [->|Hb].
    + rewrite !bool_decide_eq_true_2 by done. by rewrite IH.
    + rewrite (bool_decide_eq_false_2 (b = c)) by done.
      rewrite bool_decide_eq_false_2 by congruence. done.
  - rewrite (bool_decide_eq_false_2 (a = i)) by done.
    rewrite bool_decide_eq_false_2 by congruence. done.
Qed.

Lemma crosstab_row_sum (pairs : list (string * string)) (i : string) :
  list_sum (map (λ c, length (List.filter (λ p, bool_decide (p = (i, c))) pairs))
                (sorted_keys str_le (map snd pairs)))
  = length (List.filter (λ p, bool_decide (p.1 = i)) pairs).
Proof.
  rewrite <- (length_filter_partition snd (sorted_keys str_le (map snd pairs))
                (List.filter (λ p, bool_decide (p.1 = i)) pairs)).
  - f_equal. apply map_ext. intros c. by rewrite filter_pair.
  - apply NoDup_sorted_keys.
  - intros p Hp. apply elem_of_sorted_keys.
    apply list_elem_of_In, filter_In in Hp as [Hp _].
    apply list_elem_of_fmap. exists p. split; [done | by apply list_elem_of_In].
Qed.

Lemma column_position_le (name : string) (cols : list string) :
  (column_position name cols ≤ length cols)%nat.
Proof.
  induction cols as [|c cols IH]; simpl; [lia|]. case_bool_decide; lia.
Qed.

Lemma column_position_app (name : string) (cols : list string) :
  column_position name (cols ++ [name]) = column_position name cols.
Proof.
  induction cols as [|c cols IH]; simpl.
  - by rewrite bool_decide_eq_true_2.
  - by rewrite IH.
Qed.

Lemma nth_set_cell (cells : list nat) (position value : nat) :
  (position ≤ length cells)%nat → nth position (set_cell cells position value) O = value.
Proof.
  revert position. induction cells as [|c cells IH]; intros [|position]; simpl; try done.
  - lia.
  - intros Hle. apply IH. lia.
Qed.

Lemma zip_with_map_map {A B C D} (f : B → C → D) (g : A → B) (h : A → C) (l : list A) :
  zip_with f (map g l) (map h l) = map (λ x, f (g x) (h x)) l.
Proof. induction l as [|x l IH]; simpl; [done | by rewrite IH]. Qed.

Lemma crosstab_totals (pairs : list (string * string)) :
  let table := crosstab pairs in
  get_column (set_column table "Total" (row_sums table)) "Total"
  = inr (map (λ i, (i, length (List.filter (λ p, bool_decide (p.1 = i)) pairs)))
             (sorted_keys str_le (map fst pairs))).
Proof.
  cbn zeta. unfold get_column, set_column, row_sums, crosstab.
  cbn [ct_columns ct_rows].
  set (cols := sorted_keys str_le (map snd pairs)).
  set (position := column_position "Total" cols).
  assert (column_position "Total"
            (if bool_decide ("Total" ∈ cols) then cols else cols ++ ["Total"])
          = position) as Hposition.
  { case_bool_decide; [done | apply column_position_app]. }
  rewrite Hposition.
  assert (bool_decide
            ("Total" ∈ (if bool_decide ("Total" ∈ cols) then cols else cols ++ ["Total"]))
          = true) as ->.
  { apply bool_decide_eq_true. case_bool_decide; [done|].
    apply elem_of_app. right. by left. }
  f_equal. rewrite map_map.
  rewrite (zip_with_map_map
             (λ '(i, cells) v, (i, set_cell cells position v))
             (λ i, (i, map (λ c, length (List.filter (λ p, bool_decide (p = (i, c))) pairs))
                           cols))
             (λ i, list_sum
                     (map (λ c, length (List.filter (λ p, bool_decide (p = (i, c))) pairs))
                          cols))).
  rewrite map_map. apply map_ext. intros i. cbn beta iota. f_equal.
  rewrite nth_set_cell.
  - apply crosstab_row_sum.
  - rewrite length_map. apply column_position_le.
Qed.

Lemma length_groups_by_speaker (x y : analysis_row → string) (merged : list analysis_row) :
  length (groups_by_speaker x y merged)
  = length (remove_dups (map merged_Filename merged)).
Proof.
  unfold groups_by_speaker.
  assert (∀ (f : string * list analysis_row → option (string * (string * string))) groups,
            (∀ g, g ∈ groups → is_Some (f g)) → length (omap f groups) = length groups)
    as Homap.
  { intros f groups. induction groups as [|g groups IH]; intros Hsome; simpl; [done|].
    destruct (Hsome g) as [v ->]; [by left|]. simpl. f_equal.
    apply IH. intros g' Hg'. apply Hsome. by right. }
  rewrite Homap.
  - unfold groupby. rewrite length_map. unfold sorted_keys.
    apply Permutation_length, merge_sort_Permutation.
  - intros [name rows] Hg. apply elem_of_groupby in Hg as [_ Hne].
    destruct rows; [done | by eexists].
Qed.

(** For two different label columns that resolve, the table of
    [get_group_counts_comparison] has a column ['Total'] that gives, for
    each label of the first column, the number of recordings with that
    label; every label listed has at least one recording, no label is
    listed twice, and the totals add up to the number of distinct
    recordings of the merged frame. *)
Theorem get_group_counts_comparison_totals (self : GroupingPerformance)
        (x_label_fieldname y_label_fieldname : string)
        (x y : analysis_row → string) :
  x_label_fieldname ≠ y_label_fieldname →
  label_column self x_label_fieldname = inr x →
  label_column self y_label_fieldname = inr y →
  ∃ table totals,
    get_group_counts_comparison self x_label_fieldname y_label_fieldname = inr table
    ∧ get_column table "Total" = inr totals
    ∧ NoDup (map fst totals)
    ∧ (∀ i n, (i, n) ∈ totals ↔
              (1 ≤ n)%nat
              ∧ n = length (List.filter (λ s, bool_decide (s.2.1 = i))
                                        (groups_by_speaker x y (merged_data self))))
    ∧ list_sum (map snd totals)
      = length (remove_dups (map merged_Filename (merged_data self))).
Proof.
  intros _ Hx Hy. unfold get_group_counts_comparison. rewrite Hx, Hy. cbn [bind].
  set (speakers := groups_by_speaker x y (merged_data self)).
  eexists _, _. split; [reflexivity|]. split; [apply crosstab_totals|].
  assert (∀ i, List.filter (λ p : string * string, bool_decide (p.1 = i)) (map snd speakers)
               = map snd (List.filter (λ s, bool_decide (s.2.1 = i)) speakers)) as Hfilter.
  { intros i. induction speakers as [|s l IH]; simpl; [done|].
    destruct (bool_decide (s.2.1 = i)); simpl; by rewrite IH. }
  split; [|split].
  - rewrite map_map. simpl. rewrite map_id. apply NoDup_sorted_keys.
  - intros i n. rewrite list_elem_of_fmap. split.
    + intros (i' & [= -> ->] & Hi). rewrite Hfilter, length_map. split; [|done].
      apply elem_of_sorted_keys in Hi.
      destruct (List.filter _ speakers) as [|s l] eqn:E; [|simpl; lia].
      exfalso. apply (filter_key_nil (λ s : string * (string * string), s.2.1)) in E.
      apply E. by rewrite <- (map_map snd fst).
    + intros [Hn ->]. exists i. rewrite Hfilter, length_map. split; [done|].
      apply elem_of_sorted_keys. rewrite (map_map snd fst).
      destruct (decide (i ∈ map (λ s : string * (string * string), s.2.1) speakers))
        as [?|Hnin]; [done|].
      apply (filter_key_nil (λ s : string * (string * string), s.2.1)) in Hnin.
      rewrite Hnin in Hn. simpl in Hn. lia.
  - rewrite map_map. simpl.
    rewrite (length_filter_partition fst); [| apply NoDup_sorted_keys |].
    + rewrite length_map. apply length_groups_by_speaker.
    + intros p Hp. apply elem_of_sorted_keys. apply list_elem_of_fmap. by exists p.
Qed.

Lemma get_group_counts_comparison_totals_witness :
  ∃ table totals,
    get_group_counts_comparison performance_2_1_1_20 "Cluster" "Group" = inr table
    ∧ get_column table "Total" = inr totals
    ∧ NoDup (map fst totals)
    ∧ (∀ i n, (i, n) ∈ totals ↔
              (1 ≤ n)%nat
              ∧ n = length (List.filter
                              (λ s, bool_decide (s.2.1 = i))
                              (groups_by_speaker (λ a, label a.2) (λ a, meta_Group a.1.1)
                                 (merged_data performance_2_1_1_20))))
    ∧ list_sum (map snd totals)
      = length (remove_dups (map merged_Filename (merged_data performance_2_1_1_20))).
Proof.
  apply (get_group_counts_comparison_totals performance_2_1_1_20 "Cluster" "Group"
           (λ a, label a.2) (λ a, meta_Group a.1.1)).
  - discriminate.
  - reflexivity.
  - reflexivity.
Defined.

End group_counts.

(** ** FilepathManager: the speaking style of a path *)

Section speaking_styles.
Import filepaths.
Variable format : string → list (string * string) → Exc string.

Lemma get_styles_fold (config : list style_entry) (d : pydict.dict style_data)
      (id : string) :
  pydict.get id
    (fold_left
       (λ d entry,
          pydict.setitem (entry_id entry)
            {| style_name := entry_name entry;
               abbreviation := entry_abbreviation entry |} d)
       config d)
  = match last (List.filter (λ e, bool_decide (entry_id e = id)) config) with
    | Some e => Some {| style_name := entry_name e; abbreviation := entry_abbreviation e |}
    | None => pydict.get id d
    end.
Proof.
  revert d. induction config as [|e config IH]; intros d; simpl; [done|].
  rewrite IH, get_setitem. case_bool_decide as Hid.
  - rewrite decide_True by done.
    destruct (List.filter _ config) as [|e' l] eqn:E; [done|].
    rewrite last_cons_cons, (last_cons e' l). by destruct (last l).
  - rewrite decide_False by done. done.
Qed.

Lemma head_keys_styles_fold (config : list style_entry) (d : pydict.dict style_data) :
  head (pydict.keys
          (fold_left
             (λ d entry,
                pydict.setitem (entry_id entry)
                  {| style_name := entry_name entry;
                     abbreviation := entry_abbreviation entry |} d)
             config d))
  = match head (pydict.keys d) with
    | Some k => Some k
    | None => entry_id <$> head config
    end.
Proof.
  revert d. induction config as [|e config IH]; intros d; simpl.
  - by destruct (head (pydict.keys d)).
  - rewrite IH. destruct d as [|[k v] d]; [done|].
    cbn [pydict.setitem]. case_bool_decide as Hk; simpl; [by rewrite Hk | done].
Qed.

Lemma first_entry_styles_of_config (e : style_entry) (rest : list style_entry) :
  ∃ e', last (List.filter (λ x, bool_decide (entry_id x = entry_id e)) (e :: rest))
        = Some e'
        ∧ first_entry (styles_of_config (e :: rest))
          = inr {| style_name := entry_name e'; abbreviation := entry_abbreviation e' |}.
Proof.
  pose proof (get_styles_fold (e :: rest) [] (entry_id e)) as Hget.
  pose proof (head_keys_styles_fold (e :: rest) []) as Hhead.
  fold (styles_of_config (e :: rest)) in Hget, Hhead.
  cbn [List.filter] in *. rewrite bool_decide_eq_true_2 in * by done.
  destruct (last (e :: List.filter _ rest)) as [e'|] eqn:Hlast.
  - exists e'. split; [done|]. unfold first_entry.
    destruct (styles_of_config (e :: rest)) as [|[k v] d]; [done|].
    simpl in Hhead. injection Hhead as ->. by rewrite Hget.
  - rewrite last_cons in Hlast. by destruct (last (List.filter _ rest)).
Qed.

(** With the styles of a configuration that lists at least one, a
    style identifier that is not configured is served as the identifier
    of the first entry: the style data are those the dictionary holds
    for that identifier, which are the ones of the last entry that
    carries it, and the metadata and error-rate paths are the paths of
    that style.  No [KeyError] is raised for the unknown identifier. *)
Theorem unknown_speaking_style_uses_first_entry (self : FilepathManager)
        (e : style_entry) (rest : list style_entry) (speaking_style_id : string) :
  speaking_styles_data self = styles_of_config (e :: rest) →
  speaking_style_id ∉ map entry_id (e :: rest) →
  ∃ e',
    last (List.filter (λ x, bool_decide (entry_id x = entry_id e)) (e :: rest)) = Some e'
    ∧ get_speaking_style_data self speaking_style_id
      = inr {| style_name := entry_name e'; abbreviation := entry_abbreviation e' |}
    ∧ get_speaking_style_data self speaking_style_id
      = get_speaking_style_data self (entry_id e)
    ∧ get_meta_path format self speaking_style_id
      = get_meta_path format self (entry_id e)
    ∧ ∀ speaker_group asr_model,
        get_error_rate_path format self speaking_style_id speaker_group asr_model
        = get_error_rate_path format self (entry_id e) speaker_group asr_model.
Proof.
  intros Hstyles Hunknown.
  destruct (first_entry_styles_of_config e rest) as (e' & Hlast & Hfirst).
  exists e'. split; [done|].
  assert (get_speaking_style_data self speaking_style_id
          = inr {| style_name := entry_name e'; abbreviation := entry_abbreviation e' |})
    as Hunknown_data.
  { unfold get_speaking_style_data. rewrite Hstyles, Hfirst.
    unfold styles_of_config. rewrite get_styles_fold.
    destruct (List.filter (λ x, bool_decide (entry_id x = speaking_style_id)) (e :: rest))
      as [|x l] eqn:E; [done|].
    exfalso. apply Hunknown.
    assert (In x (x :: l)) as Hx by (by left). rewrite <- E in Hx.
    apply filter_In in Hx as [Hx Hid]. apply bool_decide_eq_true in Hid.
    apply list_elem_of_fmap. exists x. split; [done | by apply list_elem_of_In]. }
  assert (get_speaking_style_data self (entry_id e)
          = inr {| style_name := entry_name e'; abbreviation := entry_abbreviation e' |})
    as Hfirst_data.
  { unfold get_speaking_style_data. rewrite Hstyles, Hfirst.
    unfold styles_of_config. rewrite get_styles_fold. by rewrite Hlast. }
  split; [done|]. split; [congruence|]. split.
  - unfold get_meta_path. by rewrite Hunknown_data, Hfirst_data.
  - intros speaker_group asr_model. unfold get_error_rate_path.
    by rewrite Hunknown_data, Hfirst_data.
Qed.

(** Without any configured speaking style there is no first entry:
    every request for style data or for a path raises [StopIteration],
    whatever the identifier and whatever the templates. *)
Theorem no_speaking_style_raises_StopIteration (self : FilepathManager)
        (speaking_style_id : string) :
  speaking_styles_data self = styles_of_config [] →
  get_speaking_style_data self speaking_style_id = inl StopIteration
  ∧ get_meta_path format self speaking_style_id = inl StopIteration
  ∧ ∀ speaker_group asr_model,
      get_error_rate_path format self speaking_style_id speaker_group asr_model
      = inl StopIteration.
Proof.
  intros Hstyles.
  assert (get_speaking_style_data self speaking_style_id = inl StopIteration) as Hdata.
  { unfold get_speaking_style_data. by rewrite Hstyles. }
  split; [done|]. split.
  - unfold get_meta_path. by rewrite Hdata.
  - intros speaker_group asr_model. unfold get_error_rate_path. by rewrite Hdata.
Qed.

End speaking_styles.

Section speaking_styles_witnesses.
Import filepaths.

Lemma unknown_speaking_style_uses_first_entry_witness :
  get_meta_path format_template (manager_of_styles [read_speech]) "spontaneous"
  = get_meta_path format_template (manager_of_styles [read_speech]) "read".
Proof.
  destruct (unknown_speaking_style_uses_first_entry format_template
              (manager_of_styles [read_speech]) read_speech [] "spontaneous")
    as (e' & _ & _ & _ & Hmeta & _).
  - reflexivity.
  - intros Hin. apply list_elem_of_In in Hin. simpl in Hin. by destruct Hin as [?|[]].
  - exact Hmeta.
Defined.

Lemma no_speaking_style_raises_StopIteration_witness :
  get_meta_path format_template (manager_of_styles []) "read" = inl StopIteration.
Proof.
  apply (no_speaking_style_raises_StopIteration format_template
           (manager_of_styles []) "read").
  reflexivity.
Defined.

End speaking_styles_witnesses.

(** ** main.py: the pipeline of one feature subset *)

Section pipeline.
Import pandas data_prep grouping grouping_methods asr_performance_data
       grouping_performance performance_methods main.
Context {Scaler : Type}.
Variable fit_transform : Scaler → list (string * Column) → Exc (Scaler * ndarray).
Variable check_normality : DataFrame → list string → Exc unit.

Lemma normalize_data_inr (self self' : DataPrep) (scaler scaler' : Scaler) :
  normalize_data fit_transform check_normality self scaler false = inr (self', scaler') →
  ∃ a, self' = set_normalized_data self a.
Proof.
  unfold normalize_data. simpl.
  destruct (select (data self) (pydict.keys (custom_features self))); [done|]. simpl.
  destruct (fit_transform scaler _) as [?|[s a]]; [done|]. simpl.
  intros [= <- <-]. by exists a.
Qed.

Lemma Clustering_stored (default_scaler : Scaler)
      (fit_predict : ndarray → Exc (list string)) (dp : DataPrep) (a : ndarray) :
  normalized_data dp = Some a →
  Clustering fit_transform check_normality default_scaler fit_predict dp =
  let* group_labels := fit_predict a in
  let* data_with_group_labels := assign (data dp) "Cluster" group_labels in
  ret {| grouping_data_prep := dp;
         label_fieldname := "Cluster";
         group_labels := group_labels;
         data_with_group_labels := data_with_group_labels |}.
Proof.
  intros Hstored. unfold Clustering, get_normalized_data, _add_labels.
  rewrite Hstored. cbn [bind fst snd]. by rewrite Hstored.
Qed.

Lemma sizes_min_inr (sizes : list nat) (smallest : nat) :
  sizes_min sizes = inr smallest →
  smallest ∈ sizes ∧ ∀ n, n ∈ sizes → (smallest ≤ n)%nat.
Proof.
  destruct sizes as [|n sizes]; [done|]. simpl. intros [= <-].
  revert n. induction sizes as [|m sizes IH]; intros n; simpl.
  - split; [by left|]. intros ? ->%list_elem_of_singleton. done.
  - destruct (IH (n `min` m)) as [Hin Hle]. split.
    + apply elem_of_cons in Hin as [Heq|Hin]; [|by do 2 right].
      rewrite Heq. destruct (Nat.min_spec n m) as [[_ ->]|[_ ->]]; [by left|].
      right. by left.
    + intros k Hk.
      assert (fold_left Nat.min sizes (n `min` m) ≤ n `min` m)%nat as Hmin
          by (apply Hle; by left).
      apply elem_of_cons in Hk as [->|Hk]; [lia|].
      apply elem_of_cons in Hk as [->|Hk]; [lia|].
      apply Hle. by right.
Qed.

Lemma elem_of_get_group_sizes (g : Grouping) (l : string) (n : nat) :
  (l, n) ∈ get_group_sizes g ↔
  l ∈ group_labels g
  ∧ n = length (List.filter (λ x, bool_decide (x = l)) (group_labels g)).
Proof.
  rewrite get_group_sizes_eq, list_elem_of_fmap. split.
  - intros (v & [= -> ->] & Hv). by apply elem_of_sorted_keys in Hv.
  - intros [Hl ->]. exists l. split; [done|]. by apply elem_of_sorted_keys.
Qed.

Lemma bias_metric_pipeline2_default (scaler default_scaler other_default : Scaler)
      (fit_predict : ndarray → Exc (list string)) (csv : DataFrame)
      (speaking_style : string)
      (custom_features : option (pydict.dict (string * string)))
      (bm : metrics.BiasMeasure) (asr : list performance_row) (excluded : list string) :
  bias_metric_pipeline2 fit_transform check_normality scaler other_default fit_predict
    csv speaking_style custom_features bm asr excluded
  = bias_metric_pipeline2 fit_transform check_normality scaler default_scaler fit_predict
      csv speaking_style custom_features bm asr excluded.
Proof.
  unfold bias_metric_pipeline2.
  destruct (DataPrep_init csv speaking_style custom_features excluded) as [?|dp]; [done|].
  cbn [bind].
  destruct (normalize_data fit_transform check_normality dp scaler false)
    as [?|[dp' scaler']] eqn:Hnormalize; [done|]. cbn [bind fst].
  destruct (normalize_data_inr _ _ _ _ Hnormalize) as [a ->].
  by rewrite !(Clustering_stored _ fit_predict (set_normalized_data dp a) a eq_refl).
Qed.

(** A run of [bias_metric_pipeline2] that returns has loaded the
    features, fitted the scaler made in the function and clustered the
    array that scaler gave; the scaler that is the default argument of
    [get_normalized_data] plays no part.  The result is [None] exactly
    when some cluster has fewer than ten rows; otherwise it is the
    overall bias, with at least one entry and entries only for models of
    the recognition output. *)
Theorem bias_metric_pipeline2_size_guard (scaler default_scaler : Scaler)
        (fit_predict : ndarray → Exc (list string)) (csv : DataFrame)
        (speaking_style : string)
        (custom_features : option (pydict.dict (string * string)))
        (bm : metrics.BiasMeasure) (asr : list performance_row)
        (excluded : list string) (result : option (gmap string float)) :
  bias_metric_pipeline2 fit_transform check_normality scaler default_scaler fit_predict
    csv speaking_style custom_features bm asr excluded = inr result →
  ∃ dp scaler' a labels,
    DataPrep_init csv speaking_style custom_features excluded = inr dp
    ∧ normalize_data fit_transform check_normality dp scaler false
      = inr (set_normalized_data dp a, scaler')
    ∧ fit_predict a = inr labels
    ∧ labels ≠ []
    ∧ (result = None ↔
       ∃ l, l ∈ labels
            ∧ (length (List.filter (λ x, bool_decide (x = l)) labels) < 10)%nat)
    ∧ (∀ bias, result = Some bias →
               dom bias ≠ ∅
               ∧ ∀ model, model ∈ dom bias → ∃ r, r ∈ asr ∧ Model r.2 = model)
    ∧ ∀ other_default : Scaler,
        bias_metric_pipeline2 fit_transform check_normality scaler other_default
          fit_predict csv speaking_style custom_features bm asr excluded = inr result.
Proof.
  intros Hrun.
  assert (∀ other_default : Scaler,
            bias_metric_pipeline2 fit_transform check_normality scaler other_default
              fit_predict csv speaking_style custom_features bm asr excluded = inr result)
    as Hdefault.
  { intros other_default. by rewrite (bias_metric_pipeline2_default _ default_scaler). }
  revert Hrun. unfold bias_metric_pipeline2 at 1.
  destruct (DataPrep_init csv speaking_style custom_features excluded) as [?|dp] eqn:Hinit;
    [done|]. cbn [bind].
  destruct (normalize_data fit_transform check_normality dp scaler false)
    as [?|[dp' scaler']] eqn:Hnormalize; [done|]. cbn [bind fst].
  destruct (normalize_data_inr _ _ _ _ Hnormalize) as [a ->].
  rewrite !(Clustering_stored _ fit_predict (set_normalized_data dp a) a eq_refl).
  destruct (fit_predict a) as [?|labels] eqn:Hfit; [done|]. cbn [bind].
  destruct (assign (data (set_normalized_data dp a)) "Cluster" labels)
    as [?|frame] eqn:Hassign; [done|]. cbn [bind].
  set (g := {| grouping_data_prep := set_normalized_data dp a;
               label_fieldname := "Cluster";
               group_labels := labels;
               data_with_group_labels := frame |}).
  destruct (sizes_min (map snd (get_group_sizes g))) as [?|smallest] eqn:Hmin; [done|].
  cbn [bind]. intros Hresult.
  exists dp, scaler', a, labels.
  split; [done|]. split; [done|]. split; [done|].
  apply sizes_min_inr in Hmin as [Hin Hle].
  apply list_elem_of_fmap in Hin as ([l n] & Hn & Hin). simpl in Hn. subst n.
  apply elem_of_get_group_sizes in Hin as [Hl Hcount]. cbn [group_labels g] in Hl, Hcount.
  split; [by destruct labels; [inversion Hl|]|].
  assert (∀ l', l' ∈ labels →
                (smallest ≤ length (List.filter (λ x, bool_decide (x = l')) labels))%nat)
    as Hsmallest.
  { intros l' Hl'. apply Hle. apply list_elem_of_fmap.
    exists (l', length (List.filter (λ x, bool_decide (x = l')) labels)).
    split; [done|]. by apply elem_of_get_group_sizes. }
  destruct (smallest <? 10)%nat eqn:Hguard.
  - apply Nat.ltb_lt in Hguard. injection Hresult as <-.
    split; [|split; [done|]].
    + split; [|done]. intros _. exists l. split; [done | lia].
    + exact Hdefault.
  - apply Nat.ltb_ge in Hguard.
    destruct (GroupingPerformance_init g asr) as [?|self] eqn:Hperformance; [done|].
    cbn [bind] in Hresult.
    destruct (calculate_bias self "Cluster" bm) as [?|bias] eqn:Hbias; [done|].
    cbn [bind] in Hresult. injection Hresult as <-.
    split; [|split].
    + split; [done|]. intros (l' & Hl' & Hlt). specialize (Hsmallest l' Hl'). lia.
    + intros ? [= <-].
      unfold GroupingPerformance_init in Hperformance.
      destruct (merge_data g asr) as [?|merged] eqn:Hmerge; [done|].
      cbn [bind] in Hperformance. injection Hperformance as <-.
      unfold merge_data in Hmerge.
      destruct (labeled_rows (data_with_group_labels g) (label_fieldname g))
        as [?|grouping_data]; [done|]. cbn [bind] in Hmerge. injection Hmerge as <-.
      unfold calculate_bias in Hbias.
      set (merged := merge asr grouping_data _ _) in *.
      assert (label_column {| grouping := g; asr_performance := asr;
                              merged_data := merged |} "Cluster"
              = inr (λ r, label r.2)) as Hlabel by reflexivity.
      rewrite (get_group_WERs_inr _ _ _ Hlabel) in Hbias.
      cbn [bind merged_data] in Hbias.
      destruct (metrics_methods.OverallBias_compute_call bm _) as [?|computed] eqn:Hcall;
        [done|]. cbn [bind] in Hbias. injection Hbias as <-.
      apply OverallBias_compute_call_inr in Hcall as [Hrows ->].
      rewrite OverallBias_compute_dom, models_of_group_WER_table. split.
      * intros Hempty. apply Hrows.
        destruct merged as [|r rs] eqn:E; [done|].
        exfalso. cbn [map list_to_set] in Hempty. set_solver.
      * intros model Hmodel. apply elem_of_list_to_set, list_elem_of_fmap in Hmodel
          as ([[m e] b] & -> & Hin). subst merged.
        apply (elem_of_merge (λ r : performance_row, meta_Filename r.1) Filename) in Hin
          as (Hin & _). by exists (m, e).
    + exact Hdefault.
Qed.

End pipeline.

Section pipeline_witness.
Import pandas data_prep main.

Lemma bias_metric_pipeline2_size_guard_witness :
  bias_metric_pipeline2 counting_scaler (λ _ _, inr tt) 0 7
    (λ _, inr ["0"; "1"; "0"]) features_123 "read" (Some []) metrics.DiffBias
    output_234 [] = inr None.
Proof.
  destruct (bias_metric_pipeline2_size_guard counting_scaler (λ _ _, inr tt) 0 0
              (λ _, inr ["0"; "1"; "0"]) features_123 "read" (Some []) metrics.DiffBias
              output_234 [] None)
    as (dp & scaler' & a & labels & _ & _ & _ & _ & _ & _ & Hdefault).
  - vm_compute. reflexivity.
  - exact (Hdefault 7).
Defined.

End pipeline_witness.
